(** * Freebox dashboard: session manager, request facade and capability detector

    A shallow embedding of the server core of the dashboard:
    - [types/capabilities.ts]: the hardware families, their static capability
      table, [detectModelFromName] and [buildCapabilities];
    - [services/freeboxApi.ts]: the token store, the request facade and the
      challenge-response session manager of [FreeboxApiService];
    - [services/modelDetection.ts]: [ModelDetectionService];
    - [routes/vm.ts], [routes/auth.ts], [routes/capabilities.ts] and
      [routes/wifi.ts]: the handlers that gate on the capabilities or on
      the permissions, each as the reply it leaves or the error it throws
      to the error-handling middleware;
    - the string helpers of the dashboard: [formatBand], [getDisplayName]
      and [generateWifiString].

    JavaScript strings are modelled as byte strings (their UTF-8 text),
    except the paths of the file methods, which are given by their UTF-16
    code units since [Buffer.from] looks at them; numbers of the
    capability table as [Z], values that come out of
    [JSON.parse] as the untyped [JsVal] below, and asynchronous calls as
    sequential state passing over a [World] that holds the service fields,
    the file system and the log of the HTTP requests issued so far: each
    operation runs to its end before the next one starts.  The request
    timer is not modelled: a request that times out is an exchange that
    [fetch] rejects. *)

From Stdlib Require Import String Ascii List Bool ZArith NArith Lia DecimalString.
Import ListNotations.
Open Scope string_scope.
Set Warnings "-register-all".

(* ------------------------------------------------------------------ *)
(** ** String primitives of the runtime *)

(** [s.includes(needle)]: [needle] occurs in [s] as a contiguous run. *)
Fixpoint includes (s needle : string) : bool :=
  prefix needle s ||
  match s with
  | EmptyString => false
  | String _ rest => includes rest needle
  end.

(** [s.startsWith(p)]. *)
Definition startsWith (s p : string) : bool := prefix p s.

(** Case mapping of one character: the letters [A]..[Z] go to [a]..[z],
    every other byte is kept. *)
Definition lower_ascii (c : ascii) : ascii :=
  let n := N_of_ascii c in
  if (65 <=? n)%N && (n <=? 90)%N then ascii_of_N (n + 32) else c.

(** [s.toLowerCase()] on the ASCII letters; the bytes of characters outside
    ASCII are left as they are (the appliance's identifiers are ASCII). *)
Fixpoint toLowerCase (s : string) : string :=
  match s with
  | EmptyString => EmptyString
  | String c rest => String (lower_ascii c) (toLowerCase rest)
  end.

(* ------------------------------------------------------------------ *)
(** ** types/capabilities.ts *)

Inductive FreeboxModel := ultra | delta | pop | revolution | unknown.
Inductive VmSupport := vm_full | vm_limited | vm_none.
Inductive TemperatureType := quad_core | legacy.
Inductive BoxFlavor := flavor_full | flavor_light.

Definition FreeboxModel_eqb (a b : FreeboxModel) : bool :=
  match a, b with
  | ultra, ultra | delta, delta | pop, pop
  | revolution, revolution | unknown, unknown => true
  | _, _ => false
  end.

Definition BoxFlavor_eqb (a b : BoxFlavor) : bool :=
  match a, b with
  | flavor_full, flavor_full | flavor_light, flavor_light => true
  | _, _ => false
  end.

(** [interface ModelBaseCapabilities]. *)
Record ModelBaseCapabilities := mkBase {
  base_model : FreeboxModel;
  base_wifi6ghz : bool;
  base_wifi7 : bool;
  base_vmSupport : VmSupport;
  base_maxVms : Z;
  base_maxVmRam : Z;
  base_temperatureType : TemperatureType;
  base_temperatureFields : list string;
  base_hasInternalStorage : bool;
  base_maxEthernetSpeed : Z;
  base_maxDownloadSpeed : Z;
  base_maxUploadSpeed : Z
}.

(** [interface FreeboxCapabilities]. *)
Record FreeboxCapabilities := mkCaps {
  model : FreeboxModel;
  modelName : string;
  boxFlavor : BoxFlavor;
  wifi6ghz : bool;
  wifi7 : bool;
  vmSupport : VmSupport;
  maxVms : Z;
  maxVmRam : Z;
  temperatureType : TemperatureType;
  temperatureFields : list string;
  hasInternalStorage : bool;
  maxEthernetSpeed : Z;
  maxDownloadSpeed : Z;
  maxUploadSpeed : Z
}.

Definition legacy_fields : list string := ["temp_cpum"; "temp_sw"; "temp_cpub"].

(** [MODEL_CAPABILITIES]: the static table, one row per family. *)
Definition MODEL_CAPABILITIES (m : FreeboxModel) : ModelBaseCapabilities :=
  match m with
  | ultra =>
      mkBase ultra true true vm_full 10 16 quad_core
             ["temp_cpu0"; "temp_cpu1"; "temp_cpu2"; "temp_cpu3"]
             false 10000 8000 8000
  | delta =>
      mkBase delta true false vm_limited 3 16 legacy legacy_fields
             true 10000 8000 700
  | pop =>
      mkBase pop false true vm_none 0 0 legacy legacy_fields
             false 2500 5000 700
  | revolution =>
      mkBase revolution false false vm_none 0 0 legacy legacy_fields
             true 1000 1000 600
  | unknown =>
      mkBase unknown false false vm_none 0 0 legacy legacy_fields
             false 1000 1000 600
  end.

(** [detectModelFromName]: ordered substring tests on the lower-cased name. *)
Definition detectModelFromName (name : string) : FreeboxModel :=
  let lower := toLowerCase name in
  if includes lower "v9" || includes lower "ultra" then ultra
  else if includes lower "pop" then pop
  else if includes lower "v8" || includes lower "delta"
          || includes lower "fbxgw8" then delta
  else if includes lower "v6" || includes lower "revolution"
          || includes lower "r√©volution" || includes lower "fbxgw1"
       then revolution
  else if includes lower "v7" || includes lower "mini"
          || includes lower "fbxgw7" then revolution
  else unknown.

(** [buildCapabilities]: the family's row, the two runtime fields, and
    [hasInternalStorage] recomputed from the flavor. *)
Definition buildCapabilities (m : FreeboxModel) (name : string)
    (flavor : BoxFlavor) : FreeboxCapabilities :=
  let base := MODEL_CAPABILITIES m in
  {| model := base_model base;
     modelName := name;
     boxFlavor := flavor;
     wifi6ghz := base_wifi6ghz base;
     wifi7 := base_wifi7 base;
     vmSupport := base_vmSupport base;
     maxVms := base_maxVms base;
     maxVmRam := base_maxVmRam base;
     temperatureType := base_temperatureType base;
     temperatureFields := base_temperatureFields base;
     hasInternalStorage := BoxFlavor_eqb flavor flavor_full;
     maxEthernetSpeed := base_maxEthernetSpeed base;
     maxDownloadSpeed := base_maxDownloadSpeed base;
     maxUploadSpeed := base_maxUploadSpeed base |}.


(* ------------------------------------------------------------------ *)
(** ** JavaScript values and exceptions *)

(** The values [JSON.parse] can produce, and [undefined].  A number is kept
    as its JSON text: the services never compute with one. *)
Inductive JsVal :=
| VUndefined
| VNull
| VBool (b : bool)
| VNum (lexeme : string)
| VStr (s : string)
| VArr (items : list JsVal)
| VObj (fields : list (string * JsVal)).

(** What a [throw] carries: an [Error] object (with its class name and
    [message]) or some other value. *)
Inductive JsError :=
| ErrorObj (name message : string)
| NonError.

Inductive Outcome (A : Type) :=
| Returned (a : A)
| Thrown (e : JsError).
Arguments Returned {A} a.
Arguments Thrown {A} e.

Definition is_digit (c : ascii) : bool :=
  let n := N_of_ascii c in (48 <=? n)%N && (n <=? 57)%N.

(** A number's text denotes zero when its digits before the exponent are
    all [0] (rounding to zero of a tiny number apart). *)
Fixpoint lexeme_is_zero (l : string) : bool :=
  match l with
  | EmptyString => true
  | String c rest =>
      if (c =? "e")%char || (c =? "E")%char then true
      else if is_digit c then (c =? "0")%char && lexeme_is_zero rest
      else lexeme_is_zero rest
  end.

(** ToBoolean. *)
Definition truthy (v : JsVal) : bool :=
  match v with
  | VUndefined | VNull => false
  | VBool b => b
  | VNum l => negb (lexeme_is_zero l)
  | VStr s => negb (s =? "")
  | VArr _ | VObj _ => true
  end.

Fixpoint assoc (k : string) (fs : list (string * JsVal)) : option JsVal :=
  match fs with
  | [] => None
  | (k', v) :: rest => if k =? k' then Some v else assoc k rest
  end.

(** [o[k] = v] on an object's own properties: an existing key keeps its
    place, a new one goes last. *)
Fixpoint obj_set (k : string) (v : JsVal) (fs : list (string * JsVal))
  : list (string * JsVal) :=
  match fs with
  | [] => [(k, v)]
  | (k', v') :: rest =>
      if k =? k' then (k', v) :: rest else (k', v') :: obj_set k v rest
  end.

(** [v.k] for the data property names the services read: reading from
    [undefined] or [null] throws a TypeError, a missing property and any
    property of a primitive or an array is [undefined]. *)
Definition get (v : JsVal) (k : string) : Outcome JsVal :=
  match v with
  | VUndefined | VNull =>
      Thrown (ErrorObj "TypeError"
                ("Cannot read properties of undefined or null (reading '"
                 ++ k ++ "')"))
  | VObj fs => Returned (match assoc k fs with Some x => x | None => VUndefined end)
  | _ => Returned VUndefined
  end.

(** [a || b]. *)
Definition js_or (a b : JsVal) : JsVal := if truthy a then a else b.

(** [v === 'text']. *)
Definition strict_eq_str (v : JsVal) (text : string) : bool :=
  match v with
  | VStr s => s =? text
  | _ => false
  end.

Definition join_with (sep : string) (parts : list string) : string :=
  match parts with
  | [] => ""
  | p :: rest => fold_left (fun acc x => acc ++ sep ++ x) rest p
  end.

(** ToString, as [new Error(v)] and template literals apply it; a number
    is rendered by its JSON text. *)
Fixpoint js_toString (v : JsVal) : string :=
  match v with
  | VUndefined => "undefined"
  | VNull => "null"
  | VBool true => "true"
  | VBool false => "false"
  | VNum l => l
  | VStr s => s
  | VArr items =>
      join_with ","
        (map (fun x => match x with
                       | VUndefined | VNull => ""
                       | _ => js_toString x
                       end) items)
  | VObj _ => "[object Object]"
  end.

(* ------------------------------------------------------------------ *)
(** ** JSON.stringify and JSON.parse *)

Definition dquote : ascii := "034"%char.
Definition backslash : ascii := "092"%char.
Definition newline : ascii := "010"%char.

Definition hex_digit (n : N) : ascii :=
  if (n <? 10)%N then ascii_of_N (48 + n) else ascii_of_N (87 + n).

(** QuoteJSONString, one character. *)
Definition quote_char (c : ascii) : string :=
  let n := N_of_ascii c in
  if (n =? 34)%N then String backslash (String dquote "")
  else if (n =? 92)%N then String backslash (String backslash "")
  else if (n =? 8)%N then String backslash "b"
  else if (n =? 9)%N then String backslash "t"
  else if (n =? 10)%N then String backslash "n"
  else if (n =? 12)%N then String backslash "f"
  else if (n =? 13)%N then String backslash "r"
  else if (n <? 32)%N then
    String backslash
      (String "u" (String "0" (String "0"
         (String (hex_digit (n / 16)) (String (hex_digit (n mod 16)) "")))))
  else String c "".

Fixpoint quote_chars (s : string) : string :=
  match s with
  | EmptyString => EmptyString
  | String c rest => quote_char c ++ quote_chars rest
  end.

Definition quote (s : string) : string :=
  String dquote (quote_chars s ++ String dquote "").

(** The brackets of an object or array around its serialized parts, with
    the line breaks and indentation [JSON.stringify] adds when [gap] is not
    empty. *)
Definition wrap (opening closing gap cur : string) (parts : list string)
  : string :=
  match parts with
  | [] => opening ++ closing
  | _ =>
      if gap =? "" then opening ++ join_with "," parts ++ closing
      else
        let inner := cur ++ gap in
        opening ++ String newline inner
        ++ join_with ("," ++ String newline inner) parts
        ++ String newline cur ++ closing
  end.

(** SerializeJSONProperty: [None] is [undefined]. *)
Fixpoint serialize (gap cur : string) (v : JsVal) : option string :=
  match v with
  | VUndefined => None
  | VNull => Some "null"
  | VBool true => Some "true"
  | VBool false => Some "false"
  | VNum l => Some l
  | VStr s => Some (quote s)
  | VArr items =>
      Some (wrap "[" "]" gap cur
              (map (fun x => match serialize gap (cur ++ gap) x with
                             | Some t => t
                             | None => "null"
                             end) items))
  | VObj fs =>
      Some (wrap "{" "}" gap cur
              (flat_map
                 (fun kv =>
                    match serialize gap (cur ++ gap) (snd kv) with
                    | Some t =>
                        [quote (fst kv) ++ ":"
                         ++ (if gap =? "" then "" else " ") ++ t]
                    | None => []
                    end) fs))
  end.

Fixpoint spaces (n : nat) : string :=
  match n with
  | O => ""
  | S k => String " " (spaces k)
  end.

(** [JSON.stringify(v, null, indent)]; [JSON.stringify(v)] is indent 0. *)
Definition JSON_stringify (v : JsVal) (indent : nat) : option string :=
  serialize (spaces (Nat.min indent 10)) "" v.

(** *** JSON.parse *)

Definition is_ws (c : ascii) : bool :=
  let n := N_of_ascii c in
  (n =? 32)%N || (n =? 9)%N || (n =? 10)%N || (n =? 13)%N.

Fixpoint skip_ws (s : string) : string :=
  match s with
  | String c rest => if is_ws c then skip_ws rest else s
  | EmptyString => s
  end.

Definition hex_value (c : ascii) : option N :=
  let n := N_of_ascii c in
  if (48 <=? n)%N && (n <=? 57)%N then Some (n - 48)%N
  else if (97 <=? n)%N && (n <=? 102)%N then Some (n - 87)%N
  else if (65 <=? n)%N && (n <=? 70)%N then Some (n - 55)%N
  else None.

(** The code unit of the four hex digits after a backslash-u. *)
Definition hex4 (a b c d : ascii) : option N :=
  match hex_value a, hex_value b, hex_value c, hex_value d with
  | Some x, Some y, Some z, Some w => Some (((x * 16 + y) * 16 + z) * 16 + w)%N
  | _, _, _, _ => None
  end.

(** UTF-8 bytes of a code point. *)
Definition utf8 (cp : N) : string :=
  let byte n := ascii_of_N n in
  (if cp <? 128 then String (byte cp) ""
   else if cp <? 2048 then
     String (byte (192 + cp / 64)) (String (byte (128 + cp mod 64)) "")
   else if cp <? 65536 then
     String (byte (224 + cp / 4096))
       (String (byte (128 + (cp / 64) mod 64))
          (String (byte (128 + cp mod 64)) ""))
   else
     String (byte (240 + cp / 262144))
       (String (byte (128 + (cp / 4096) mod 64))
          (String (byte (128 + (cp / 64) mod 64))
             (String (byte (128 + cp mod 64)) ""))))%N.

Definition simple_escape (e : ascii) : option ascii :=
  let n := N_of_ascii e in
  if (n =? 34)%N then Some dquote
  else if (n =? 92)%N then Some backslash
  else if (n =? 47)%N then Some "/"%char
  else if (n =? 98)%N then Some "008"%char
  else if (n =? 102)%N then Some "012"%char
  else if (n =? 110)%N then Some "010"%char
  else if (n =? 114)%N then Some "013"%char
  else if (n =? 116)%N then Some "009"%char
  else None.

Definition is_high_surrogate (cu : N) : bool := (55296 <=? cu)%N && (cu <=? 56319)%N.
Definition is_low_surrogate (cu : N) : bool := (56320 <=? cu)%N && (cu <=? 57343)%N.

(** The low surrogate escape that may follow a high one, with what is left
    of the text after it. *)
Definition low_surrogate_escape (s : string) : option N :=
  match s with
  | String b (String u (String h1 (String h2 (String h3 (String h4 _))))) =>
      if (b =? backslash)%char && (u =? "u")%char then
        match hex4 h1 h2 h3 h4 with
        | Some lo => if is_low_surrogate lo then Some lo else None
        | None => None
        end
      else None
  | _ => None
  end.

(** The characters of a string literal after its opening quote, up to the
    closing quote: the decoded text and the rest of the input. *)
Fixpoint parse_chars (s : string) : option (string * string) :=
  match s with
  | EmptyString => None
  | String c rest =>
      if (c =? dquote)%char then Some ("", rest)
      else if (c =? backslash)%char then
        match rest with
        | EmptyString => None
        | String e rest1 =>
            if (e =? "u")%char then
              match rest1 with
              | String h1 (String h2 (String h3 (String h4 rest2))) =>
                  match hex4 h1 h2 h3 h4 with
                  | None => None
                  | Some cu =>
                      match (if is_high_surrogate cu
                             then low_surrogate_escape rest2 else None),
                            rest2 with
                      | Some lo,
                        String _ (String _ (String _ (String _
                          (String _ (String _ rest3))))) =>
                          match parse_chars rest3 with
                          | Some (t, r) =>
                              Some (utf8 (65536 + (cu - 55296) * 1024
                                          + (lo - 56320))%N ++ t, r)
                          | None => None
                          end
                      | _, _ =>
                          match parse_chars rest2 with
                          | Some (t, r) => Some (utf8 cu ++ t, r)
                          | None => None
                          end
                      end
                  end
              | _ => None
              end
            else
              match simple_escape e with
              | None => None
              | Some ch =>
                  match parse_chars rest1 with
                  | Some (t, r) => Some (String ch t, r)
                  | None => None
                  end
              end
        end
      else if (N_of_ascii c <? 32)%N then None
      else
        match parse_chars rest with
        | Some (t, r) => Some (String c t, r)
        | None => None
        end
  end.

Fixpoint span_digits (s : string) : string * string :=
  match s with
  | String c rest =>
      if is_digit c then
        let (d, r) := span_digits rest in (String c d, r)
      else ("", s)
  | EmptyString => ("", s)
  end.

(** The parts of a JSON number, each with the rest of the input: an
    optional minus sign, the integer digits (no leading zero before
    another digit), an optional fraction, an optional exponent. *)
Definition take_sign (s : string) : string * string :=
  match s with
  | String c r => if (c =? "-")%char then ("-", r) else ("", s)
  | EmptyString => ("", s)
  end.

Definition take_int (s : string) : option (string * string) :=
  let (int, r) := span_digits s in
  match int with
  | EmptyString => None
  | String d ds =>
      if (d =? "0")%char && negb (ds =? "") then None else Some (int, r)
  end.

Definition take_frac (s : string) : option (string * string) :=
  match s with
  | String c r =>
      if (c =? ".")%char then
        let (f, r') := span_digits r in
        if f =? "" then None else Some ("." ++ f, r')
      else Some ("", s)
  | EmptyString => Some ("", s)
  end.

Definition take_exp (s : string) : option (string * string) :=
  match s with
  | String c r =>
      if (c =? "e")%char || (c =? "E")%char then
        let (esign, r1) :=
          match r with
          | String p r' =>
              if (p =? "+")%char || (p =? "-")%char
              then (String p "", r') else ("", r)
          | EmptyString => ("", r)
          end in
        let (e, r2) := span_digits r1 in
        if e =? "" then None else Some (String c esign ++ e, r2)
      else Some ("", s)
  | EmptyString => Some ("", s)
  end.

(** A JSON number: its text and the rest of the input. *)
Definition parse_number (s : string) : option (string * string) :=
  let (sign, s1) := take_sign s in
  match take_int s1 with
  | None => None
  | Some (int, s2) =>
      match take_frac s2 with
      | None => None
      | Some (f, s3) =>
          match take_exp s3 with
          | None => None
          | Some (e, s4) => Some (sign ++ int ++ f ++ e, s4)
          end
      end
  end.

Fixpoint drop (n : nat) (s : string) : string :=
  match n, s with
  | S k, String _ rest => drop k rest
  | _, _ => s
  end.

(** A literal name ([true], [false], [null]) at the head of the input. *)
Definition expect (word : string) (v : JsVal) (s : string)
  : option (JsVal * string) :=
  if prefix word s then Some (v, drop (String.length word) s) else None.

(** Recursive descent over the JSON grammar; [fuel] bounds the number of
    values, members and elements visited. *)
Fixpoint parse_value (fuel : nat) (s : string) : option (JsVal * string) :=
  match fuel with
  | O => None
  | S f =>
      match skip_ws s with
      | EmptyString => None
      | String c rest =>
          if (c =? "{")%char then
            match skip_ws rest with
            | String c' rest' =>
                if (c' =? "}")%char then Some (VObj [], rest')
                else parse_members f [] rest
            | EmptyString => None
            end
          else if (c =? "[")%char then
            match skip_ws rest with
            | String c' rest' =>
                if (c' =? "]")%char then Some (VArr [], rest')
                else parse_elements f [] rest
            | EmptyString => None
            end
          else if (c =? dquote)%char then
            match parse_chars rest with
            | Some (t, r) => Some (VStr t, r)
            | None => None
            end
          else if (c =? "t")%char then expect "true" (VBool true) (String c rest)
          else if (c =? "f")%char then expect "false" (VBool false) (String c rest)
          else if (c =? "n")%char then expect "null" VNull (String c rest)
          else
            match parse_number (String c rest) with
            | Some (l, r) => Some (VNum l, r)
            | None => None
            end
      end
  end
with parse_members (fuel : nat) (acc : list (string * JsVal)) (s : string)
  : option (JsVal * string) :=
  match fuel with
  | O => None
  | S f =>
      match skip_ws s with
      | String q rest =>
          if (q =? dquote)%char then
            match parse_chars rest with
            | Some (k, r1) =>
                match skip_ws r1 with
                | String colon r2 =>
                    if (colon =? ":")%char then
                      match parse_value f r2 with
                      | Some (v, r3) =>
                          match skip_ws r3 with
                          | String sep r4 =>
                              if (sep =? ",")%char
                              then parse_members f (obj_set k v acc) r4
                              else if (sep =? "}")%char
                              then Some (VObj (obj_set k v acc), r4)
                              else None
                          | EmptyString => None
                          end
                      | None => None
                      end
                    else None
                | EmptyString => None
                end
            | None => None
            end
          else None
      | EmptyString => None
      end
  end
with parse_elements (fuel : nat) (acc : list JsVal) (s : string)
  : option (JsVal * string) :=
  match fuel with
  | O => None
  | S f =>
      match parse_value f s with
      | Some (v, r1) =>
          match skip_ws r1 with
          | String sep r2 =>
              if (sep =? ",")%char then parse_elements f (acc ++ [v]) r2
              else if (sep =? "]")%char then Some (VArr (acc ++ [v]), r2)
              else None
          | EmptyString => None
          end
      | None => None
      end
  end.

(** [JSON.parse(text)]: one value, nothing but white space after it; a
    SyntaxError otherwise. *)
Definition JSON_parse (text : string) : Outcome JsVal :=
  match parse_value (S (String.length text)) text with
  | Some (v, rest) =>
      if skip_ws rest =? "" then Returned v
      else Thrown (ErrorObj "SyntaxError" "Unexpected non-whitespace character after JSON")
  | None => Thrown (ErrorObj "SyntaxError" "Unexpected token in JSON")
  end.

(** The byte order mark the decoding of a response body removes. *)
Definition strip_bom (s : string) : string :=
  match s with
  | String b1 (String b2 (String b3 rest)) =>
      if ((N_of_ascii b1 =? 239) && (N_of_ascii b2 =? 187)
          && (N_of_ascii b3 =? 191))%N
      then rest else s
  | _ => s
  end.

(** [await response.json()] on a body that was read as [text]. *)
Definition response_json (text : string) : Outcome JsVal :=
  JSON_parse (strip_bom text).

(* ------------------------------------------------------------------ *)
(** ** crypto.createHmac('sha1', key).update(data).digest('hex') *)

Module Sha1.
Open Scope list_scope.
Open Scope Z_scope.

Definition mask32 : Z := 4294967295.
Definition add32 (a b : Z) : Z := Z.land (a + b) mask32.
Definition rotl (n a : Z) : Z :=
  Z.land (Z.lor (Z.shiftl a n) (Z.shiftr a (32 - n))) mask32.
Definition not32 (a : Z) : Z := Z.lxor a mask32.

Definition bytes_of_string (s : string) : list Z :=
  map (fun c => Z.of_N (N_of_ascii c)) (list_ascii_of_string s).

(** Big-endian bytes of [v], [n] of them. *)
Fixpoint be_bytes (n : nat) (v : Z) : list Z :=
  match n with
  | O => []
  | S k => Z.land (Z.shiftr v (8 * Z.of_nat k)) 255 :: be_bytes k v
  end.

(** The message, a [0x80] byte, zeros up to 56 mod 64, and the bit length
    on 64 bits. *)
Definition pad (msg : list Z) : list Z :=
  let len := Z.of_nat (length msg) in
  let zeros := Z.to_nat ((55 - len) mod 64) in
  msg ++ [128] ++ repeat 0 zeros ++ be_bytes 8 (8 * len).

Fixpoint words_of_bytes (n : nat) (bs : list Z) : list Z :=
  match n with
  | O => []
  | S k =>
      match bs with
      | a :: b :: c :: d :: rest =>
          (Z.shiftl a 24 + Z.shiftl b 16 + Z.shiftl c 8 + d)
            :: words_of_bytes k rest
      | _ => []
      end
  end.

(** The message schedule: [window] holds the last sixteen words. *)
Fixpoint expand (n : nat) (window : list Z) : list Z :=
  match n with
  | O => []
  | S k =>
      let w := rotl 1 (Z.lxor (Z.lxor (nth 13 window 0) (nth 8 window 0))
                              (Z.lxor (nth 2 window 0) (nth 0 window 0))) in
      w :: expand k (tl window ++ [w])
  end.

Definition f_k (t : nat) (b c d : Z) : Z * Z :=
  if (t <? 20)%nat then (Z.lor (Z.land b c) (Z.land (not32 b) d), 1518500249)
  else if (t <? 40)%nat then (Z.lxor (Z.lxor b c) d, 1859775393)
  else if (t <? 60)%nat then
    (Z.lor (Z.lor (Z.land b c) (Z.land b d)) (Z.land c d), 2400959708)
  else (Z.lxor (Z.lxor b c) d, 3395469782).

Definition State : Type := Z * Z * Z * Z * Z.

Fixpoint rounds (t : nat) (ws : list Z) (st : State) : State :=
  match ws with
  | [] => st
  | w :: rest =>
      let '(a, b, c, d, e) := st in
      let (f, k) := f_k t b c d in
      let temp := add32 (add32 (add32 (add32 (rotl 5 a) f) e) k) w in
      rounds (S t) rest (temp, a, rotl 30 b, c, d)
  end.

Definition block (h : State) (bs : list Z) : State :=
  let w16 := words_of_bytes 16 bs in
  let '(a, b, c, d, e) := rounds 0 (w16 ++ expand 64 w16) h in
  let '(h0, h1, h2, h3, h4) := h in
  (add32 h0 a, add32 h1 b, add32 h2 c, add32 h3 d, add32 h4 e).

Fixpoint blocks (n : nat) (h : State) (bs : list Z) : State :=
  match n with
  | O => h
  | S k => blocks k (block h (firstn 64 bs)) (skipn 64 bs)
  end.

Definition init : State :=
  (1732584193, 4023233417, 2562383102, 271733878, 3285377520).

Definition sha1 (msg : list Z) : list Z :=
  let p := pad msg in
  let '(h0, h1, h2, h3, h4) := blocks (length p / 64)%nat init p in
  be_bytes 4 h0 ++ be_bytes 4 h1 ++ be_bytes 4 h2 ++ be_bytes 4 h3
  ++ be_bytes 4 h4.

Definition hmac (key msg : list Z) : list Z :=
  let k0 := if (64 <? Z.of_nat (length key)) then sha1 key else key in
  let k := k0 ++ repeat 0 (64 - length k0)%nat in
  sha1 (map (Z.lxor 92) k ++ sha1 (map (Z.lxor 54) k ++ msg)).

Fixpoint hex (bs : list Z) : string :=
  match bs with
  | [] => ""%string
  | b :: rest =>
      String (hex_digit (Z.to_N (b / 16)))
        (String (hex_digit (Z.to_N (b mod 16))) (hex rest))
  end.

End Sha1.

(** The hex digest of HMAC-SHA1 over the UTF-8 bytes of [data], keyed by
    the UTF-8 bytes of [key]. *)
Definition hmac_sha1_hex (key data : string) : string :=
  Sha1.hex (Sha1.hmac (Sha1.bytes_of_string key) (Sha1.bytes_of_string data)).

(* ------------------------------------------------------------------ *)
(** ** The world the services run in *)

(** [config.freebox] of [server/config.ts]. *)
Record Config := {
  cfg_url : string;
  cfg_appId : string;
  cfg_appName : string;
  cfg_appVersion : string;
  cfg_deviceName : string;
  cfg_apiVersion : string;
  cfg_requestTimeout : Z;
  cfg_tokenFile : string
}.

(** [API_ENDPOINTS], the entries the methods modelled here use. *)
Module API_ENDPOINTS.
Definition API_VERSION := "/api_version".
Definition LOGIN := "/login/".
Definition LOGIN_AUTHORIZE := "/login/authorize/".
Definition LOGIN_SESSION := "/login/session/".
Definition LOGIN_LOGOUT := "/login/logout/".
Definition SYSTEM := "/system/".
Definition RRD := "/rrd/".
Definition WIFI_CONFIG := "/wifi/config/".
Definition WIFI_AP := "/wifi/ap/".
Definition WIFI_BSS := "/wifi/bss/".
Definition LAN_BROWSER := "/lan/browser/interfaces/".
Definition LAN_WOL := "/lan/wol/".
Definition DOWNLOADS_ADD := "/downloads/add/".
Definition FS_LIST := "/fs/ls/".
Definition FS_INFO := "/fs/info/".
Definition FS_MKDIR := "/fs/mkdir/".
Definition FS_RENAME := "/fs/rename/".
Definition STORAGE_DISK := "/storage/disk/".
Definition VM := "/vm/".
End API_ENDPOINTS.

(** What [fetch] is called with. *)
Record Request := {
  req_method : string;
  req_url : string;
  req_headers : list (string * JsVal);
  req_body : option string
}.

(** What [fetch] resolves to: the status, the [content-type] header
    ([None] when absent) and the body, whose reading may fail. *)
Record Response := {
  status : Z;
  content_type : option string;
  resp_body : Outcome string
}.

(** One exchange with the appliance: the promise of [fetch] rejects (host
    unreachable, or the abort signal of the request timer fired) or
    resolves to a response. *)
Inductive FetchOutcome :=
| Rejected (e : JsError)
| Responded (r : Response).

(** What the process is started with, and the transport: [fetch n req] is
    the outcome of the exchange issued after [n] earlier ones, [elapsed n]
    the time it takes in milliseconds. *)
Record Runtime := {
  config : Config;
  cwd : string;
  path_isAbsolute : string -> bool;
  path_join : string -> string -> string;
  path_dirname : string -> string;
  fetch : nat -> Request -> FetchOutcome;
  elapsed : nat -> Z;
  MOCK_FREEBOX_MODEL : option string
}.

Inductive Node :=
| File (content : string)
| Dir.

Definition FS : Type := string -> option Node.

Definition fs_set (fs : FS) (p : string) (n : Node) : FS :=
  fun q => if q =? p then Some n else fs q.

(** The private fields of [FreeboxApiService]. *)
Record ApiService := {
  baseUrl : string;
  appToken : JsVal;
  sessionToken : JsVal;
  challenge : JsVal;
  permissions : JsVal
}.

(** The private fields of [ModelDetectionService]; [detectionPromise] tells
    whether a detection is in flight. *)
Record DetectionService := {
  capabilities : option FreeboxCapabilities;
  detectionPromise : bool;
  lastDetectionTime : Z
}.

Record World := {
  api : ApiService;
  detection : DetectionService;
  files : FS;
  requests : list Request;
  clock : Z
}.

Definition with_api (w : World) (a : ApiService) : World :=
  {| api := a; detection := detection w; files := files w;
     requests := requests w; clock := clock w |}.
Definition with_detection (w : World) (d : DetectionService) : World :=
  {| api := api w; detection := d; files := files w;
     requests := requests w; clock := clock w |}.
Definition with_files (w : World) (fs : FS) : World :=
  {| api := api w; detection := detection w; files := fs;
     requests := requests w; clock := clock w |}.

(** *** Computations: state passing with exceptions *)

Definition M (A : Type) : Type := World -> Outcome A * World.

Definition ret {A} (a : A) : M A := fun w => (Returned a, w).
Definition throw {A} (e : JsError) : M A := fun w => (Thrown e, w).
Definition bind {A B} (m : M A) (k : A -> M B) : M B :=
  fun w =>
    match m w with
    | (Returned a, w') => k a w'
    | (Thrown e, w') => (Thrown e, w')
    end.
Definition try_catch {A} (m : M A) (handler : JsError -> M A) : M A :=
  fun w =>
    match m w with
    | (Returned a, w') => (Returned a, w')
    | (Thrown e, w') => handler e w'
    end.
Definition try_finally {A} (m : M A) (final : M unit) : M A :=
  fun w =>
    match m w with
    | (r, w') =>
        match final w' with
        | (Returned _, w'') => (r, w'')
        | (Thrown e, w'') => (Thrown e, w'')
        end
    end.
Definition lift {A} (o : Outcome A) : M A := fun w => (o, w).
Definition read {A} (f : World -> A) : M A := fun w => (Returned (f w), w).
Definition update (f : World -> World) : M unit := fun w => (Returned tt, f w).

Declare Scope m_scope.
Delimit Scope m_scope with M.
Notation "x <- m ;; k" := (bind m (fun x => k))
  (at level 61, m at next level, right associativity) : m_scope.
Notation "m ;;; k" := (bind m (fun _ => k))
  (at level 61, right associativity) : m_scope.
Open Scope m_scope.

Definition new_Error {A} (message : string) : M A :=
  throw (ErrorObj "Error" message).

(** [Date.now()]. *)
Definition Date_now : M Z := read clock.

(* ------------------------------------------------------------------ *)
(** ** services/freeboxApi.ts *)

Section FreeboxApiService.
Variable R : Runtime.

(** *** fs *)

Definition existsSync (p : string) : M bool :=
  read (fun w => match files w p with Some _ => true | None => false end).

Definition readFileSync (p : string) : M string :=
  fun w =>
    match files w p with
    | Some (File c) => (Returned c, w)
    | Some Dir => (Thrown (ErrorObj "Error" "EISDIR: illegal operation on a directory, read"), w)
    | None => (Thrown (ErrorObj "Error" "ENOENT: no such file or directory, open"), w)
    end.

(** [p], its parent, the parent of that, ... up to the root, where
    [path.dirname] no longer moves. *)
Fixpoint ancestors (fuel : nat) (p : string) : list string :=
  match fuel with
  | O => [p]
  | S f =>
      let d := path_dirname R p in
      if d =? p then [p] else p :: ancestors f d
  end.

Definition is_file (fs : FS) (p : string) : bool :=
  match fs p with Some (File _) => true | _ => false end.

(** [fs.mkdirSync(p, { recursive: true })]: every missing directory on the
    way is created; a file on the way makes it fail. *)
Definition mkdirSync_recursive (p : string) : M unit :=
  fun w =>
    let chain := ancestors (String.length p) p in
    if existsb (is_file (files w)) chain
    then (Thrown (ErrorObj "Error" "ENOTDIR: not a directory, mkdir"), w)
    else (Returned tt,
          with_files w (fold_left (fun fs q => fs_set fs q Dir) chain (files w))).

(** [fs.writeFileSync(p, data, 'utf-8')]: the whole content is in place when
    the call returns; it fails on a directory and under a missing parent. *)
Definition writeFileSync (p data : string) : M unit :=
  fun w =>
    match files w p with
    | Some Dir => (Thrown (ErrorObj "Error" "EISDIR: illegal operation on a directory, open"), w)
    | _ =>
        match files w (path_dirname R p) with
        | Some Dir => (Returned tt, with_files w (fs_set (files w) p (File data)))
        | Some (File _) => (Thrown (ErrorObj "Error" "ENOTDIR: not a directory, open"), w)
        | None => (Thrown (ErrorObj "Error" "ENOENT: no such file or directory, open"), w)
        end
    end.

(** *** Token store *)

Definition getTokenPath : string :=
  let tokenFile := cfg_tokenFile (config R) in
  if path_isAbsolute R tokenFile then tokenFile
  else path_join R (cwd R) tokenFile.

Definition set_appToken (v : JsVal) : M unit :=
  update (fun w => with_api w
    {| baseUrl := baseUrl (api w); appToken := v;
       sessionToken := sessionToken (api w); challenge := challenge (api w);
       permissions := permissions (api w) |}).
Definition set_sessionToken (v : JsVal) : M unit :=
  update (fun w => with_api w
    {| baseUrl := baseUrl (api w); appToken := appToken (api w);
       sessionToken := v; challenge := challenge (api w);
       permissions := permissions (api w) |}).
Definition set_challenge (v : JsVal) : M unit :=
  update (fun w => with_api w
    {| baseUrl := baseUrl (api w); appToken := appToken (api w);
       sessionToken := sessionToken (api w); challenge := v;
       permissions := permissions (api w) |}).
Definition set_permissions (v : JsVal) : M unit :=
  update (fun w => with_api w
    {| baseUrl := baseUrl (api w); appToken := appToken (api w);
       sessionToken := sessionToken (api w); challenge := challenge (api w);
       permissions := v |}).

(** [loadToken]: an absent file, an unreadable one and one that is not
    JSON all leave the token as it is. *)
Definition loadToken : M unit :=
  let tokenPath := getTokenPath in
  present <- existsSync tokenPath ;;
  if present then
    try_catch
      (text <- readFileSync tokenPath ;;
       data <- lift (JSON_parse text) ;;
       tok <- lift (get data "appToken") ;;
       set_appToken tok)
      (fun _ => ret tt)
  else ret tt.

(** [saveToken]. *)
Definition saveToken (token : JsVal) : M unit :=
  let tokenPath := getTokenPath in
  let tokenDir := path_dirname R tokenPath in
  present <- existsSync tokenDir ;;
  (if present then ret tt else mkdirSync_recursive tokenDir) ;;;
  writeFileSync tokenPath
    (match JSON_stringify (VObj [("appToken", token)]) 2 with
     | Some text => text
     | None => "undefined"
     end) ;;;
  set_appToken token.

(** The field initializers and the constructor: what a process start
    leaves in memory, whatever was there before. *)
Definition constructor : M unit :=
  update (fun w => with_api w
    {| baseUrl := cfg_url (config R); appToken := VNull;
       sessionToken := VNull; challenge := VNull; permissions := VObj [] |}) ;;;
  loadToken.

(** *** Request facade *)

Definition buildUrl (endpoint : string) : M string :=
  let version := if startsWith endpoint "/wifi" then "v2"
                 else cfg_apiVersion (config R) in
  read (fun w => baseUrl (api w) ++ "/api/" ++ version ++ endpoint).

(** [await fetch(...)]: the request is logged, the clock moves, and the
    transport decides. *)
Definition do_fetch (req : Request) : M Response :=
  fun w =>
    let n := length (requests w) in
    let w' := {| api := api w; detection := detection w; files := files w;
                 requests := requests w ++ [req];
                 clock := (clock w + elapsed R n)%Z |} in
    match fetch R n req with
    | Rejected e => (Thrown e, w')
    | Responded r => (Returned r, w')
    end.

Definition decimal (z : Z) : string :=
  DecimalString.NilZero.string_of_int (Z.to_int z).

Definition failure (code message : string) : JsVal :=
  VObj [("success", VBool false); ("error_code", VStr code);
        ("msg", VStr message)].

Definition is_json_content_type (ct : option string) : bool :=
  match ct with
  | None => false
  | Some c => negb (c =? "") && includes c "application/json"
  end.

(** [request]. *)
Definition request (method endpoint : string) (body : JsVal)
    (authenticated : bool) : M JsVal :=
  url <- buildUrl endpoint ;;
  session <- read (fun w => sessionToken (api w)) ;;
  let headers :=
    ("Content-Type", VStr "application/json")
      :: (if authenticated && truthy session
          then [("X-Fbx-App-Auth", session)] else []) in
  let options :=
    {| req_method := method; req_url := url; req_headers := headers;
       req_body := if truthy body then JSON_stringify body 0 else None |} in
  try_catch
    (response <- do_fetch options ;;
     if negb (is_json_content_type (content_type response)) then
       text <- lift (resp_body response) ;;
       ret (failure "invalid_response"
              ("API returned non-JSON response ("
               ++ decimal (status response) ++ ")"))
     else
       text <- lift (resp_body response) ;;
       data <- lift (response_json text) ;;
       ret data)
    (fun error =>
       ret (failure "request_failed"
              (match error with
               | ErrorObj _ message => message
               | NonError => "Request failed"
               end))).

(** [computePassword]: the key and the data of the HMAC must be strings,
    [crypto] rejects the other values a field may hold with a TypeError. *)
Definition computePassword (chal : JsVal) : M string :=
  token <- read (fun w => appToken (api w)) ;;
  if negb (truthy token) then new_Error "No app_token available"
  else
    match token, chal with
    | VStr key, VStr data => ret (hmac_sha1_hex key data)
    | _, _ => throw (ErrorObj "TypeError" "The argument must be of type string")
    end.

(** *** Authentication *)

Record Registration := { trackId : JsVal; reg_appToken : JsVal }.

Record SessionData := {
  sd_sessionToken : JsVal;
  sd_challenge : JsVal;
  sd_permissions : JsVal
}.

(** The guard every operation applies to what [request] gave back:
    [!response.success || !response.result]. *)
Definition rejected_by_guard (response : JsVal) : M bool :=
  success <- lift (get response "success") ;;
  if negb (truthy success) then ret true
  else
    result <- lift (get response "result") ;;
    ret (negb (truthy result)).

Definition register : M Registration :=
  response <- request "POST" API_ENDPOINTS.LOGIN_AUTHORIZE
    (VObj [("app_id", VStr (cfg_appId (config R)));
           ("app_name", VStr (cfg_appName (config R)));
           ("app_version", VStr (cfg_appVersion (config R)));
           ("device_name", VStr (cfg_deviceName (config R)))])
    false ;;
  bad <- rejected_by_guard response ;;
  if bad then
    msg <- lift (get response "msg") ;;
    new_Error (js_toString (js_or msg (VStr "Registration failed")))
  else
    result <- lift (get response "result") ;;
    app_token <- lift (get result "app_token") ;;
    saveToken app_token ;;;
    track_id <- lift (get result "track_id") ;;
    ret {| trackId := track_id; reg_appToken := app_token |}.


Definition getChallenge : M JsVal :=
  response <- request "GET" API_ENDPOINTS.LOGIN VUndefined false ;;
  bad <- rejected_by_guard response ;;
  if bad then
    msg <- lift (get response "msg") ;;
    new_Error (js_toString (js_or msg (VStr "Failed to get challenge")))
  else
    result <- lift (get response "result") ;;
    chal <- lift (get result "challenge") ;;
    set_challenge chal ;;;
    ret chal.

Definition login : M SessionData :=
  token <- read (fun w => appToken (api w)) ;;
  if negb (truthy token)
  then new_Error "No app_token available. Please register first."
  else
    getChallenge ;;;
    chal <- read (fun w => challenge (api w)) ;;
    if negb (truthy chal) then new_Error "No challenge available"
    else
      password <- computePassword chal ;;
      response <- request "POST" API_ENDPOINTS.LOGIN_SESSION
        (VObj [("app_id", VStr (cfg_appId (config R)));
               ("app_version", VStr (cfg_appVersion (config R)));
               ("password", VStr password)])
        false ;;
      bad <- rejected_by_guard response ;;
      if bad then
        msg <- lift (get response "msg") ;;
        code <- lift (get response "error_code") ;;
        new_Error (js_toString (js_or (js_or msg code) (VStr "Login failed")))
      else
        result <- lift (get response "result") ;;
        session_token <- lift (get result "session_token") ;;
        set_sessionToken session_token ;;;
        chal' <- lift (get result "challenge") ;;
        set_challenge chal' ;;;
        perms <- lift (get result "permissions") ;;
        set_permissions perms ;;;
        ret {| sd_sessionToken := session_token; sd_challenge := chal';
               sd_permissions := perms |}.

Definition logout : M unit :=
  session <- read (fun w => sessionToken (api w)) ;;
  if truthy session then
    request "POST" API_ENDPOINTS.LOGIN_LOGOUT VUndefined true ;;;
    set_sessionToken VNull
  else ret tt.

(** [checkSession]: [response.success && response.result?.logged_in === true].
    Declared to give a boolean, it gives [response.success] itself when
    that value is not truthy ([false], but also [undefined], [null], [0]
    or the empty string). *)
Definition checkSession : M JsVal :=
  try_catch
    (response <- request "GET" API_ENDPOINTS.LOGIN VUndefined true ;;
     success <- lift (get response "success") ;;
     if truthy success then
       result <- lift (get response "result") ;;
       match result with
       | VUndefined | VNull => ret (VBool false)
       | _ =>
           logged_in <- lift (get result "logged_in") ;;
           ret (VBool (match logged_in with VBool true => true | _ => false end))
       end
     else ret success)
    (fun _ => ret (VBool false)).

Definition is_null (v : JsVal) : bool :=
  match v with VNull => true | _ => false end.

Definition isRegistered : M bool := read (fun w => negb (is_null (appToken (api w)))).
Definition isLoggedIn : M bool := read (fun w => negb (is_null (sessionToken (api w)))).
Definition getPermissions : M JsVal := read (fun w => permissions (api w)).

(** [getApiVersion]: the endpoint answers with the bare document, which is
    wrapped here; no header is sent and the content type is not looked at. *)
Definition getApiVersion : M JsVal :=
  url <- read (fun w => baseUrl (api w) ++ API_ENDPOINTS.API_VERSION) ;;
  try_catch
    (response <- do_fetch {| req_method := "GET"; req_url := url;
                             req_headers := []; req_body := None |} ;;
     text <- lift (resp_body response) ;;
     data <- lift (response_json text) ;;
     ret (VObj [("success", VBool true); ("result", data)]))
    (fun _ =>
       ret (VObj [("success", VBool false);
                  ("msg", VStr "Failed to get API version")])).

End FreeboxApiService.

(* ------------------------------------------------------------------ *)
(** ** services/modelDetection.ts *)

Section ModelDetectionService.
Variable R : Runtime.

(** [MOCK_MODEL_NAMES]. *)
Definition MOCK_MODEL_NAMES (m : FreeboxModel) : string * BoxFlavor :=
  match m with
  | ultra => ("Freebox v9 (r1)", flavor_full)
  | delta => ("Freebox v8 (Delta)", flavor_full)
  | pop => ("Freebox Pop", flavor_light)
  | revolution => ("Freebox v6 (Revolution)", flavor_full)
  | unknown => ("Freebox", flavor_light)
  end.

(** The family a key of the two [Record<FreeboxModel, _>] tables names. *)
Definition family_of_key (k : string) : option FreeboxModel :=
  if k =? "ultra" then Some ultra
  else if k =? "delta" then Some delta
  else if k =? "pop" then Some pop
  else if k =? "revolution" then Some revolution
  else if k =? "unknown" then Some unknown
  else None.

(** The two other keys under which indexing an object literal finds
    something: they are inherited.  With one of them the code takes the
    mock branch and caches a record that has none of the fields of the
    table; [mockModel] below knows the five families only, so that the
    model of [_performDetection] is that of the code where the value is
    not one of these two, which the properties that depend on it
    assume. *)
Definition inherited_key (k : string) : bool :=
  (k =? "constructor") || (k =? "__proto__").

(** [mockModel && MOCK_MODEL_NAMES[mockModel]], as the family it selects. *)
Definition mockModel : option FreeboxModel :=
  match MOCK_FREEBOX_MODEL R with
  | Some v => family_of_key (toLowerCase v)
  | None => None
  end.

Definition CACHE_DURATION : Z := 5 * 60 * 1000.

Definition set_capabilities (c : FreeboxCapabilities) : M unit :=
  now <- Date_now ;;
  update (fun w => with_detection w
    {| capabilities := Some c;
       detectionPromise := detectionPromise (detection w);
       lastDetectionTime := now |}).

Definition set_detectionPromise (b : bool) : M unit :=
  update (fun w => with_detection w
    {| capabilities := capabilities (detection w);
       detectionPromise := b;
       lastDetectionTime := lastDetectionTime (detection w) |}).

(** [buildDefaultCapabilities]. *)
Definition buildDefaultCapabilities : M FreeboxCapabilities :=
  let defaults := buildCapabilities unknown "Freebox" flavor_light in
  set_capabilities defaults ;;;
  ret defaults.

(** [detectModelFromName] applied to whatever the version document holds:
    only a string has [toLowerCase]. *)
Definition detectModelFromName_dyn (name : JsVal) : M (FreeboxModel * string) :=
  match name with
  | VStr s => ret (detectModelFromName s, s)
  | _ => throw (ErrorObj "TypeError" "modelName.toLowerCase is not a function")
  end.

(** [_performDetection]. *)
Definition _performDetection : M FreeboxCapabilities :=
  match mockModel with
  | Some m =>
      let mock := MOCK_MODEL_NAMES m in
      let caps := buildCapabilities m (fst mock) (snd mock) in
      set_capabilities caps ;;;
      ret caps
  | None =>
      try_catch
        (apiVersion <- getApiVersion R ;;
         bad <- rejected_by_guard apiVersion ;;
         if bad then buildDefaultCapabilities
         else
           versionData <- lift (get apiVersion "result") ;;
           box_model_name <- lift (get versionData "box_model_name") ;;
           box_model <- lift (get versionData "box_model") ;;
           device_name <- lift (get versionData "device_name") ;;
           let name := js_or (js_or (js_or box_model_name box_model) device_name)
                             (VStr "Unknown") in
           box_flavor <- lift (get versionData "box_flavor") ;;
           let flavor := if strict_eq_str box_flavor "full"
                         then flavor_full else flavor_light in
           detected <- detectModelFromName_dyn name ;;
           let caps := buildCapabilities (fst detected) (snd detected) flavor in
           set_capabilities caps ;;;
           ret caps)
        (fun _ => buildDefaultCapabilities)
  end.

(** What a caller of [detectModel] is handed: capabilities, or the promise
    of the detection another caller has in flight. *)
Inductive Detection :=
| Detected (c : FreeboxCapabilities)
| InFlight.

(** [detectModel]. *)
Definition detectModel : M Detection :=
  cached <- read (fun w => capabilities (detection w)) ;;
  now <- Date_now ;;
  last <- read (fun w => lastDetectionTime (detection w)) ;;
  match cached with
  | Some c =>
      if (now - last <? CACHE_DURATION)%Z then ret (Detected c)
      else
        pending <- read (fun w => detectionPromise (detection w)) ;;
        if pending then ret InFlight
        else
          set_detectionPromise true ;;;
          try_finally (c' <- _performDetection ;; ret (Detected c'))
                      (set_detectionPromise false)
  | None =>
      pending <- read (fun w => detectionPromise (detection w)) ;;
      if pending then ret InFlight
      else
        set_detectionPromise true ;;;
        try_finally (c' <- _performDetection ;; ret (Detected c'))
                    (set_detectionPromise false)
  end.

(** [clearCache]. *)
Definition clearCache : M unit :=
  update (fun w => with_detection w
    {| capabilities := None; detectionPromise := false;
       lastDetectionTime := 0 |}).

(** [refreshCapabilities]. *)
Definition refreshCapabilities : M Detection :=
  clearCache ;;; detectModel.

Definition getCapabilities : M (option FreeboxCapabilities) :=
  read (fun w => capabilities (detection w)).

End ModelDetectionService.

(* ------------------------------------------------------------------ *)
(** ** A concrete runtime: POSIX paths, the default configuration *)

Module Posix.

Definition is_slash (c : ascii) : bool := (c =? "/")%char.

Fixpoint drop_while (f : ascii -> bool) (l : list ascii) : list ascii :=
  match l with
  | c :: rest => if f c then drop_while f rest else l
  | [] => []
  end.

(** [path.posix.dirname]: scanning from the end and never looking at the
    first character, skip the trailing slashes and the last segment; the
    slash found there ends the directory part. *)
Definition dirname (p : string) : string :=
  match list_ascii_of_string p with
  | [] => "."
  | first :: others =>
      let hasRoot := is_slash first in
      let left := drop_while (fun c => negb (is_slash c))
                    (drop_while is_slash (rev others)) in
      match left with
      | [] => if hasRoot then "/" else "."
      | _ :: before =>
          if hasRoot && (length before =? 0)%nat then "//"
          else string_of_list_ascii (first :: rev before)
      end
  end.

Definition isAbsolute (p : string) : bool := prefix "/" p.

(** The segments between slashes. *)
Fixpoint segments (cur : string) (s : string) : list string :=
  match s with
  | EmptyString => [cur]
  | String c rest =>
      if is_slash c then cur :: segments "" rest
      else segments (cur ++ String c "") rest
  end.

(** [normalizeString]: [stack] holds the kept segments, last one first. *)
Fixpoint resolve (allowAboveRoot : bool) (stack segs : list string) : list string :=
  match segs with
  | [] => rev stack
  | seg :: rest =>
      if (seg =? "") || (seg =? ".") then resolve allowAboveRoot stack rest
      else if seg =? ".." then
        match stack with
        | top :: below =>
            if top =? ".." then resolve allowAboveRoot (seg :: stack) rest
            else resolve allowAboveRoot below rest
        | [] =>
            if allowAboveRoot then resolve allowAboveRoot [seg] rest
            else resolve allowAboveRoot [] rest
        end
      else resolve allowAboveRoot (seg :: stack) rest
  end.

Definition ends_with_slash (p : string) : bool :=
  match rev (list_ascii_of_string p) with
  | c :: _ => is_slash c
  | [] => false
  end.

(** [path.posix.normalize]. *)
Definition normalize (p : string) : string :=
  if p =? "" then "."
  else
    let absolute := isAbsolute p in
    let trailing := ends_with_slash p in
    let body := join_with "/" (resolve (negb absolute) [] (segments "" p)) in
    if body =? "" then
      if absolute then "/" else if trailing then "./" else "."
    else
      (if absolute then "/" else "") ++ body ++ (if trailing then "/" else "").

(** [path.posix.join] of two parts. *)
Definition join (a b : string) : string :=
  if a =? "" then (if b =? "" then "." else normalize b)
  else if b =? "" then normalize a
  else normalize (a ++ "/" ++ b).

End Posix.

Definition default_config : Config :=
  {| cfg_url := "https://mafreebox.freebox.fr";
     cfg_appId := "fr.freeboxos.dashboard";
     cfg_appName := "Freebox Dashboard";
     cfg_appVersion := "1.0.0";
     cfg_deviceName := "Dashboard Web App";
     cfg_apiVersion := "v4";
     cfg_requestTimeout := 10000;
     cfg_tokenFile := "/app/data/freebox_token.json" |}.

(** A process on a POSIX system, started in [/app], whose transport
    answers a request by [answer] whatever was exchanged before. *)
Definition posix_runtime (cfg : Config) (answer : Request -> FetchOutcome)
    (mock : option string) : Runtime :=
  {| config := cfg;
     cwd := "/app";
     path_isAbsolute := Posix.isAbsolute;
     path_join := Posix.join;
     path_dirname := Posix.dirname;
     fetch := fun _ req => answer req;
     elapsed := fun _ => 20%Z;
     MOCK_FREEBOX_MODEL := mock |}.

(** A file system holding the root directory only. *)
Definition fresh_disk : FS := fun p => if p =? "/" then Some Dir else None.

(** The memory of a process configured by [default_config] that has
    started and found no token, and such a process on the disk [fs]. *)
Definition blank_api : ApiService :=
  {| baseUrl := cfg_url default_config; appToken := VNull;
     sessionToken := VNull; challenge := VNull; permissions := VObj [] |}.

Definition boot (fs : FS) : World :=
  {| api := blank_api;
     detection := {| capabilities := None; detectionPromise := false;
                     lastDetectionTime := 0 |};
     files := fs; requests := []; clock := 1700000000000 |}.


(* ------------------------------------------------------------------ *)
(** ** Vocabulary of the properties *)

(** The substrings that select each family, as [detectModelFromName]
    lists them; the Mini 4K ones are filed under [revolution], the family
    they yield. *)
Definition markers (m : FreeboxModel) : list string :=
  match m with
  | ultra => ["v9"; "ultra"]
  | pop => ["pop"]
  | delta => ["v8"; "delta"; "fbxgw8"]
  | revolution =>
      ["v6"; "revolution"; "r√©volution"; "fbxgw1"; "v7"; "mini"; "fbxgw7"]
  | unknown => []
  end.

(** The lower-cased identifier contains one of the family's markers. *)
Definition has_marker (m : FreeboxModel) (name : string) : bool :=
  existsb (includes (toLowerCase name)) (markers m).

(** Newest family first. *)
Definition rank (m : FreeboxModel) : nat :=
  match m with
  | ultra => 0
  | pop => 1
  | delta => 2
  | revolution => 3
  | unknown => 4
  end.

(** The newest family one of whose markers occurs, [unknown] when none
    does. *)
Definition newest_present (name : string) : FreeboxModel :=
  if has_marker ultra name then ultra
  else if has_marker pop name then pop
  else if has_marker delta name then delta
  else if has_marker revolution name then revolution
  else unknown.

Definition with_token (w : World) (token : string) : World :=
  with_api w {| baseUrl := baseUrl (api w); appToken := VStr token;
                sessionToken := sessionToken (api w);
                challenge := challenge (api w);
                permissions := permissions (api w) |}.


(** The file [saveToken] writes for a token. *)
Definition token_document (t : string) : string :=
  "{" ++ String newline "  " ++ quote "appToken" ++ ": " ++ quote t
  ++ String newline "}".

(** The request [request] hands to [fetch] in state [w]. *)
Definition request_options (w : World) (apiVersion method endpoint : string)
    (body : JsVal) (authenticated : bool) : Request :=
  {| req_method := method;
     req_url := baseUrl (api w) ++ "/api/"
                ++ (if startsWith endpoint "/wifi" then "v2" else apiVersion)
                ++ endpoint;
     req_headers :=
       ("Content-Type", VStr "application/json")
         :: (if authenticated && truthy (sessionToken (api w))
             then [("X-Fbx-App-Auth", sessionToken (api w))] else []);
     req_body := if truthy body then JSON_stringify body 0 else None |}.

(** The world once [req] has been exchanged. *)
Definition after_exchange (R : Runtime) (w : World) (req : Request) : World :=
  {| api := api w; detection := detection w; files := files w;
     requests := requests w ++ [req];
     clock := (clock w + elapsed R (length (requests w)))%Z |}.

Definition error_message (e : JsError) : string :=
  match e with
  | ErrorObj _ message => message
  | NonError => "Request failed"
  end.

(** What the facade makes of an exchange. *)
Definition result_of_exchange (o : FetchOutcome) : JsVal :=
  match o with
  | Rejected e => failure "request_failed" (error_message e)
  | Responded r =>
      match resp_body r with
      | Thrown e => failure "request_failed" (error_message e)
      | Returned text =>
          if is_json_content_type (content_type r) then
            match response_json text with
            | Returned data => data
            | Thrown e => failure "request_failed" (error_message e)
            end
          else failure "invalid_response"
                 ("API returned non-JSON response ("
                  ++ decimal (status r) ++ ")")
      end
  end.

(** A structured failure result: an object whose [success] is not truthy. *)
Definition is_failure (v : JsVal) : bool :=
  match v with
  | VObj fs =>
      negb (truthy (match assoc "success" fs with
                    | Some x => x
                    | None => VUndefined
                    end))
  | _ => false
  end.

(** The expected failure modes of one exchange: the appliance is
    unreachable or the request timer aborts (the exchange is rejected),
    the body cannot be read, the response is not JSON by its content type
    or by its body, or the body is a failure envelope. *)
Definition failed_exchange (o : FetchOutcome) : bool :=
  match o with
  | Rejected _ => true
  | Responded r =>
      match resp_body r with
      | Thrown _ => true
      | Returned text =>
          if is_json_content_type (content_type r) then
            match response_json text with
            | Thrown _ => true
            | Returned envelope => is_failure envelope
            end
          else true
      end
  end.

Definition field (data : JsVal) (k : string) : JsVal :=
  match get data k with
  | Returned x => x
  | Thrown _ => VUndefined
  end.

(** The model name [_performDetection] reads off the version document. *)
Definition reported_name (data : JsVal) : JsVal :=
  js_or (js_or (js_or (field data "box_model_name") (field data "box_model"))
               (field data "device_name"))
        (VStr "Unknown").

Definition is_string (v : JsVal) : bool :=
  match v with VStr _ => true | _ => false end.

(** The failures of a detection: the version exchange is rejected, its body
    cannot be read or is not JSON, the document is empty (not truthy), or
    the name it reports is not a string. *)
Definition failed_detection (o : FetchOutcome) : bool :=
  match o with
  | Rejected _ => true
  | Responded r =>
      match resp_body r with
      | Thrown _ => true
      | Returned text =>
          match response_json text with
          | Thrown _ => true
          | Returned data =>
              negb (truthy data) || negb (is_string (reported_name data))
          end
      end
  end.

(** No override is in force: [MOCK_FREEBOX_MODEL] is unset, or names
    neither a family nor an inherited key. *)
Definition live_detection (R : Runtime) : bool :=
  match MOCK_FREEBOX_MODEL R with
  | None => true
  | Some v =>
      match family_of_key (toLowerCase v) with
      | Some _ => false
      | None => negb (inherited_key (toLowerCase v))
      end
  end.

(** The cached capabilities are there and younger than the cache window. *)
Definition cache_fresh (w : World) : bool :=
  match capabilities (detection w) with
  | Some _ => (clock w - lastDetectionTime (detection w) <? CACHE_DURATION)%Z
  | None => false
  end.

Definition unknown_defaults : FreeboxCapabilities :=
  {| model := unknown; modelName := "Freebox"; boxFlavor := flavor_light;
     wifi6ghz := false; wifi7 := false; vmSupport := vm_none;
     maxVms := 0; maxVmRam := 0; temperatureType := legacy;
     temperatureFields := ["temp_cpum"; "temp_sw"; "temp_cpub"];
     hasInternalStorage := false; maxEthernetSpeed := 1000;
     maxDownloadSpeed := 1000; maxUploadSpeed := 600 |}.

(** The base row a capability record carries, [hasInternalStorage] apart. *)
Definition same_static_fields (c : FreeboxCapabilities)
    (b : ModelBaseCapabilities) : Prop :=
  model c = base_model b /\ wifi6ghz c = base_wifi6ghz b /\
  wifi7 c = base_wifi7 b /\ vmSupport c = base_vmSupport b /\
  maxVms c = base_maxVms b /\ maxVmRam c = base_maxVmRam b /\
  temperatureType c = base_temperatureType b /\
  temperatureFields c = base_temperatureFields b /\
  maxEthernetSpeed c = base_maxEthernetSpeed b /\
  maxDownloadSpeed c = base_maxDownloadSpeed b /\
  maxUploadSpeed c = base_maxUploadSpeed b.

(** Appliances for the examples: one that is unreachable, one that answers
    every exchange with the same response. *)
Definition unreachable : Request -> FetchOutcome :=
  fun _ => Rejected (ErrorObj "TypeError" "fetch failed").

Definition answering (ct : option string) (text : string)
  : Request -> FetchOutcome :=
  fun _ => Responded {| status := 200; content_type := ct;
                        resp_body := Returned text |}.

(** The request [getApiVersion] sends in state [w]. *)
Definition version_request (w : World) : Request :=
  {| req_method := "GET";
     req_url := baseUrl (api w) ++ API_ENDPOINTS.API_VERSION;
     req_headers := [];
     req_body := None |}.

(** What [getApiVersion] makes of an exchange. *)
Definition version_result (o : FetchOutcome) : JsVal :=
  let failed := VObj [("success", VBool false);
                      ("msg", VStr "Failed to get API version")] in
  match o with
  | Rejected _ => failed
  | Responded r =>
      match resp_body r with
      | Thrown _ => failed
      | Returned text =>
          match response_json text with
          | Returned data => VObj [("success", VBool true); ("result", data)]
          | Thrown _ => failed
          end
      end
  end.

Definition json_response (v : JsVal) : FetchOutcome :=
  Responded {| status := 200;
               content_type := Some "application/json; charset=utf-8";
               resp_body := Returned (match JSON_stringify v 0 with
                                      | Some text => text
                                      | None => "null"
                                      end) |}.

(** An appliance that follows the protocol: it reports the model [name]
    with the flavor [flavor], issues the token [tok], the challenge
    [abc] and the session [sess], and grants the [settings] permission. *)
Definition cooperative (name flavor : string) (req : Request) : FetchOutcome :=
  let ok result := VObj [("success", VBool true); ("result", result)] in
  if includes (req_url req) "/api_version" then
    json_response (VObj [("box_model_name", VStr name);
                         ("box_flavor", VStr flavor);
                         ("api_version", VStr "14.0")])
  else if includes (req_url req) "/login/session/" then
    json_response (ok (VObj [("session_token", VStr "sess");
                             ("challenge", VStr "def");
                             ("permissions", VObj [("settings", VBool true)])]))
  else if includes (req_url req) "/login/logout/" then
    json_response (VObj [("success", VBool true)])
  else if includes (req_url req) "/login/authorize/" then
    json_response (ok (VObj [("app_token", VStr "tok"); ("track_id", VNum "42")]))
  else if includes (req_url req) "/login/" then
    json_response (ok (VObj [("logged_in", VBool false);
                             ("challenge", VStr "abc")]))
  else
    json_response (VObj [("success", VBool false);
                         ("error_code", VStr "invalid_request");
                         ("msg", VStr "Invalid request")]).

(** The world once [c] has been cached, and once the in-flight mark has
    been set to [b]. *)
Definition cached (w : World) (c : FreeboxCapabilities) : World :=
  with_detection w {| capabilities := Some c;
                      detectionPromise := detectionPromise (detection w);
                      lastDetectionTime := clock w |}.

Definition in_flight (w : World) (b : bool) : World :=
  with_detection w {| capabilities := capabilities (detection w);
                      detectionPromise := b;
                      lastDetectionTime := lastDetectionTime (detection w) |}.

(** An appliance that follows the protocol except that the session it
    opens carries an empty session token. *)
Definition tokenless (req : Request) : FetchOutcome :=
  if includes (req_url req) "/login/session/" then
    json_response
      (VObj [("success", VBool true);
             ("result", VObj [("session_token", VStr "");
                              ("challenge", VStr "def");
                              ("permissions", VObj [("settings", VBool true)])])])
  else cooperative "Freebox Pop" "light" req.


(* ------------------------------------------------------------------ *)
(** ** More of the runtime *)

(** [Array.isArray(v)]. *)
Definition is_array (v : JsVal) : bool :=
  match v with VArr _ => true | _ => false end.

(** [v?.k]: [undefined] when [v] is [undefined] or [null]. *)
Definition opt_get (v : JsVal) (k : string) : Outcome JsVal :=
  match v with
  | VUndefined | VNull => Returned VUndefined
  | _ => get v k
  end.

(** [v.includes(needle)] for a string [needle]: substring search on a
    string, membership in an array; no other value [JSON.parse] makes has
    the method. *)
Definition js_includes (v : JsVal) (needle : string) : Outcome bool :=
  match v with
  | VStr s => Returned (includes s needle)
  | VArr items => Returned (existsb (fun x => strict_eq_str x needle) items)
  | _ => Thrown (ErrorObj "TypeError" "includes is not a function")
  end.

(** [v.toLowerCase()] after an optional chain: [undefined] and [null] stop
    the chain, a string is lower-cased, any other value has no such
    method. *)
Definition opt_toLowerCase (v : JsVal) : Outcome JsVal :=
  match v with
  | VUndefined | VNull => Returned VUndefined
  | VStr s => Returned (VStr (toLowerCase s))
  | _ => Thrown (ErrorObj "TypeError" "toLowerCase is not a function")
  end.

(** [items.filter(keep)], where the callback may throw. *)
Fixpoint js_filter (keep : JsVal -> Outcome bool) (items : list JsVal)
  : Outcome (list JsVal) :=
  match items with
  | [] => Returned []
  | x :: rest =>
      match keep x with
      | Thrown e => Thrown e
      | Returned b =>
          match js_filter keep rest with
          | Thrown e => Thrown e
          | Returned kept => Returned (if b then x :: kept else kept)
          end
      end
  end.

(** [s.replace(pattern, replacement)] for a string pattern and a
    replacement without [$]: the first occurrence is replaced. *)
Fixpoint replace (s pattern replacement : string) : string :=
  if prefix pattern s
  then replacement ++ drop (String.length pattern) s
  else match s with
       | EmptyString => EmptyString
       | String c rest => String c (replace rest pattern replacement)
       end.

(** *** Buffer.from(s).toString('base64') *)

(** [Buffer.from(s)] reads the UTF-16 code units of [s], given here as a
    list: a surrogate pair gives the four bytes of its code point, a
    surrogate that is not part of a pair the three bytes of U+FFFD, any
    other unit the bytes of its own code point. *)
Fixpoint Buffer_from (units : list N) : string :=
  match units with
  | [] => EmptyString
  | u :: rest =>
      if is_high_surrogate u then
        match rest with
        | v :: rest' =>
            if is_low_surrogate v
            then utf8 (65536 + (u - 55296) * 1024 + (v - 56320))
                 ++ Buffer_from rest'
            else utf8 65533 ++ Buffer_from rest
        | [] => utf8 65533
        end
      else if is_low_surrogate u then utf8 65533 ++ Buffer_from rest
      else utf8 u ++ Buffer_from rest
  end%N.

Definition base64_alphabet : string :=
  "ABCDEFGHIJKLMNOPQRSTUVWXYZabcdefghijklmnopqrstuvwxyz0123456789+/".

Definition base64_char (n : N) : ascii :=
  match String.get (N.to_nat n) base64_alphabet with
  | Some c => c
  | None => "="%char
  end.

(** Three bytes give four characters; one or two bytes at the end are
    padded with [=]. *)
Fixpoint base64 (s : string) : string :=
  match s with
  | EmptyString => EmptyString
  | String a EmptyString =>
      let x := N_of_ascii a in
      String (base64_char (x / 4))
        (String (base64_char ((x mod 4) * 16)) "==")
  | String a (String b EmptyString) =>
      let x := N_of_ascii a in
      let y := N_of_ascii b in
      String (base64_char (x / 4))
        (String (base64_char ((x mod 4) * 16 + y / 16))
           (String (base64_char ((y mod 16) * 4)) "="))
  | String a (String b (String c rest)) =>
      let x := N_of_ascii a in
      let y := N_of_ascii b in
      let z := N_of_ascii c in
      String (base64_char (x / 4))
        (String (base64_char ((x mod 4) * 16 + y / 16))
           (String (base64_char ((y mod 16) * 4 + z / 64))
              (String (base64_char (z mod 64)) (base64 rest))))
  end%N.

(* ------------------------------------------------------------------ *)
(** ** services/freeboxApi.ts: the other methods *)

Section Endpoints.
Variable R : Runtime.

Definition setBaseUrl (url : string) : M unit :=
  update (fun w => with_api w
    {| baseUrl := url; appToken := appToken (api w);
       sessionToken := sessionToken (api w); challenge := challenge (api w);
       permissions := permissions (api w) |}).

Definition getBaseUrl : M string := read (fun w => baseUrl (api w)).

(** [getRrdData]: the three optional arguments are written to the body
    only when they are truthy. *)
Definition getRrdData (db : string) (dateStart dateEnd fields : JsVal)
  : M JsVal :=
  let body := [("db", VStr db)] in
  let body := if truthy dateStart then obj_set "date_start" dateStart body
              else body in
  let body := if truthy dateEnd then obj_set "date_end" dateEnd body
              else body in
  let body := if truthy fields then obj_set "fields" fields body else body in
  request R "POST" API_ENDPOINTS.RRD (VObj body) true.

Definition getWifiConfig : M JsVal :=
  request R "GET" API_ENDPOINTS.WIFI_CONFIG VUndefined true.

Definition getWifiAps : M JsVal :=
  request R "GET" API_ENDPOINTS.WIFI_AP VUndefined true.

Definition getWifiBss : M JsVal :=
  request R "GET" API_ENDPOINTS.WIFI_BSS VUndefined true.

Definition startWps : M JsVal :=
  request R "POST" "/wifi/wps/sessions/" (VObj [("bss_id", VNum "0")]) true.

Definition getLanHosts (interfaceName : string) : M JsVal :=
  request R "GET"
    (replace API_ENDPOINTS.LAN_BROWSER "interfaces/" "" ++ interfaceName ++ "/")
    VUndefined true.

Definition wakeOnLan (interfaceName mac : string) (password : JsVal)
  : M JsVal :=
  request R "POST" (API_ENDPOINTS.LAN_WOL ++ interfaceName ++ "/")
    (VObj [("mac", VStr mac); ("password", password)]) true.

Definition addDownload (downloadUrl : string) (downloadDir : JsVal)
  : M JsVal :=
  request R "POST" API_ENDPOINTS.DOWNLOADS_ADD
    (VObj [("download_url", VStr downloadUrl);
           ("download_dir", downloadDir)]) true.

(** The file methods; a path is given by its code units, which is what
    [Buffer.from] looks at. *)
Definition listFiles (path : list N) : M JsVal :=
  let encodedPath := base64 (Buffer_from path) in
  request R "GET" (API_ENDPOINTS.FS_LIST ++ encodedPath) VUndefined true.

Definition getFileInfo (path : list N) : M JsVal :=
  let encodedPath := base64 (Buffer_from path) in
  request R "GET" (API_ENDPOINTS.FS_INFO ++ encodedPath) VUndefined true.

Definition createDirectory (parent : list N) (dirname : string) : M JsVal :=
  let encodedParent := base64 (Buffer_from parent) in
  request R "POST" (API_ENDPOINTS.FS_MKDIR ++ encodedParent)
    (VObj [("dirname", VStr dirname)]) true.

Definition renameFile (src : list N) (dst : string) : M JsVal :=
  let encodedSrc := base64 (Buffer_from src) in
  request R "POST" (API_ENDPOINTS.FS_RENAME ++ encodedSrc)
    (VObj [("dst", VStr dst)]) true.

Definition getDisks : M JsVal :=
  request R "GET" API_ENDPOINTS.STORAGE_DISK VUndefined true.

Definition getVms : M JsVal :=
  request R "GET" API_ENDPOINTS.VM VUndefined true.

Definition createVm (data : JsVal) : M JsVal :=
  request R "POST" API_ENDPOINTS.VM data true.

End Endpoints.

(* ------------------------------------------------------------------ *)
(** ** services/modelDetection.ts: the feature checks *)

Definition VmSupport_eqb (a b : VmSupport) : bool :=
  match a, b with
  | vm_full, vm_full | vm_limited, vm_limited | vm_none, vm_none => true
  | _, _ => false
  end.

(** The methods of the exported [modelDetection] that answer from the
    cached record; [this.capabilities?.f] is [undefined] when nothing is
    cached. *)
Module modelDetection.

Definition supportsVm : M bool :=
  read (fun w => match capabilities (detection w) with
                 | Some c => negb (VmSupport_eqb (vmSupport c) vm_none)
                 | None => true
                 end).

Definition hasFullVmSupport : M bool :=
  read (fun w => match capabilities (detection w) with
                 | Some c => VmSupport_eqb (vmSupport c) vm_full
                 | None => false
                 end).

Definition getMaxVms : M Z :=
  read (fun w => match capabilities (detection w) with
                 | Some c => maxVms c
                 | None => 0%Z
                 end).

Definition supportsWifi6ghz : M bool :=
  read (fun w => match capabilities (detection w) with
                 | Some c => wifi6ghz c
                 | None => false
                 end).

Definition hasInternalStorage : M bool :=
  read (fun w => match capabilities (detection w) with
                 | Some c => hasInternalStorage c
                 | None => false
                 end).

Definition getModel : M FreeboxModel :=
  read (fun w => match capabilities (detection w) with
                 | Some c => model c
                 | None => unknown
                 end).

Definition getModelName : M string :=
  read (fun w => match capabilities (detection w) with
                 | Some c => modelName c
                 | None => "Freebox"
                 end).

Definition getTemperatureFields : M (list string) :=
  read (fun w => match capabilities (detection w) with
                 | Some c => temperatureFields c
                 | None => base_temperatureFields (MODEL_CAPABILITIES unknown)
                 end).

Definition isUltra : M bool :=
  read (fun w => match capabilities (detection w) with
                 | Some c => FreeboxModel_eqb (model c) ultra
                 | None => false
                 end).

Definition isDelta : M bool :=
  read (fun w => match capabilities (detection w) with
                 | Some c => FreeboxModel_eqb (model c) delta
                 | None => false
                 end).

Definition isPop : M bool :=
  read (fun w => match capabilities (detection w) with
                 | Some c => FreeboxModel_eqb (model c) pop
                 | None => false
                 end).

End modelDetection.

(* ------------------------------------------------------------------ *)
(** ** The route handlers *)

(** What a handler leaves on [res]: the status set by [res.status] (200
    when it is not called) and the value given to [res.json].  A handler
    that awaits the detection another request has in flight has not
    replied yet. *)
Inductive Handled :=
| Replied (code : Z) (body : JsVal)
| Pending.

(** The value [res.json] is given for a capability record: the keys of the
    family's row, then the two added by [buildCapabilities]. *)
Definition model_key (m : FreeboxModel) : string :=
  match m with
  | ultra => "ultra"
  | delta => "delta"
  | pop => "pop"
  | revolution => "revolution"
  | unknown => "unknown"
  end.

Definition vmSupport_key (v : VmSupport) : string :=
  match v with
  | vm_full => "full"
  | vm_limited => "limited"
  | vm_none => "none"
  end.

Definition json_of_capabilities (c : FreeboxCapabilities) : JsVal :=
  VObj [("model", VStr (model_key (model c)));
        ("wifi6ghz", VBool (wifi6ghz c));
        ("wifi7", VBool (wifi7 c));
        ("vmSupport", VStr (vmSupport_key (vmSupport c)));
        ("maxVms", VNum (decimal (maxVms c)));
        ("maxVmRam", VNum (decimal (maxVmRam c)));
        ("temperatureType",
         VStr (match temperatureType c with
               | quad_core => "quad_core"
               | legacy => "legacy"
               end));
        ("temperatureFields", VArr (map VStr (temperatureFields c)));
        ("hasInternalStorage", VBool (hasInternalStorage c));
        ("maxEthernetSpeed", VNum (decimal (maxEthernetSpeed c)));
        ("maxDownloadSpeed", VNum (decimal (maxDownloadSpeed c)));
        ("maxUploadSpeed", VNum (decimal (maxUploadSpeed c)));
        ("modelName", VStr (modelName c));
        ("boxFlavor",
         VStr (match boxFlavor c with
               | flavor_full => "full"
               | flavor_light => "light"
               end))].

Definition refusal (code message : string) : JsVal :=
  VObj [("success", VBool false);
        ("error", VObj [("code", VStr code); ("message", VStr message)])].

Definition success_of (result : JsVal) : JsVal :=
  VObj [("success", VBool true); ("result", result)].

(** *** routes/vm.ts *)

Section VmRoutes.
Variable R : Runtime.

(** The module's [mockVms] array, as it stands when a request comes in. *)
Variable mockVms : list JsVal.

Definition vm_not_supported (c : FreeboxCapabilities) : Handled :=
  Replied 403
    (refusal "vm_not_supported"
       ("Les machines virtuelles ne sont pas supportées sur " ++ modelName c)).

(** [GET /api/vm]. *)
Definition vm_list : M Handled :=
  capabilities <- getCapabilities ;;
  let blocked := match capabilities with
                 | Some c => if VmSupport_eqb (vmSupport c) vm_none
                             then Some c else None
                 | None => None
                 end in
  match blocked with
  | Some c => ret (vm_not_supported c)
  | None =>
      try_catch
        (result <- getVms R ;;
         ret (Replied 200 result))
        (fun _ => ret (Replied 200 (success_of (VArr mockVms))))
  end.

(** The check of the number of machines on a family with limited
    support: [Some] reply when the limit is reached, [None] to go on. *)
Definition vm_limit_check (c : FreeboxCapabilities) : M (option Handled) :=
  try_catch
    (vmsResult <- getVms R ;;
     success <- lift (get vmsResult "success") ;;
     if truthy success then
       result <- lift (get vmsResult "result") ;;
       match result with
       | VArr items =>
           let currentVmCount := Z.of_nat (length items) in
           if (maxVms c <=? currentVmCount)%Z then
             ret (Some (Replied 400
               (refusal "vm_limit_reached"
                  ("Limite atteinte: " ++ modelName c ++ " supporte maximum "
                   ++ decimal (maxVms c) ++ " VM(s). Vous en avez déjà "
                   ++ decimal currentVmCount ++ "."))))
           else ret None
       | _ => ret None
       end
     else ret None)
    (fun _ => ret None).

(** The check that a disk is there: [Some] reply when the creation is
    refused, [None] to go on. *)
Definition vm_disk_check : M (option Handled) :=
  try_catch
    (disksResult <- getDisks R ;;
     success <- lift (get disksResult "success") ;;
     missing <-
       (if negb (truthy success) then ret true
        else
          result <- lift (get disksResult "result") ;;
          ret (negb (truthy result)
               || match result with
                  | VArr [] => true
                  | _ => false
                  end)) ;;
     if missing : bool then
       ret (Some (Replied 400
         (refusal "no_disk"
            "Aucun disque disponible. Un disque est nécessaire pour créer une VM.")))
     else ret None)
    (fun _ =>
       ret (Some (Replied 400
         (refusal "disk_check_failed"
            "Impossible de vérifier la disponibilité du disque.")))).

(** [POST /api/vm]. *)
Definition vm_create (body : JsVal) : M Handled :=
  capabilities <- getCapabilities ;;
  let blocked := match capabilities with
                 | Some c => if VmSupport_eqb (vmSupport c) vm_none
                             then Some c else None
                 | None => None
                 end in
  match blocked with
  | Some c => ret (vm_not_supported c)
  | None =>
      limit <- match capabilities with
               | Some c => if VmSupport_eqb (vmSupport c) vm_limited
                           then vm_limit_check c else ret None
               | None => ret None
               end ;;
      match limit with
      | Some reply => ret reply
      | None =>
          disk <- vm_disk_check ;;
          match disk with
          | Some reply => ret reply
          | None =>
              try_catch
                (result <- createVm R body ;;
                 ret (Replied 200 result))
                (fun _ =>
                   ret (Replied 500
                     (refusal "vm_create_failed"
                        "Impossible de créer la VM.")))
          end
      end
  end.

End VmRoutes.

(** *** routes/auth.ts and routes/capabilities.ts *)

Section AuthRoutes.
Variable R : Runtime.

(** [createError] of the error-handling middleware: the error it makes
    of a message, a status and a code. *)
Variable createError : string -> Z -> string -> JsError.

(** The reply once a detection has been awaited. *)
Definition with_capabilities (d : Detection)
    (reply : FreeboxCapabilities -> JsVal) : Handled :=
  match d with
  | Detected c => Replied 200 (reply c)
  | InFlight => Pending
  end.

(** [POST /api/auth/login]. *)
Definition auth_login : M Handled :=
  registered <- isRegistered ;;
  if negb registered then
    throw (createError "App not registered. Please register first." 401
             "NOT_REGISTERED")
  else
    session <- login R ;;
    capabilities <- detectModel R ;;
    ret (with_capabilities capabilities (fun c =>
           success_of
             (VObj [("permissions", sd_permissions session);
                    ("capabilities", json_of_capabilities c);
                    ("message", VStr "Login successful")]))).

(** [POST /api/auth/logout]. *)
Definition auth_logout : M Handled :=
  logout R ;;;
  clearCache ;;;
  ret (Replied 200 (success_of (VObj [("message", VStr "Logged out")]))).

(** [GET /api/auth/check]: what [checkSession] gave is tested for
    truthiness and written to the reply as it is. *)
Definition auth_check : M Handled :=
  loggedIn <- checkSession R ;;
  capabilities <- (if truthy loggedIn
                   then d <- detectModel R ;;
                        ret (match d with
                             | Detected c => Some (json_of_capabilities c)
                             | InFlight => None
                             end)
                   else ret (Some VNull)) ;;
  match capabilities with
  | None => ret Pending
  | Some capabilities =>
      registered <- isRegistered ;;
      permissions <- getPermissions ;;
      ret (Replied 200
             (success_of
                (VObj [("isRegistered", VBool registered);
                       ("isLoggedIn", loggedIn);
                       ("permissions", permissions);
                       ("capabilities", capabilities)])))
  end.

(** [GET /api/capabilities]. *)
Definition capabilities_get : M Handled :=
  capabilities <- detectModel R ;;
  ret (with_capabilities capabilities (fun c =>
         success_of (json_of_capabilities c))).

(** [POST /api/capabilities/refresh]. *)
Definition capabilities_refresh : M Handled :=
  capabilities <- refreshCapabilities R ;;
  ret (with_capabilities capabilities (fun c =>
         success_of (json_of_capabilities c))).

(** [GET /api/capabilities/features]. *)
Definition features_of (c : FreeboxCapabilities) : JsVal :=
  VObj [("model", VStr (model_key (model c)));
        ("modelName", VStr (modelName c));
        ("features",
         VObj [("vm", VBool (negb (VmSupport_eqb (vmSupport c) vm_none)));
               ("vmFull", VBool (VmSupport_eqb (vmSupport c) vm_full));
               ("vmLimited", VBool (VmSupport_eqb (vmSupport c) vm_limited));
               ("maxVms", VNum (decimal (maxVms c)));
               ("wifi6ghz", VBool (wifi6ghz c));
               ("internalStorage", VBool (hasInternalStorage c));
               ("maxEthernetSpeed", VNum (decimal (maxEthernetSpeed c)))])].

Definition capabilities_features : M Handled :=
  capabilities <- detectModel R ;;
  ret (with_capabilities capabilities (fun c => success_of (features_of c))).

End AuthRoutes.

(** *** routes/wifi.ts *)

(** Sequencing of evaluations that may throw. *)
Definition and_then {A B} (o : Outcome A) (k : A -> Outcome B) : Outcome B :=
  match o with
  | Returned a => k a
  | Thrown e => Thrown e
  end.

Notation "x <~ o ;; k" := (and_then o (fun x => k))
  (at level 61, o at next level, right associativity) : m_scope.

(** One entry of [Promise.allSettled]: the promise's outcome, kept. *)
Definition settle {A} (m : M A) : M (Outcome A) :=
  fun w => match m w with (o, w') => (Returned o, w') end.

(** [p.status === 'fulfilled' && p.value.success ? p.value.result : fallback]. *)
Definition fulfilled_result (p : Outcome JsVal) (fallback : JsVal)
  : Outcome JsVal :=
  match p with
  | Thrown _ => Returned fallback
  | Returned value =>
      success <~ get value "success" ;;
      if truthy success then get value "result" else Returned fallback
  end.

(** The callback that selects the WiFi devices of the LAN list. *)
Definition is_wifi_device (device : JsVal) : Outcome bool :=
  active <~ get device "active" ;;
  if negb (truthy active) then Returned false
  else
    reachable <~ get device "reachable" ;;
    if negb (truthy reachable) then Returned false
    else
      access_point <~ get device "access_point" ;;
      connectivity_type <~ opt_get access_point "connectivity_type" ;;
      Returned (strict_eq_str connectivity_type "wifi").

(** [device.access_point?.wifi_information?.band?.toLowerCase() || '']. *)
Definition band_of (device : JsVal) : Outcome string :=
  access_point <~ get device "access_point" ;;
  wifi_information <~ opt_get access_point "wifi_information" ;;
  band <~ opt_get wifi_information "band" ;;
  lowered <~ opt_toLowerCase band ;;
  Returned (match lowered with
            | VStr s => s
            | _ => ""
            end).

(** [devicesByBand]. *)
Record BandCount := {
  count_2g4 : Z;
  count_5g : Z;
  count_6g : Z
}.

Definition count_band (band : string) (n : BandCount) : BandCount :=
  if includes band "6g" then
    {| count_2g4 := count_2g4 n; count_5g := count_5g n;
       count_6g := count_6g n + 1 |}
  else if includes band "5g" then
    {| count_2g4 := count_2g4 n; count_5g := count_5g n + 1;
       count_6g := count_6g n |}
  else if includes band "2" || includes band "2g4" || includes band "2.4" then
    {| count_2g4 := count_2g4 n + 1; count_5g := count_5g n;
       count_6g := count_6g n |}
  else n.

Fixpoint count_bands (devices : list JsVal) (n : BandCount)
  : Outcome BandCount :=
  match devices with
  | [] => Returned n
  | device :: rest =>
      band <~ band_of device ;;
      count_bands rest (count_band band n)
  end.

(** The callback that drops the 6 GHz entries:
    [!x.band?.toLowerCase().includes('6g')]. *)
Definition not_6ghz (x : JsVal) : Outcome bool :=
  band <~ get x "band" ;;
  lowered <~ opt_toLowerCase band ;;
  Returned (match lowered with
            | VStr s => negb (includes s "6g")
            | _ => true
            end).

Definition json_of_bands (n : BandCount) : JsVal :=
  VObj [("2g4", VNum (decimal (count_2g4 n)));
        ("5g", VNum (decimal (count_5g n)));
        ("6g", VNum (decimal (count_6g n)))].

(** What [GET /api/wifi/full] makes of the four settled promises. *)
Definition wifi_summary (supports6ghz : bool)
    (config aps bss lanDevices : Outcome JsVal) : Outcome JsVal :=
  configData <~ fulfilled_result config VNull ;;
  apsData <~ fulfilled_result aps (VArr []) ;;
  bssData <~ fulfilled_result bss (VArr []) ;;
  let none := {| count_2g4 := 0; count_5g := 0; count_6g := 0 |} in
  counted <~
    match lanDevices with
    | Thrown _ => Returned (0%Z, none)
    | Returned value =>
        success <~ get value "success" ;;
        if truthy success then
          result <~ get value "result" ;;
          match result with
          | VArr items =>
              wifiDevices <~ js_filter is_wifi_device items ;;
              devicesByBand <~ count_bands wifiDevices none ;;
              Returned (Z.of_nat (length wifiDevices), devicesByBand)
          | _ => Returned (0%Z, none)
          end
        else Returned (0%Z, none)
    end ;;
  let wifiDeviceCount := fst counted in
  let devicesByBand := snd counted in
  filtered <~
    match supports6ghz, apsData, bssData with
    | false, VArr apItems, VArr bssItems =>
        filteredAps <~ js_filter not_6ghz apItems ;;
        filteredBss <~ js_filter not_6ghz bssItems ;;
        Returned (VArr filteredAps, VArr filteredBss,
                  {| count_2g4 := count_2g4 devicesByBand;
                     count_5g := count_5g devicesByBand;
                     count_6g := 0 |})
    | _, _, _ =>
        Returned (js_or apsData (VArr []), js_or bssData (VArr []),
                  devicesByBand)
    end ;;
  Returned
    (success_of
       (VObj [("config", configData);
              ("aps", fst (fst filtered));
              ("bss", snd (fst filtered));
              ("wifiDeviceCount",
               VNum (decimal (if supports6ghz then wifiDeviceCount
                              else wifiDeviceCount - count_6g devicesByBand)));
              ("devicesByBand", json_of_bands (snd filtered))])).

Section WifiRoutes.
Variable R : Runtime.

(** [GET /api/wifi/full]: the four requests are issued in this order
    before any answer is looked at. *)
Definition wifi_full : M Handled :=
  config <- settle (getWifiConfig R) ;;
  aps <- settle (getWifiAps R) ;;
  bss <- settle (getWifiBss R) ;;
  lanDevices <- settle (getLanHosts R "pub") ;;
  supports6ghz <- modelDetection.supportsWifi6ghz ;;
  body <- lift (wifi_summary supports6ghz config aps bss lanDevices) ;;
  ret (Replied 200 body).

(** [POST /api/wifi/wps/start]. *)
Definition wps_start : M Handled :=
  permissions <- getPermissions ;;
  settings <- lift (get permissions "settings") ;;
  if negb (truthy settings) then
    ret (Replied 200
           (refusal "insufficient_rights"
              ("Permission " ++ String dquote "Modification des réglages de la Freebox"
               ++ String dquote " requise. Supprimez freebox_token.json et réenregistrez l'application en accordant tous les droits sur l'écran LCD de la Freebox.")))
  else
    result <- startWps R ;;
    success <- lift (get result "success") ;;
    if negb (truthy success) then
      msg <- lift (get result "msg") ;;
      error_code <- lift (get result "error_code") ;;
      let errorMsg := js_or (js_or msg error_code) (VStr "") in
      insufficient <-
        (found <- lift (js_includes errorMsg "insuff") ;;
         ret (found || strict_eq_str error_code "insufficient_rights")) ;;
      if insufficient : bool then
        ret (Replied 200
               (refusal "insufficient_rights"
                  "Permission insuffisante. Supprimez le fichier freebox_token.json et réenregistrez l'application avec tous les droits."))
      else
        disabled <-
          (found <- lift (js_includes errorMsg "disabled") ;;
           ret (found || strict_eq_str error_code "wps_disabled")) ;;
        if disabled : bool then
          ret (Replied 200
                 (refusal "wps_disabled"
                    "WPS est désactivé sur la Freebox. Activez-le dans les paramètres WiFi de Freebox OS."))
        else
          ret (Replied 200
                 (VObj [("success", VBool false);
                        ("error",
                         VObj [("code", js_or error_code (VStr "wps_error"));
                               ("message",
                                js_or msg
                                  (VStr "Erreur lors du démarrage WPS"))])]))
    else ret (Replied 200 result).

End WifiRoutes.

(* ------------------------------------------------------------------ *)
(** ** Vocabulary of the further properties *)

(** A record that [buildCapabilities] makes, and a cache that holds
    nothing else. *)
Definition built (c : FreeboxCapabilities) : Prop :=
  c = buildCapabilities (model c) (modelName c) (boxFlavor c).

Definition cache_built (w : World) : Prop :=
  match capabilities (detection w) with
  | Some c => built c
  | None => True
  end.

(** Reading base64 back: the value of a character of the alphabet, and
    the bytes of a padded text. *)
Definition base64_value (c : ascii) : option N :=
  let n := N_of_ascii c in
  (if (65 <=? n) && (n <=? 90) then Some (n - 65)
   else if (97 <=? n) && (n <=? 122) then Some (n - 71)
   else if (48 <=? n) && (n <=? 57) then Some (n + 4)
   else if n =? 43 then Some 62
   else if n =? 47 then Some 63
   else None)%N.

Fixpoint base64_decode (s : string) : option string :=
  match s with
  | EmptyString => Some EmptyString
  | String a (String b (String c (String d rest))) =>
      match base64_value a, base64_value b with
      | Some s1, Some s2 =>
          let first := ascii_of_N (s1 * 4 + s2 / 16) in
          match base64_value c, base64_value d, rest with
          | Some s3, Some s4, _ =>
              match base64_decode rest with
              | Some bytes =>
                  Some (String first
                          (String (ascii_of_N ((s2 mod 16) * 16 + s3 / 4))
                             (String (ascii_of_N ((s3 mod 4) * 64 + s4)) bytes)))
              | None => None
              end
          | Some s3, None, EmptyString =>
              if (d =? "=")%char
              then Some (String first
                           (String (ascii_of_N ((s2 mod 16) * 16 + s3 / 4))
                              EmptyString))
              else None
          | None, None, EmptyString =>
              if (c =? "=")%char && (d =? "=")%char
              then Some (String first EmptyString)
              else None
          | _, _, _ => None
          end
      | _, _ => None
      end
  | _ => None
  end%N.

(** The record for which the VM routes refuse to serve: a cached one
    without VM support. *)
Definition vm_refused (w : World) : option FreeboxCapabilities :=
  match capabilities (detection w) with
  | Some c => if VmSupport_eqb (vmSupport c) vm_none then Some c else None
  | None => None
  end.

(** A Delta that hosts the machines [vms] on one disk and accepts every
    creation. *)
Definition hosting (vms : list JsVal) (req : Request) : FetchOutcome :=
  if includes (req_url req) "/vm/" then
    if req_method req =? "GET" then json_response (success_of (VArr vms))
    else json_response (success_of (VObj [("id", VNum "7")]))
  else if includes (req_url req) "/storage/disk/" then
    json_response (success_of (VArr [VObj [("id", VNum "1")]]))
  else cooperative "Freebox v8 (Delta)" "full" req.

(** The machine count is looked at: a record with limited VM support is
    cached. *)
Definition limit_checked (w : World) : bool :=
  match capabilities (detection w) with
  | Some c => VmSupport_eqb (vmSupport c) vm_limited
  | None => false
  end.

(** An entry of the access point or BSS list is a 6 GHz one: its [band],
    lower-cased, mentions [6g]. *)
Definition band_is_6ghz (x : JsVal) : bool :=
  match field x "band" with
  | VStr s => includes (toLowerCase s) "6g"
  | _ => false
  end.

(** What [supportsWifi6ghz] answers in state [w]. *)
Definition wifi6ghz_known (w : World) : bool :=
  match capabilities (detection w) with
  | Some c => wifi6ghz c
  | None => false
  end.

(* ------------------------------------------------------------------ *)
(** ** The dashboard's pure helpers *)

(** [formatBand] of [stores/wifiStore.ts]. *)
Definition formatBand (band : string) : string :=
  let bandLower := toLowerCase band in
  if includes bandLower "6g" || (bandLower =? "6g") then "6GHz"
  else if includes bandLower "5g" || (bandLower =? "5g") then "5GHz"
  else if includes bandLower "2g4" || includes bandLower "2.4"
          || includes bandLower "2d4g" then "2.4GHz"
  else "2.4GHz".

(** [getDisplayName] of [components/layout/Header.tsx]. *)
Definition getDisplayName (model : string) : string :=
  if model =? "ultra" then "Freebox Ultra"
  else if model =? "delta" then "Freebox Delta"
  else if model =? "pop" then "Freebox Pop"
  else if model =? "revolution" then "Freebox Revolution"
  else "Freebox".

(** [generateWifiString] of [components/widgets/WifiPanel.tsx]:
    [escapeString] puts a backslash before each backslash, semicolon,
    comma, colon, double quote and single quote. *)
Definition is_special (c : ascii) : bool :=
  (c =? backslash)%char || (c =? ";")%char || (c =? ",")%char
  || (c =? ":")%char || (c =? dquote)%char || (c =? "'")%char.

Fixpoint escapeString (str : string) : string :=
  match str with
  | EmptyString => EmptyString
  | String c rest =>
      if is_special c then String backslash (String c (escapeString rest))
      else String c (escapeString rest)
  end.

Definition generateWifiString (ssid password : string)
    (security : option string) : string :=
  let security := match security with Some s => s | None => "WPA" end in
  "WIFI:T:" ++ security ++ ";S:" ++ escapeString ssid
  ++ ";P:" ++ escapeString password ++ ";;".

(** An appliance that reports the name and the flavor [MOCK_MODEL_NAMES]
    gives to the family [m]. *)
Definition reporting (m : FreeboxModel) : Request -> FetchOutcome :=
  fun _ =>
    json_response
      (VObj [("box_model_name", VStr (fst (MOCK_MODEL_NAMES m)));
             ("box_flavor",
              VStr (match snd (MOCK_MODEL_NAMES m) with
                    | flavor_full => "full"
                    | flavor_light => "light"
                    end))]).

(** A JavaScript string without flaw: every unit is a 16-bit one, every
    high surrogate is followed by a low one and every low surrogate
    preceded by a high one. *)
Fixpoint well_formed (units : list N) : bool :=
  match units with
  | [] => true
  | u :: rest =>
      (u <? 65536)%N
      && if is_high_surrogate u then
           match rest with
           | v :: rest' => is_low_surrogate v && well_formed rest'
           | [] => false
           end
         else negb (is_low_surrogate u) && well_formed rest
  end.

(** The value of [MOCK_FREEBOX_MODEL], lower-cased, is not one of the keys
    that indexing an object literal finds by inheritance. *)
Definition mock_key_is_own (R : Runtime) : bool :=
  match MOCK_FREEBOX_MODEL R with
  | None => true
  | Some v => negb (inherited_key (toLowerCase v))
  end.




(* ------------------------------------------------------------------ *)
(** * Properties *)

(** ** Hardware families *)

Lemma detectModelFromName_newest (name : string) :
  detectModelFromName name = newest_present name.
Proof.
  unfold detectModelFromName, newest_present, has_marker, markers, existsb.
  generalize (toLowerCase name) as lower. intro lower.
  repeat match goal with
         | |- context [includes lower ?m] =>
             destruct (includes lower m); cbn [orb]; try reflexivity
         end.
Qed.

Lemma newest_present_has_marker (name : string) :
  newest_present name <> unknown ->
  has_marker (newest_present name) name = true.
Proof.
  unfold newest_present.
  destruct (has_marker ultra name) eqn:Hu; [easy|].
  destruct (has_marker pop name) eqn:Hp; [easy|].
  destruct (has_marker delta name) eqn:Hd; [easy|].
  destruct (has_marker revolution name) eqn:Hr; [easy|].
  congruence.
Qed.

(** C8. The identification string "Freebox Pop" classifies to the [pop]
    family, and the [pop] row of the table, like every capability record
    built from it, has VM support [none], zero VMs and no 6 GHz WiFi; a
    detection against an appliance that reports this name returns such a
    record. *)
Theorem freebox_pop_end_to_end :
  detectModelFromName "Freebox Pop" = pop /\
  base_vmSupport (MODEL_CAPABILITIES pop) = vm_none /\
  base_maxVms (MODEL_CAPABILITIES pop) = 0%Z /\
  base_wifi6ghz (MODEL_CAPABILITIES pop) = false /\
  (forall flavor,
     let caps := buildCapabilities (detectModelFromName "Freebox Pop")
                   "Freebox Pop" flavor in
     model caps = pop /\ vmSupport caps = vm_none /\
     maxVms caps = 0%Z /\ wifi6ghz caps = false) /\
  fst (detectModel
         (posix_runtime default_config (cooperative "Freebox Pop" "light") None)
         (boot fresh_disk))
  = Returned (Detected (buildCapabilities pop "Freebox Pop" flavor_light)).
Proof.
  repeat split; vm_compute; reflexivity.
Qed.

(** C1, as stated, fails: an identifier with the [pop] marker and the
    [fbxgw8] marker of the older [delta] family does not classify as [pop]
    when it also carries [v9]: the [ultra] test runs first. *)
Lemma pop_and_delta_markers_classified_ultra :
  has_marker pop "fbxgw8-pop v9" = true /\
  has_marker delta "fbxgw8-pop v9" = true /\
  detectModelFromName "fbxgw8-pop v9" = ultra /\
  detectModelFromName "fbxgw8-pop v9" <> pop.
Proof.
  repeat split; try reflexivity. discriminate.
Qed.

(** C1, amended. The classification is the newest family one of whose
    markers occurs in the lower-cased identifier, in the order ultra, pop,
    delta, revolution.  So when markers of a newer and of an older family
    both occur, the result is never the older family, it is a family at
    least as new as the newer one, and it is the newer one itself unless a
    marker of a still newer family occurs too.  An identifier with no
    marker at all classifies as [unknown]. *)
Theorem classification_prefers_newest_marker (name : string) :
  detectModelFromName name = newest_present name /\
  (forall newer older,
      has_marker newer name = true ->
      has_marker older name = true ->
      rank newer < rank older ->
      detectModelFromName name <> older /\
      rank (detectModelFromName name) <= rank newer /\
      has_marker (detectModelFromName name) name = true /\
      ((forall m, rank m < rank newer -> has_marker m name = false) ->
       detectModelFromName name = newer)) /\
  ((forall m, has_marker m name = false) ->
   detectModelFromName name = unknown).
Proof.
  rewrite detectModelFromName_newest. split; [reflexivity|]. split.
  - intros newer older Hn Ho Hlt.
    assert (Hk : newest_present name <> unknown).
    { unfold newest_present.
      destruct newer; cbn in Hlt; try lia;
        destruct older; cbn in Hlt; try lia;
        rewrite ?Hn, ?Ho;
        repeat match goal with
               | |- context [has_marker ?m name] =>
                   destruct (has_marker m name)
               end; discriminate. }
    split; [|split; [|split]].
    + unfold newest_present.
      destruct newer; cbn in Hlt; try lia;
        destruct older; cbn in Hlt; try lia;
        rewrite ?Hn, ?Ho;
        repeat match goal with
               | |- context [has_marker ?m name] =>
                   destruct (has_marker m name)
               end; discriminate.
    + unfold newest_present.
      destruct newer; cbn in Hlt; try lia; rewrite ?Hn;
        repeat match goal with
               | |- context [has_marker ?m name] =>
                   destruct (has_marker m name)
               end; cbn; try lia; discriminate.
    + apply newest_present_has_marker, Hk.
    + intros Hnone. unfold newest_present.
      destruct newer; cbn in Hlt; try lia.
      * now rewrite Hn.
      * rewrite (Hnone ultra), (Hnone pop) by (cbn; lia). now rewrite Hn.
      * rewrite (Hnone ultra) by (cbn; lia). now rewrite Hn.
      * rewrite (Hnone ultra), (Hnone pop), (Hnone delta) by (cbn; lia).
        now rewrite Hn.
      * destruct older; cbn in Hlt; lia.
  - intros Hnone. unfold newest_present.
    now rewrite (Hnone ultra), (Hnone pop), (Hnone delta), (Hnone revolution).
Qed.

(** The amended C1 at the identifier of a Pop whose hardware name carries
    the older family's [fbxgw8]. *)
Lemma classification_prefers_newest_marker_witness :
  has_marker pop "fbxgw8-pop" = true /\
  has_marker delta "fbxgw8-pop" = true /\
  rank pop < rank delta /\
  detectModelFromName "fbxgw8-pop" <> delta /\
  detectModelFromName "fbxgw8-pop" = pop.
Proof.
  assert (Hlt : rank pop < rank delta) by (cbn; lia).
  destruct (proj1 (proj2 (classification_prefers_newest_marker "fbxgw8-pop"))
              pop delta eq_refl eq_refl Hlt) as [Hne [_ [_ Heq]]].
  split; [reflexivity|]. split; [reflexivity|]. split; [exact Hlt|].
  split; [exact Hne|].
  apply Heq. intros m Hm. destruct m; cbn in Hm; try lia. reflexivity.
Defined.

(** ** HMAC-SHA1 *)

(** The digests of FIPS 180 and RFC 2202 come out of the model. *)
Example sha1_abc :
  Sha1.hex (Sha1.sha1 (Sha1.bytes_of_string "abc"))
  = "a9993e364706816aba3e25717850c26c9cd0d89d".
Proof. vm_compute. reflexivity. Qed.

Example hmac_sha1_rfc2202_case2 :
  hmac_sha1_hex "Jefe" "what do ya want for nothing?"
  = "effcdf6ae5eb2fa2d27416d5f184df9c259a7c79".
Proof. vm_compute. reflexivity. Qed.

Lemma computePassword_pure (chal : JsVal) (w : World) :
  snd (computePassword chal w) = w.
Proof.
  unfold computePassword, bind, read, new_Error, throw, ret. cbn.
  destruct (truthy (appToken (api w))); cbn; [|reflexivity].
  destruct (appToken (api w)); try reflexivity.
  destruct chal; reflexivity.
Qed.

Lemma computePassword_of_token (chal : JsVal) (w1 w2 : World) :
  appToken (api w1) = appToken (api w2) ->
  fst (computePassword chal w1) = fst (computePassword chal w2).
Proof.
  intros H. unfold computePassword, bind, read, new_Error, throw, ret. cbn.
  rewrite H.
  destruct (truthy (appToken (api w2))); cbn; [|reflexivity].
  destruct (appToken (api w2)); try reflexivity.
  destruct chal; reflexivity.
Qed.

(** C9. [computePassword] is a function of the stored token and of the
    challenge alone, and it changes nothing: two evaluations with the same
    stored token [token] and the same challenge, in whatever states and
    one after the other or not, give the same outcome, which is the hex
    digest of HMAC-SHA1 keyed by the token (the "no token" error when the
    token is the empty string). *)
Theorem computePassword_deterministic (token chal : string) (w1 w2 : World) :
  appToken (api w1) = VStr token ->
  appToken (api w2) = VStr token ->
  fst (computePassword (VStr chal) w1) = fst (computePassword (VStr chal) w2) /\
  fst (computePassword (VStr chal) (snd (computePassword (VStr chal) w1)))
  = fst (computePassword (VStr chal) w1) /\
  fst (computePassword (VStr chal) w1)
  = (if token =? "" then Thrown (ErrorObj "Error" "No app_token available")
     else Returned (hmac_sha1_hex token chal)).
Proof.
  intros H1 H2. split; [|split].
  - apply computePassword_of_token. congruence.
  - now rewrite computePassword_pure.
  - unfold computePassword, bind, read, new_Error, throw, ret. cbn.
    rewrite H1. cbn. destruct (token =? ""); reflexivity.
Qed.

(** C9 at the key and the data of RFC 2202, test case 2, in two states
    that differ in their session fields. *)
Lemma computePassword_deterministic_witness :
  let w1 := with_token (boot fresh_disk) "Jefe" in
  let w2 := with_api w1 {| baseUrl := "https://192.168.1.254";
                           appToken := VStr "Jefe";
                           sessionToken := VStr "s";
                           challenge := VStr "old";
                           permissions := VObj [("settings", VBool true)] |} in
  let chal := "what do ya want for nothing?" in
  fst (computePassword (VStr chal) w1) = fst (computePassword (VStr chal) w2) /\
  fst (computePassword (VStr chal) (snd (computePassword (VStr chal) w1)))
  = fst (computePassword (VStr chal) w1) /\
  fst (computePassword (VStr chal) w1)
  = Returned "effcdf6ae5eb2fa2d27416d5f184df9c259a7c79".
Proof.
  intros w1 w2 chal.
  destruct (computePassword_deterministic "Jefe" chal w1 w2 eq_refl eq_refl)
    as [Ha [Hb Hc]].
  split; [exact Ha|]. split; [exact Hb|].
  rewrite Hc. vm_compute. reflexivity.
Defined.

(** ** The JSON reader never runs out of fuel *)

Lemma skip_ws_length (s : string) : String.length (skip_ws s) <= String.length s.
Proof.
  induction s as [|c s IH]; cbn [skip_ws]; [lia|].
  destruct (is_ws c); cbn [String.length]; lia.
Qed.

Lemma append_length (a b : string) :
  String.length (a ++ b) = String.length a + String.length b.
Proof. induction a as [|c a IH]; cbn; [reflexivity | now rewrite IH]. Qed.

(** The two branches of the surrogate test of [parse_chars]. *)
Lemma surrogate_cases {A : Type} (o : option N) (s : string)
    (paired : N -> string -> A) (single : A) :
  match o, s with
  | Some lo, String _ (String _ (String _ (String _ (String _ (String _ rest))))) =>
      paired lo rest
  | _, _ => single
  end = single \/
  exists lo rest,
    match o, s with
    | Some lo, String _ (String _ (String _ (String _ (String _ (String _ rest))))) =>
        paired lo rest
    | _, _ => single
    end = paired lo rest /\ String.length s = 6 + String.length rest.
Proof.
  destruct o as [lo|]; [|now left].
  destruct s as [|a1 [|a2 [|a3 [|a4 [|a5 [|a6 rest]]]]]]; try now left.
  right. exists lo, rest. split; reflexivity.
Qed.

(** The rest of the input in two equal results. *)
Lemma rest_length (a b : string * string) :
  Some a = Some b -> String.length (snd a) = String.length (snd b).
Proof. intros H. now injection H as ->. Qed.

Lemma parse_chars_consumes (n : nat) :
  forall s t r, String.length s <= n ->
    parse_chars s = Some (t, r) -> String.length r < String.length s.
Proof.
  induction n as [|n IH]; intros s t r Hn H.
  - destruct s; [discriminate | cbn in Hn; lia].
  - destruct s as [|c s]; [discriminate|].
    cbn [parse_chars] in H. cbn [String.length] in *.
    destruct (c =? dquote)%char.
    { inversion H; subst. lia. }
    destruct (c =? backslash)%char.
    { destruct s as [|e s1]; [discriminate|]. cbn [String.length] in *.
      destruct (e =? "u")%char.
      - destruct s1 as [|h1 [|h2 [|h3 [|h4 s2]]]]; try discriminate.
        cbn [String.length] in *.
        destruct (hex4 h1 h2 h3 h4) as [cu|]; [|discriminate].
        destruct (surrogate_cases
                    (if is_high_surrogate cu then low_surrogate_escape s2 else None)
                    s2
                    (fun lo rest3 =>
                       match parse_chars rest3 with
                       | Some (t, r) =>
                           Some (utf8 (65536 + (cu - 55296) * 1024
                                       + (lo - 56320))%N ++ t, r)
                       | None => None
                       end)
                    (match parse_chars s2 with
                     | Some (t, r) => Some (utf8 cu ++ t, r)
                     | None => None
                     end)) as [E|[lo [rest3 [E L]]]];
          rewrite E in H.
        + destruct (parse_chars s2) as [[t' r']|] eqn:E'; [|discriminate].
          apply rest_length in H. cbn [snd] in H. apply IH in E'; lia.
        + destruct (parse_chars rest3) as [[t' r']|] eqn:E'; [|discriminate].
          apply rest_length in H. cbn [snd] in H. apply IH in E'; lia.
      - destruct (simple_escape e); [|discriminate].
        destruct (parse_chars s1) as [[t' r']|] eqn:E; [|discriminate].
        apply rest_length in H. cbn [snd] in H. apply IH in E; lia. }
    destruct (N_of_ascii c <? 32)%N; [discriminate|].
    destruct (parse_chars s) as [[t' r']|] eqn:E; [|discriminate].
    apply rest_length in H. cbn [snd] in H. apply IH in E; lia.
Qed.

Lemma span_digits_length (s : string) :
  String.length (snd (span_digits s)) <= String.length s /\
  (fst (span_digits s) <> "" -> String.length (snd (span_digits s)) < String.length s).
Proof.
  induction s as [|c s [IH1 IH2]]; cbn [span_digits]; [cbn; split; [lia|congruence]|].
  destruct (is_digit c).
  - destruct (span_digits s) as [d r]. cbn in *. split; [lia|intros _; lia].
  - cbn. split; [lia|congruence].
Qed.

Lemma take_int_consumes (s l r : string) :
  take_int s = Some (l, r) -> String.length r < String.length s.
Proof.
  unfold take_int. pose proof (span_digits_length s) as [_ P].
  destruct (span_digits s) as [int r0]. cbn [fst snd] in P.
  destruct int as [|d ds]; [discriminate|].
  destruct ((d =? "0")%char && negb (ds =? "")); [discriminate|].
  intros H. inversion H; subst. apply P. discriminate.
Qed.

Lemma take_frac_consumes (s l r : string) :
  take_frac s = Some (l, r) -> String.length r <= String.length s.
Proof.
  unfold take_frac. destruct s as [|c s]; [intros H; inversion H; subst; lia|].
  destruct (c =? ".")%char; [|intros H; inversion H; subst; lia].
  pose proof (span_digits_length s) as [P _].
  destruct (span_digits s) as [f r0]. cbn [fst snd] in P.
  destruct (f =? ""); [discriminate|].
  intros H. inversion H; subst. cbn [String.length]. lia.
Qed.

Lemma take_exp_consumes (s l r : string) :
  take_exp s = Some (l, r) -> String.length r <= String.length s.
Proof.
  unfold take_exp. destruct s as [|c s]; [intros H; inversion H; subst; lia|].
  destruct ((c =? "e")%char || (c =? "E")%char);
    [|intros H; inversion H; subst; lia].
  destruct s as [|p s'].
  - cbn. discriminate.
  - destruct ((p =? "+")%char || (p =? "-")%char).
    + pose proof (span_digits_length s') as [P _].
      destruct (span_digits s') as [e r0]. cbn [fst snd] in P.
      destruct (e =? ""); [discriminate|].
      intros H. inversion H; subst. cbn [String.length]. lia.
    + pose proof (span_digits_length (String p s')) as [P _].
      destruct (span_digits (String p s')) as [e r0]. cbn [fst snd] in P.
      destruct (e =? ""); [discriminate|].
      intros H. inversion H; subst. cbn [String.length] in *. lia.
Qed.

Lemma parse_number_consumes (s l r : string) :
  parse_number s = Some (l, r) -> String.length r < String.length s.
Proof.
  unfold parse_number.
  assert (Hs : String.length (snd (take_sign s)) <= String.length s).
  { unfold take_sign. destruct s as [|c s]; [cbn; lia|].
    destruct (c =? "-")%char; cbn; lia. }
  destruct (take_sign s) as [sign s1]. cbn [snd] in Hs.
  destruct (take_int s1) as [[int s2]|] eqn:E1; [|discriminate].
  destruct (take_frac s2) as [[f s3]|] eqn:E2; [|discriminate].
  destruct (take_exp s3) as [[e s4]|] eqn:E3; [|discriminate].
  intros H. inversion H; subst.
  apply take_int_consumes in E1. apply take_frac_consumes in E2.
  apply take_exp_consumes in E3. lia.
Qed.

Lemma drop_length (n : nat) (s : string) :
  String.length (drop n s) = String.length s - n.
Proof.
  revert s. induction n as [|n IH]; intros [|c s]; cbn; try lia. apply IH.
Qed.

Lemma expect_consumes (word : string) (v v' : JsVal) (s r : string) :
  word <> "" -> expect word v s = Some (v', r) ->
  String.length r < String.length s.
Proof.
  unfold expect. intros Hw. destruct (prefix word s) eqn:Hp; [|discriminate].
  intros H. inversion H; subst. rewrite drop_length.
  destruct word as [|a word]; [congruence|].
  destruct s as [|c s]; [discriminate|]. cbn [String.length]. lia.
Qed.

(** A parse that succeeds with some fuel succeeds, with the same result,
    with any fuel that is at least the number of characters it reads. *)
Lemma parse_fuel (f : nat) :
  (forall s v r, parse_value f s = Some (v, r) ->
     String.length r < String.length s /\
     forall g, String.length s - String.length r <= g ->
       parse_value g s = Some (v, r)) /\
  (forall acc s v r, parse_members f acc s = Some (v, r) ->
     String.length r < String.length s /\
     forall g, String.length s - String.length r <= g ->
       parse_members g acc s = Some (v, r)) /\
  (forall acc s v r, parse_elements f acc s = Some (v, r) ->
     String.length r < String.length s /\
     forall g, String.length s - String.length r <= g ->
       parse_elements g acc s = Some (v, r)).
Proof.
  induction f as [|f [IHv [IHm IHe]]]; [repeat split; discriminate|].
  split; [|split].
  - intros s v r H. cbn [parse_value] in H.
    pose proof (skip_ws_length s) as Hws.
    destruct (skip_ws s) as [|c rest] eqn:Es; [discriminate|].
    cbn [String.length] in Hws.
    assert (G : forall g, 1 <= g ->
              parse_value g s
              = match g with
                | O => None
                | S g' =>
                    if (c =? "{")%char then
                      match skip_ws rest with
                      | String c' rest' =>
                          if (c' =? "}")%char then Some (VObj [], rest')
                          else parse_members g' [] rest
                      | EmptyString => None
                      end
                    else if (c =? "[")%char then
                      match skip_ws rest with
                      | String c' rest' =>
                          if (c' =? "]")%char then Some (VArr [], rest')
                          else parse_elements g' [] rest
                      | EmptyString => None
                      end
                    else if (c =? dquote)%char then
                      match parse_chars rest with
                      | Some (t, r) => Some (VStr t, r)
                      | None => None
                      end
                    else if (c =? "t")%char then expect "true" (VBool true) (String c rest)
                    else if (c =? "f")%char then expect "false" (VBool false) (String c rest)
                    else if (c =? "n")%char then expect "null" VNull (String c rest)
                    else
                      match parse_number (String c rest) with
                      | Some (l, r) => Some (VNum l, r)
                      | None => None
                      end
                end).
    { intros [|g'] Hg; [lia|]. cbn [parse_value]. now rewrite Es. }
    destruct (c =? "{")%char.
    { pose proof (skip_ws_length rest) as Hws'.
      destruct (skip_ws rest) as [|c' rest'] eqn:Er; [discriminate|].
      cbn [String.length] in Hws'.
      destruct (c' =? "}")%char.
      - inversion H; subst. split; [lia|].
        intros g Hg. rewrite G by lia. destruct g; [lia|reflexivity].
      - apply IHm in H. destruct H as [Hl Hg']. split; [lia|].
        intros g Hg. rewrite G by lia. destruct g; [lia|].
        apply Hg'. lia. }
    destruct (c =? "[")%char.
    { pose proof (skip_ws_length rest) as Hws'.
      destruct (skip_ws rest) as [|c' rest'] eqn:Er; [discriminate|].
      cbn [String.length] in Hws'.
      destruct (c' =? "]")%char.
      - inversion H; subst. split; [lia|].
        intros g Hg. rewrite G by lia. destruct g; [lia|reflexivity].
      - apply IHe in H. destruct H as [Hl Hg']. split; [lia|].
        intros g Hg. rewrite G by lia. destruct g; [lia|].
        apply Hg'. lia. }
    destruct (c =? dquote)%char.
    { destruct (parse_chars rest) as [[t r']|] eqn:Ec; [|discriminate].
      inversion H; subst.
      apply (parse_chars_consumes _ _ _ _ (le_n _)) in Ec.
      split; [lia|]. intros g Hg. rewrite G by lia. destruct g; [lia|reflexivity]. }
    assert (Hlast : String.length r < S (String.length rest)).
    { destruct (c =? "t")%char;
        [apply expect_consumes in H; [exact H | discriminate]|].
      destruct (c =? "f")%char;
        [apply expect_consumes in H; [exact H | discriminate]|].
      destruct (c =? "n")%char;
        [apply expect_consumes in H; [exact H | discriminate]|].
      destruct (parse_number (String c rest)) as [[l r']|] eqn:En; [|discriminate].
      inversion H; subst. apply parse_number_consumes in En. exact En. }
    split; [lia|]. intros g Hg. rewrite G by lia. destruct g; [lia|exact H].
  - intros acc s v r H. cbn [parse_members] in H.
    pose proof (skip_ws_length s) as Hws.
    destruct (skip_ws s) as [|q rest] eqn:Es; [discriminate|].
    cbn [String.length] in Hws.
    destruct (q =? dquote)%char eqn:Eq; [|discriminate].
    destruct (parse_chars rest) as [[k r1]|] eqn:Ec; [|discriminate].
    pose proof (parse_chars_consumes _ _ _ _ (le_n _) Ec) as Hc.
    pose proof (skip_ws_length r1) as Hws1.
    destruct (skip_ws r1) as [|colon r2] eqn:E1; [discriminate|].
    cbn [String.length] in Hws1.
    destruct (colon =? ":")%char eqn:Ecol; [|discriminate].
    destruct (parse_value f r2) as [[v0 r3]|] eqn:Ev; [|discriminate].
    destruct (IHv _ _ _ Ev) as [Hv Gv].
    pose proof (skip_ws_length r3) as Hws3.
    destruct (skip_ws r3) as [|sep r4] eqn:E3; [discriminate|].
    cbn [String.length] in Hws3.
    destruct (sep =? ",")%char eqn:Esep.
    + destruct (IHm _ _ _ _ H) as [Hm Gm]. split; [lia|].
      intros g Hg. destruct g; [lia|]. cbn [parse_members].
      rewrite Es, Eq, Ec, E1, Ecol, (Gv g) by lia. rewrite E3, Esep.
      apply Gm. lia.
    + destruct (sep =? "}")%char eqn:Eend; [|discriminate].
      inversion H; subst. split; [lia|].
      intros g Hg. destruct g; [lia|]. cbn [parse_members].
      rewrite Es, Eq, Ec, E1, Ecol, (Gv g) by lia. now rewrite E3, Esep, Eend.
  - intros acc s v r H. cbn [parse_elements] in H.
    destruct (parse_value f s) as [[v0 r1]|] eqn:Ev; [|discriminate].
    destruct (IHv _ _ _ Ev) as [Hv Gv].
    pose proof (skip_ws_length r1) as Hws1.
    destruct (skip_ws r1) as [|sep r2] eqn:E1; [discriminate|].
    cbn [String.length] in Hws1.
    destruct (sep =? ",")%char eqn:Esep.
    + destruct (IHe _ _ _ _ H) as [He Ge]. split; [lia|].
      intros g Hg. destruct g; [lia|]. cbn [parse_elements].
      rewrite (Gv g) by lia. rewrite E1, Esep. apply Ge. lia.
    + destruct (sep =? "]")%char eqn:Eend; [|discriminate].
      inversion H; subst. split; [lia|].
      intros g Hg. destruct g; [lia|]. cbn [parse_elements].
      rewrite (Gv g) by lia. now rewrite E1, Esep, Eend.
Qed.

(** The fuel [JSON_parse] gives is enough: a text that parses with some
    fuel parses with it. *)
Lemma JSON_parse_enough_fuel (f : nat) (text : string) (v : JsVal) (r : string) :
  parse_value f text = Some (v, r) ->
  skip_ws r = "" ->
  JSON_parse text = Returned v.
Proof.
  intros H Hr. destruct (parse_fuel f) as [P _].
  destruct (P _ _ _ H) as [_ G].
  unfold JSON_parse. rewrite (G (S (String.length text))) by lia.
  now rewrite Hr.
Qed.

(** ** Token store *)

Lemma append_assoc (a b c : string) : (a ++ b) ++ c = a ++ (b ++ c).
Proof. induction a as [|x a IH]; cbn; [reflexivity | now rewrite IH]. Qed.

Lemma parse_chars_quote_char (c : ascii) (rest : string) :
  parse_chars (quote_char c ++ rest)
  = match parse_chars rest with
    | Some (t, r) => Some (String c t, r)
    | None => None
    end.
Proof.
  destruct c as [b0 b1 b2 b3 b4 b5 b6 b7].
  destruct b0, b1, b2, b3, b4, b5, b6, b7; reflexivity.
Qed.

Lemma parse_chars_quote (t rest : string) :
  parse_chars (quote_chars t ++ String dquote rest) = Some (t, rest).
Proof.
  induction t as [|c t IH].
  - reflexivity.
  - cbn [quote_chars]. rewrite append_assoc, parse_chars_quote_char, IH.
    reflexivity.
Qed.

Lemma stringify_token (t : string) :
  JSON_stringify (VObj [("appToken", VStr t)]) 2 = Some (token_document t).
Proof. reflexivity. Qed.


Lemma skip_ws_idem (s : string) : skip_ws (skip_ws s) = skip_ws s.
Proof.
  induction s as [|c s IH]; [reflexivity|].
  cbn [skip_ws]. destruct (is_ws c) eqn:E; [exact IH|].
  cbn [skip_ws]. now rewrite E.
Qed.

Lemma parse_members_skip (f : nat) (acc : list (string * JsVal)) (s : string) :
  parse_members f acc (skip_ws s) = parse_members f acc s.
Proof. destruct f; cbn [parse_members]; [reflexivity|]. now rewrite skip_ws_idem. Qed.

Lemma parse_value_skip (f : nat) (s : string) :
  parse_value f (skip_ws s) = parse_value f s.
Proof. destruct f; cbn [parse_value]; [reflexivity|]. now rewrite skip_ws_idem. Qed.

Lemma parse_value_string (f : nat) (s t r : string) :
  parse_chars s = Some (t, r) ->
  parse_value (S f) (String dquote s) = Some (VStr t, r).
Proof. intros H. cbn. now rewrite H. Qed.

Lemma parse_value_object (f : nat) (s r : string) (c : ascii) :
  skip_ws s = String c r -> (c =? "}")%char = false ->
  parse_value (S f) (String "{" s) = parse_members f [] s.
Proof. intros H Hc. cbn. now rewrite H, Hc. Qed.

Lemma parse_members_last (f : nat) (acc : list (string * JsVal))
    (s k r1 r2 r3 r4 : string) (v : JsVal) :
  parse_chars s = Some (k, r1) ->
  skip_ws r1 = String ":" r2 ->
  parse_value f r2 = Some (v, r3) ->
  skip_ws r3 = String "}" r4 ->
  parse_members (S f) acc (String dquote s) = Some (VObj (obj_set k v acc), r4).
Proof. intros H1 H2 H3 H4. cbn. now rewrite H1, H2, H3, H4. Qed.

Lemma parse_token_document (t : string) :
  JSON_parse (token_document t) = Returned (VObj [("appToken", VStr t)]).
Proof.
  assert (E : token_document t
              = String "{" (String newline ("  " ++ String dquote
                  ("appToken" ++ String dquote (": " ++ String dquote
                     (quote_chars t ++ String dquote (String newline "}"))))))).
  { unfold token_document, quote. cbn [append]. rewrite (append_assoc (quote_chars t)). reflexivity. }
  unfold JSON_parse. rewrite E.
  set (tail := quote_chars t ++ String dquote (String newline "}")).
  assert (L : exists n, String.length
                (String "{" (String newline ("  " ++ String dquote
                  ("appToken" ++ String dquote (": " ++ String dquote tail)))))
              = S (S n)) by (eexists; reflexivity).
  destruct L as [n ->].
  erewrite parse_value_object by reflexivity.
  rewrite <- parse_members_skip.
  change (skip_ws (String newline ("  " ++ String dquote
            ("appToken" ++ String dquote (": " ++ String dquote tail)))))
    with (String dquote ("appToken" ++ String dquote (": " ++ String dquote tail))).
  erewrite parse_members_last;
    [ | reflexivity | reflexivity
      | rewrite <- parse_value_skip; apply parse_value_string, parse_chars_quote
      | reflexivity ].
  reflexivity.
Qed.

Section TokenStore.
Variable R : Runtime.

Lemma fs_set_same (fs : FS) (p : string) (n : Node) : fs_set fs p n p = Some n.
Proof. unfold fs_set. now rewrite String.eqb_refl. Qed.

(** What a [saveToken] that returned has done: the document is on disk
    under the token path, its directory is there, the token is in memory
    and nothing was sent. *)
Lemma saveToken_returned (token : JsVal) (w : World) :
  fst (saveToken R token w) = Returned tt ->
  let w1 := snd (saveToken R token w) in
  files w1 (getTokenPath R)
  = Some (File (match JSON_stringify (VObj [("appToken", token)]) 2 with
                | Some text => text
                | None => "undefined"
                end)) /\
  files w1 (path_dirname R (getTokenPath R)) <> None /\
  appToken (api w1) = token /\
  requests w1 = requests w.
Proof.
  unfold saveToken, bind, existsSync, read, ret, set_appToken, update.
  set (path := getTokenPath R). set (dir := path_dirname R path).
  set (text := match JSON_stringify _ 2 with Some x => x | None => _ end).
  assert (W : forall w0 : World,
             requests w0 = requests w ->
             fst (match writeFileSync R path text w0 with
                  | (Returned _, w') =>
                      (Returned tt,
                       with_api w' {| baseUrl := baseUrl (api w');
                                      appToken := token;
                                      sessionToken := sessionToken (api w');
                                      challenge := challenge (api w');
                                      permissions := permissions (api w') |})
                  | (Thrown e, w') => (Thrown e, w')
                  end) = Returned tt ->
             let w1 := snd (match writeFileSync R path text w0 with
                  | (Returned _, w') =>
                      (Returned tt,
                       with_api w' {| baseUrl := baseUrl (api w');
                                      appToken := token;
                                      sessionToken := sessionToken (api w');
                                      challenge := challenge (api w');
                                      permissions := permissions (api w') |})
                  | (Thrown e, w') => (Thrown e, w')
                  end) in
             files w1 path = Some (File text) /\ files w1 dir <> None /\
             appToken (api w1) = token /\ requests w1 = requests w).
  { intros w0 Hreq. unfold writeFileSync. fold dir.
    destruct (files w0 path) as [[c|]|] eqn:Hp;
      destruct (files w0 dir) as [[c'|]|] eqn:Hd; cbn; try discriminate;
      intros _; (split; [apply fs_set_same|]);
      (split; [|split; [reflexivity | exact Hreq]]);
      unfold fs_set; destruct (dir =? path); congruence. }
  cbn. destruct (files w dir) as [nd|] eqn:Hdir; cbn.
  - apply W. reflexivity.
  - unfold mkdirSync_recursive.
    destruct (existsb _ _); cbn; [discriminate|].
    apply W. reflexivity.
Qed.

(** What [loadToken] reads back from a disk that holds a token document. *)
Lemma loadToken_reads (t : string) (w : World) :
  files w (getTokenPath R) = Some (File (token_document t)) ->
  fst (loadToken R w) = Returned tt /\
  appToken (api (snd (loadToken R w))) = VStr t.
Proof.
  intros H.
  unfold loadToken, bind, existsSync, read, try_catch, readFileSync, lift,
    set_appToken, update, ret.
  cbn. rewrite H. cbn. rewrite H. rewrite parse_token_document. cbn.
  split; reflexivity.
Qed.

(** C7. A token saved by [saveToken] (the call returned: the directory
    was there or could be made, and the file could be written) is the
    token a process started afterwards on the same token file holds once
    its constructor has run [loadToken]: the value comes back exactly,
    whatever characters it has.  After the save the directory of the token
    file exists. *)
Theorem token_round_trip (t : string) (w w2 : World) :
  fst (saveToken R (VStr t) w) = Returned tt ->
  files w2 (getTokenPath R)
  = files (snd (saveToken R (VStr t) w)) (getTokenPath R) ->
  files (snd (saveToken R (VStr t) w)) (path_dirname R (getTokenPath R)) <> None /\
  fst (loadToken R w2) = Returned tt /\
  appToken (api (snd (loadToken R w2))) = VStr t /\
  fst (constructor R w2) = Returned tt /\
  appToken (api (snd (constructor R w2))) = VStr t.
Proof.
  intros Hsave Hdisk.
  destruct (saveToken_returned (VStr t) w Hsave) as [Hfile [Hdir _]].
  rewrite stringify_token in Hfile. rewrite <- Hdisk in Hfile.
  split; [exact Hdir|].
  destruct (loadToken_reads t w2 Hfile) as [L1 L2].
  split; [exact L1|]. split; [exact L2|].
  unfold constructor, bind, update.
  set (w3 := with_api w2 _).
  assert (H3 : files w3 (getTokenPath R) = Some (File (token_document t)))
    by exact Hfile.
  destruct (loadToken_reads t w3 H3) as [C1 C2].
  cbn. split; [exact C1 | exact C2].
Qed.

End TokenStore.

(** C7 on a fresh deployment: the disk holds the root only, the token file
    is [/app/data/freebox_token.json], and the token has a quote, a
    backslash, a line break and a control character in it. *)
Lemma token_round_trip_witness :
  let R := posix_runtime default_config unreachable None in
  let t := "tok" ++ String dquote "en" ++ String backslash "n"
           ++ String newline "" ++ String "001"%char "é" in
  let saved := saveToken R (VStr t) (boot fresh_disk) in
  fst saved = Returned tt /\
  files (snd saved) "/app/data" = Some Dir /\
  appToken (api (snd (constructor R (boot (files (snd saved)))))) = VStr t.
Proof.
  intros R t saved.
  assert (Hsave : fst (saveToken R (VStr t) (boot fresh_disk)) = Returned tt)
    by (vm_compute; reflexivity).
  destruct (token_round_trip R t (boot fresh_disk)
              (boot (files (snd saved))) Hsave eq_refl)
    as [_ [_ [_ [_ Hboot]]]].
  split; [exact Hsave|]. split; [vm_compute; reflexivity | exact Hboot].
Defined.

(** ** Request facade and session manager *)

Section Facade.
Variable R : Runtime.

(** [request] always returns: the exchange is logged and its outcome
    normalized. *)
Lemma request_run (method endpoint : string) (body : JsVal)
    (authenticated : bool) (w : World) :
  let req := request_options w (cfg_apiVersion (config R)) method endpoint
               body authenticated in
  request R method endpoint body authenticated w
  = (Returned (result_of_exchange (fetch R (length (requests w)) req)),
     after_exchange R w req).
Proof.
  unfold request, request_options, buildUrl, bind, read, try_catch, do_fetch,
    lift, ret, after_exchange, result_of_exchange.
  cbn.
  destruct (fetch R _ _) as [e|r]; [reflexivity|].
  destruct (resp_body r) as [text|e];
    destruct (is_json_content_type (content_type r)); cbn;
    try reflexivity.
  destruct (response_json text); reflexivity.
Qed.

Lemma failed_exchange_result (o : FetchOutcome) :
  failed_exchange o = true -> is_failure (result_of_exchange o) = true.
Proof.
  unfold failed_exchange, result_of_exchange.
  destruct o as [e|r]; [reflexivity|].
  destruct (resp_body r) as [text|e]; [|reflexivity].
  destruct (is_json_content_type (content_type r)); [|reflexivity].
  destruct (response_json text) as [envelope|e]; [auto | reflexivity].
Qed.








Lemma login_without_token (w : World) :
  truthy (appToken (api w)) = false ->
  login R w
  = (Thrown (ErrorObj "Error" "No app_token available. Please register first."), w).
Proof.
  intros H. unfold login, bind, read. cbn. rewrite H. reflexivity.
Qed.


(** C3, amended. [login] without a usable token fails on the spot: it
    throws its "No app_token" [Error] and leaves the world, the request
    log included, as it was.  The facade has no such check: an
    authenticated [request] made without a session token is sent, with the
    content type header only, and its result is what the exchange gives. *)
Theorem login_fails_locally_request_is_sent_anyway (w : World) :
  (truthy (appToken (api w)) = false ->
   login R w
   = (Thrown (ErrorObj "Error" "No app_token available. Please register first."),
      w)) /\
  (truthy (sessionToken (api w)) = false ->
   forall method endpoint body,
     let req := request_options w (cfg_apiVersion (config R)) method endpoint
                  body true in
     req_headers req = [("Content-Type", VStr "application/json")] /\
     requests (snd (request R method endpoint body true w)) = (requests w ++ [req])%list /\
     fst (request R method endpoint body true w)
     = Returned (result_of_exchange (fetch R (length (requests w)) req))).
Proof.
  split.
  - apply login_without_token.
  - intros Hs method endpoint body req. rewrite request_run. cbn.
    rewrite Hs. repeat split.
Qed.

(** C6, amended. A response whose content type header is absent, empty or
    without [application/json], and whose body can be read, comes back as
    the [invalid_response] failure.  A response labelled JSON whose body
    does not parse comes back as the [request_failed] failure with the
    parser's message.  Neither makes [request] throw. *)
Theorem non_json_responses_are_failures (w : World) (r : Response) :
  (forall req, fetch R (length (requests w)) req = Responded r) ->
  forall method endpoint body authenticated,
    let out := fst (request R method endpoint body authenticated w) in
    (is_json_content_type (content_type r) = false ->
     forall text, resp_body r = Returned text ->
       out = Returned (failure "invalid_response"
                         ("API returned non-JSON response ("
                          ++ decimal (status r) ++ ")"))) /\
    (is_json_content_type (content_type r) = true ->
     forall text e, resp_body r = Returned text ->
       response_json text = Thrown e ->
       out = Returned (failure "request_failed" (error_message e))) /\
    (exists v, out = Returned v).
Proof.
  intros H method endpoint body authenticated out. subst out.
  rewrite request_run. cbn. rewrite H.
  split; [|split].
  - intros Hct text Hb. cbn. now rewrite Hb, Hct.
  - intros Hct text e Hb Hp. cbn. now rewrite Hb, Hct, Hp.
  - eauto.
Qed.

End Facade.



(** C3, as stated, fails: with no session token, an authenticated call
    through the facade reaches the network. *)
Lemma authenticated_request_without_session_is_sent :
  let R := posix_runtime default_config unreachable None in
  let w := boot fresh_disk in
  sessionToken (api w) = VNull /\
  requests w = [] /\
  requests (snd (request R "GET" API_ENDPOINTS.SYSTEM VUndefined true w))
  = [{| req_method := "GET";
        req_url := "https://mafreebox.freebox.fr/api/v4/system/";
        req_headers := [("Content-Type", VStr "application/json")];
        req_body := None |}].
Proof. repeat split. Qed.

(** The amended C3 on a process that has neither token nor session. *)
Lemma login_fails_locally_request_is_sent_anyway_witness :
  let R := posix_runtime default_config unreachable None in
  let w := boot fresh_disk in
  requests (snd (login R w)) = [] /\
  length (requests (snd (request R "GET" API_ENDPOINTS.SYSTEM VUndefined true w))) = 1.
Proof.
  intros R w.
  destruct (login_fails_locally_request_is_sent_anyway R w) as [Hlogin Hreq].
  split.
  - rewrite (Hlogin eq_refl). reflexivity.
  - destruct (Hreq eq_refl "GET" API_ENDPOINTS.SYSTEM VUndefined) as [_ [Hlog _]].
    rewrite Hlog. reflexivity.
Defined.

(** C6, as stated, fails: a body that is not JSON under a JSON content
    type comes back as [request_failed], not as [invalid_response]. *)
Lemma html_body_labelled_json_is_request_failed :
  let R := posix_runtime default_config
             (answering (Some "application/json") "<html>") None in
  let out := fst (request R "GET" API_ENDPOINTS.SYSTEM VUndefined true
                    (boot fresh_disk)) in
  out = Returned (failure "request_failed" "Unexpected token in JSON") /\
  out <> Returned (failure "invalid_response"
                     "API returned non-JSON response (200)").
Proof. split; [vm_compute; reflexivity | vm_compute; discriminate]. Qed.

(** The amended C6 on an HTML page served as [text/html], and on the same
    page served as JSON. *)
Lemma non_json_responses_are_failures_witness :
  let w := boot fresh_disk in
  let page := "<html>" in
  fst (request (posix_runtime default_config (answering (Some "text/html") page) None)
         "GET" API_ENDPOINTS.SYSTEM VUndefined true w)
  = Returned (failure "invalid_response" "API returned non-JSON response (200)") /\
  fst (request (posix_runtime default_config
                  (answering (Some "application/json") page) None)
         "GET" API_ENDPOINTS.SYSTEM VUndefined true w)
  = Returned (failure "request_failed" "Unexpected token in JSON").
Proof.
  intros w page. split.
  - destruct (non_json_responses_are_failures
                (posix_runtime default_config (answering (Some "text/html") page) None)
                w _ (fun _ => eq_refl) "GET" API_ENDPOINTS.SYSTEM VUndefined true)
      as [H _].
    exact (H eq_refl page eq_refl).
  - destruct (non_json_responses_are_failures
                (posix_runtime default_config
                   (answering (Some "application/json") page) None)
                w _ (fun _ => eq_refl) "GET" API_ENDPOINTS.SYSTEM VUndefined true)
      as [_ [H _]].
    exact (H eq_refl page _ eq_refl eq_refl).
Defined.

(** ** Capability detection *)

Section Detection.
Variable R : Runtime.

Lemma getApiVersion_run (w : World) :
  getApiVersion R w
  = (Returned (version_result (fetch R (length (requests w)) (version_request w))),
     after_exchange R w (version_request w)).
Proof.
  unfold getApiVersion, version_request, version_result, bind, read, try_catch,
    do_fetch, lift, ret, after_exchange.
  cbn.
  destruct (fetch R _ _) as [e|r]; [reflexivity|].
  destruct (resp_body r) as [text|e]; cbn; [|reflexivity].
  destruct (response_json text); reflexivity.
Qed.

Lemma live_detection_no_mock : live_detection R = true -> mockModel R = None.
Proof.
  unfold live_detection, mockModel.
  destruct (MOCK_FREEBOX_MODEL R) as [v|]; [|reflexivity].
  destruct (family_of_key (toLowerCase v)); [discriminate | reflexivity].
Qed.

Lemma defaults_are_unknown_row :
  buildCapabilities unknown "Freebox" flavor_light = unknown_defaults.
Proof. reflexivity. Qed.

Lemma buildDefaultCapabilities_run (w : World) :
  buildDefaultCapabilities w = (Returned unknown_defaults, cached w unknown_defaults).
Proof. reflexivity. Qed.

(** A detection without override: one version exchange, then either the
    record built from the reported name or the defaults. *)
Lemma performDetection_live (w : World) :
  mockModel R = None ->
  let o := fetch R (length (requests w)) (version_request w) in
  let w' := after_exchange R w (version_request w) in
  _performDetection R w
  = if failed_detection o then (Returned unknown_defaults, cached w' unknown_defaults)
    else
      match o with
      | Responded {| resp_body := Returned text |} =>
          match response_json text with
          | Returned data =>
              match reported_name data with
              | VStr s =>
                  let caps := buildCapabilities (detectModelFromName s) s
                                (if strict_eq_str (field data "box_flavor") "full"
                                 then flavor_full else flavor_light) in
                  (Returned caps, cached w' caps)
              | _ => (Returned unknown_defaults, cached w' unknown_defaults)
              end
          | Thrown _ => (Returned unknown_defaults, cached w' unknown_defaults)
          end
      | _ => (Returned unknown_defaults, cached w' unknown_defaults)
      end.
Proof.
  intros Hmock o w'. unfold _performDetection. rewrite Hmock.
  unfold try_catch, bind. rewrite getApiVersion_run.
  fold o. fold w'. unfold failed_detection, version_result.
  destruct o as [e|[st ct [text|e]]]; cbn; try reflexivity.
  destruct (response_json text) as [data|e]; cbn; [|reflexivity].
  destruct (truthy data) eqn:Ht; cbn; [|reflexivity].
  assert (G : forall k, get data k = Returned (field data k)).
  { intros k. unfold field. destruct data; cbn in Ht; try discriminate;
      reflexivity. }
  unfold lift. rewrite !G. unfold reported_name.
  destruct (js_or _ (VStr "Unknown")); reflexivity.
Qed.

(** [detectModel] on a cache that is empty or too old, with no detection
    in flight: the detection runs between the setting and the clearing of
    the in-flight mark. *)
Lemma detectModel_stale (w : World) :
  detectionPromise (detection w) = false ->
  cache_fresh w = false ->
  detectModel R w
  = match _performDetection R (in_flight w true) with
    | (Returned c, w') => (Returned (Detected c), in_flight w' false)
    | (Thrown e, w') => (Thrown e, in_flight w' false)
    end.
Proof.
  intros Hp Hc.
  unfold detectModel, Date_now, bind, read, try_finally, set_detectionPromise,
    update, ret, cache_fresh, in_flight in *.
  cbv beta iota zeta.
  destruct (capabilities (detection w)) as [c|] eqn:Ec; [rewrite Hc|];
    cbv beta iota; rewrite Hp; cbv beta iota; rewrite ?Ec;
    destruct (_performDetection R _) as [[c'|e] w']; reflexivity.
Qed.

(** C4. With no override in force, a detection whose version exchange
    fails (it is rejected, its body is unreadable, not JSON or empty, or
    the name it reports is not a string) returns the defaults of the
    [unknown] family, every field of which is set, caches them, and throws
    nothing; so do [detectModel] on a stale cache and
    [refreshCapabilities]. *)
Theorem failed_detection_returns_unknown_defaults (w : World) :
  live_detection R = true ->
  (forall req, failed_detection (fetch R (length (requests w)) req) = true) ->
  buildCapabilities unknown "Freebox" flavor_light = unknown_defaults /\
  fst (_performDetection R w) = Returned unknown_defaults /\
  capabilities (detection (snd (_performDetection R w))) = Some unknown_defaults /\
  (detectionPromise (detection w) = false -> cache_fresh w = false ->
   fst (detectModel R w) = Returned (Detected unknown_defaults)) /\
  fst (refreshCapabilities R w) = Returned (Detected unknown_defaults).
Proof.
  intros Hlive Hfail. apply live_detection_no_mock in Hlive.
  assert (P : forall w0, requests w0 = requests w ->
                _performDetection R w0
                = (Returned unknown_defaults,
                   cached (after_exchange R w0 (version_request w0)) unknown_defaults)).
  { intros w0 Hreq. rewrite (performDetection_live w0 Hlive). cbv zeta.
    rewrite Hreq. now rewrite Hfail. }
  split; [reflexivity|]. rewrite (P w eq_refl).
  split; [reflexivity|]. split; [reflexivity|]. split.
  - intros Hp Hc. rewrite (detectModel_stale w Hp Hc).
    rewrite P by reflexivity. reflexivity.
  - unfold refreshCapabilities, clearCache, bind, update.
    rewrite detectModel_stale by reflexivity.
    rewrite P by reflexivity. reflexivity.
Qed.

(** Whatever the appliance does, a detection returns capabilities. *)
Lemma performDetection_never_throws (w : World) :
  exists c, fst (_performDetection R w) = Returned c.
Proof.
  destruct (mockModel R) as [m|] eqn:Hm.
  - unfold _performDetection. rewrite Hm. cbn. eauto.
  - rewrite (performDetection_live w Hm). cbv zeta.
    destruct (failed_detection _); [cbn; eauto|].
    destruct (fetch R _ _) as [e|[st ct [text|e]]]; cbn; eauto.
    destruct (response_json text) as [data|e]; cbn; eauto.
    destruct (reported_name data); cbn; eauto.
Qed.

(** C5, amended. When [MOCK_FREEBOX_MODEL], lower-cased, names a family,
    detection sends nothing and returns the record [buildCapabilities]
    makes of that family's row and of its entry in [MOCK_MODEL_NAMES]:
    every static field is the row's, except [hasInternalStorage], which is
    recomputed from the entry's flavor; the display name is the entry's
    plain model name, with no mock mark in it. *)
Theorem mock_override_returns_built_record (w : World) (v : string)
    (m : FreeboxModel) :
  MOCK_FREEBOX_MODEL R = Some v ->
  family_of_key (toLowerCase v) = Some m ->
  let caps := buildCapabilities m (fst (MOCK_MODEL_NAMES m))
                (snd (MOCK_MODEL_NAMES m)) in
  fst (_performDetection R w) = Returned caps /\
  requests (snd (_performDetection R w)) = requests w /\
  capabilities (detection (snd (_performDetection R w))) = Some caps /\
  same_static_fields caps (MODEL_CAPABILITIES m) /\
  hasInternalStorage caps = BoxFlavor_eqb (snd (MOCK_MODEL_NAMES m)) flavor_full /\
  boxFlavor caps = snd (MOCK_MODEL_NAMES m) /\
  modelName caps = fst (MOCK_MODEL_NAMES m) /\
  includes (toLowerCase (modelName caps)) "mock" = false /\
  detectModelFromName (modelName caps) = m /\
  (detectionPromise (detection w) = false -> cache_fresh w = false ->
   fst (detectModel R w) = Returned (Detected caps) /\
   requests (snd (detectModel R w)) = requests w).
Proof.
  intros Henv Hkey caps.
  assert (Hm : mockModel R = Some m) by (unfold mockModel; now rewrite Henv).
  assert (P : forall w0, _performDetection R w0 = (Returned caps, cached w0 caps)).
  { intros w0. unfold _performDetection. rewrite Hm. reflexivity. }
  rewrite P. cbn [fst snd].
  split; [reflexivity|]. split; [reflexivity|]. split; [reflexivity|].
  split; [repeat split|]. split; [reflexivity|]. split; [reflexivity|].
  split; [reflexivity|].
  split; [destruct m; reflexivity|]. split; [destruct m; reflexivity|].
  intros Hp Hc. rewrite (detectModel_stale w Hp Hc), P.
  split; reflexivity.
Qed.

End Detection.

(** C4 with the appliance unreachable, and with an appliance that serves
    an HTML page. *)
Lemma failed_detection_returns_unknown_defaults_witness :
  let w := boot fresh_disk in
  fst (detectModel (posix_runtime default_config unreachable None) w)
  = Returned (Detected unknown_defaults) /\
  fst (detectModel (posix_runtime default_config
                      (answering (Some "text/html") "<html>") None) w)
  = Returned (Detected unknown_defaults).
Proof.
  intros w. split.
  - destruct (failed_detection_returns_unknown_defaults
                (posix_runtime default_config unreachable None) w
                eq_refl (fun _ => eq_refl)) as [_ [_ [_ [H _]]]].
    exact (H eq_refl eq_refl).
  - destruct (failed_detection_returns_unknown_defaults
                (posix_runtime default_config
                   (answering (Some "text/html") "<html>") None) w
                eq_refl (fun _ => eq_refl)) as [_ [_ [_ [H _]]]].
    exact (H eq_refl eq_refl).
Defined.

(** C5, as stated, fails: under the override [ultra] the record is not the
    static row verbatim ([hasInternalStorage] is true, the row says
    false), and its display name is the one a real Ultra reports: a live
    detection against such an appliance returns the very same record. *)
Lemma mock_ultra_differs_from_row_and_is_unmarked :
  let mocked := fst (_performDetection
                       (posix_runtime default_config unreachable (Some "ultra"))
                       (boot fresh_disk)) in
  let live := fst (_performDetection
                     (posix_runtime default_config
                        (cooperative "Freebox v9 (r1)" "full") None)
                     (boot fresh_disk)) in
  mocked = Returned (buildCapabilities ultra "Freebox v9 (r1)" flavor_full) /\
  hasInternalStorage (buildCapabilities ultra "Freebox v9 (r1)" flavor_full) = true /\
  base_hasInternalStorage (MODEL_CAPABILITIES ultra) = false /\
  live = mocked.
Proof. repeat split; vm_compute; reflexivity. Qed.

(** The amended C5 under the override [POP] (the value is lower-cased). *)
Lemma mock_override_returns_built_record_witness :
  let R := posix_runtime default_config unreachable (Some "POP") in
  let w := boot fresh_disk in
  fst (detectModel R w)
  = Returned (Detected (buildCapabilities pop "Freebox Pop" flavor_light)) /\
  requests (snd (detectModel R w)) = [].
Proof.
  intros R w.
  destruct (mock_override_returns_built_record R w "POP" pop eq_refl eq_refl)
    as [_ [_ [_ [_ [_ [_ [_ [_ [_ H]]]]]]]]].
  exact (H eq_refl eq_refl).
Defined.

(** ** Logout *)

Section Logout.
Variable R : Runtime.

Ltac run_in H :=
  cbv beta iota zeta
      delta [bind read lift ret new_Error throw update set_sessionToken
             set_challenge set_permissions] in H;
  repeat match type of H with
         | context [match ?x with _ => _ end] =>
             destruct x eqn:?; cbv beta iota zeta in H; try discriminate H
         | context [if ?x then _ else _] =>
             destruct x eqn:?; cbv beta iota zeta in H; try discriminate H
         end.

(** What a [login] that returned has stored. *)
Lemma login_returned (w w1 : World) (d : SessionData) :
  login R w = (Returned d, w1) ->
  sessionToken (api w1) = sd_sessionToken d /\
  challenge (api w1) = sd_challenge d /\
  permissions (api w1) = sd_permissions d.
Proof.
  intros H. unfold login in H. run_in H.
  inversion H; subst. cbn. repeat split.
Qed.

(** [logout] with a session token held: one exchange, whose outcome is
    ignored, then the token is dropped. *)
Lemma logout_run (w : World) :
  truthy (sessionToken (api w)) = true ->
  logout R w
  = (Returned tt,
     with_api (after_exchange R w
                 (request_options w (cfg_apiVersion (config R)) "POST"
                    API_ENDPOINTS.LOGIN_LOGOUT VUndefined true))
       {| baseUrl := baseUrl (api w); appToken := appToken (api w);
          sessionToken := VNull; challenge := challenge (api w);
          permissions := permissions (api w) |}).
Proof.
  intros H. unfold logout, bind, read. cbv beta iota. rewrite H.
  rewrite request_run. reflexivity.
Qed.

(** [logout] with no session token held does nothing. *)
Lemma logout_idle (w : World) :
  truthy (sessionToken (api w)) = false -> logout R w = (Returned tt, w).
Proof. intros H. unfold logout, bind, read. cbv beta iota. now rewrite H. Qed.

(** C10, amended. After a login that returned, [logout] returns,
    whatever the appliance answers, and leaves the application token, the
    challenge, the permissions and the base URL as the login left them:
    [getPermissions] still gives the permissions of that login.  Nothing
    outside the session manager is touched either: the files and the
    capability cache are as they were.  When the login stored a session
    token (a non-empty value), [logout] sends its one request and sets the
    token to [null], which is the whole of its effect, and [isLoggedIn]
    becomes false; when it stored none, [logout] does nothing at all. *)
Theorem logout_clears_only_the_session_token (w w1 : World) (d : SessionData) :
  login R w = (Returned d, w1) ->
  let w2 := snd (logout R w1) in
  fst (logout R w1) = Returned tt /\
  appToken (api w2) = appToken (api w1) /\
  challenge (api w2) = challenge (api w1) /\
  permissions (api w2) = permissions (api w1) /\
  baseUrl (api w2) = baseUrl (api w1) /\
  fst (getPermissions w2) = Returned (sd_permissions d) /\
  (truthy (sd_sessionToken d) = true ->
   sessionToken (api w2) = VNull /\ fst (isLoggedIn w2) = Returned false) /\
  (truthy (sd_sessionToken d) = false -> logout R w1 = (Returned tt, w1)) /\
  files w2 = files w1 /\
  detection w2 = detection w1 /\
  (truthy (sd_sessionToken d) = true ->
   let req := request_options w1 (cfg_apiVersion (config R)) "POST"
                API_ENDPOINTS.LOGIN_LOGOUT VUndefined true in
   w2 = {| api := {| baseUrl := baseUrl (api w1);
                     appToken := appToken (api w1);
                     sessionToken := VNull;
                     challenge := challenge (api w1);
                     permissions := permissions (api w1) |};
           detection := detection w1;
           files := files w1;
           requests := (requests w1 ++ [req])%list;
           clock := (clock w1 + elapsed R (length (requests w1)))%Z |}).
Proof.
  intros Hlogin w2.
  destruct (login_returned w w1 d Hlogin) as [Hs [_ Hp]].
  subst w2. rewrite <- Hs.
  destruct (truthy (sessionToken (api w1))) eqn:Htok.
  - rewrite (logout_run w1 Htok). cbn. rewrite Hp.
    repeat split; intros; congruence.
  - rewrite (logout_idle w1 Htok). cbn. rewrite Hp.
    repeat split; intros; congruence.
Qed.

End Logout.

(** C10, as stated, fails: when the appliance opens a session with an
    empty session token, the login returns, and the logout after it leaves
    the session token as it is, so that [isLoggedIn] still holds. *)
Lemma logout_after_tokenless_login_stays_logged_in :
  let R := posix_runtime default_config tokenless None in
  let logged_in := login R (with_token (boot fresh_disk) "tok") in
  let logged_out := snd (logout R (snd logged_in)) in
  fst logged_in = Returned {| sd_sessionToken := VStr "";
                              sd_challenge := VStr "def";
                              sd_permissions := VObj [("settings", VBool true)] |} /\
  sessionToken (api logged_out) = VStr "" /\
  fst (isLoggedIn logged_out) = Returned true.
Proof. repeat split; vm_compute; reflexivity. Qed.

(** The amended C10 against an appliance that follows the protocol: the
    token is stored, the login succeeds, and the logout keeps the
    permissions. *)
Lemma logout_clears_only_the_session_token_witness :
  let R := posix_runtime default_config (cooperative "Freebox Pop" "light") None in
  let logged_in := snd (login R (with_token (boot fresh_disk) "tok")) in
  let logged_out := snd (logout R logged_in) in
  sessionToken (api logged_in) = VStr "sess" /\
  sessionToken (api logged_out) = VNull /\
  fst (isLoggedIn logged_out) = Returned false /\
  fst (getPermissions logged_out) = Returned (VObj [("settings", VBool true)]) /\
  appToken (api logged_out) = VStr "tok" /\
  challenge (api logged_out) = VStr "def" /\
  files logged_out = files logged_in /\
  detection logged_out = detection logged_in.
Proof.
  intros R logged_in logged_out.
  assert (Hlogin : login R (with_token (boot fresh_disk) "tok")
                   = (Returned {| sd_sessionToken := VStr "sess";
                                  sd_challenge := VStr "def";
                                  sd_permissions := VObj [("settings", VBool true)] |},
                      logged_in)).
  { rewrite (surjective_pairing (login R (with_token (boot fresh_disk) "tok"))).
    apply f_equal2; [vm_compute; reflexivity | reflexivity]. }
  destruct (logout_clears_only_the_session_token R _ _ _ Hlogin)
    as [_ [H1 [H2 [_ [_ [H5 [H6 [_ [H9 [H10 _]]]]]]]]]].
  destruct (H6 eq_refl) as [H7 H8].
  split; [vm_compute; reflexivity|]. split; [exact H7|]. split; [exact H8|].
  split; [exact H5|].
  split; [exact (eq_trans H1 eq_refl)|].
  split; [exact (eq_trans H2 eq_refl)|].
  split; [exact H9 | exact H10].
Defined.

(** ** Further properties of the services *)

Section Further.
Variable R : Runtime.

(** X1. A fresh cache answers [detectModel]: the cached record is returned,
    nothing is sent and nothing changes. *)
Theorem detectModel_cache_hit (w : World) (c : FreeboxCapabilities) :
  capabilities (detection w) = Some c ->
  (clock w - lastDetectionTime (detection w) <? CACHE_DURATION)%Z = true ->
  detectModel R w = (Returned (Detected c), w).
Proof.
  intros Hc Hfresh.
  unfold detectModel, Date_now, bind, read, ret. cbv beta iota zeta.
  rewrite Hc, Hfresh. reflexivity.
Qed.

Lemma performDetection_live_effect (w : World) :
  mockModel R = None ->
  exists c,
    _performDetection R w
    = (Returned c, cached (after_exchange R w (version_request w)) c).
Proof.
  intros Hm. rewrite (performDetection_live R w Hm). cbv zeta.
  destruct (failed_detection _); [eauto|].
  destruct (fetch R _ _) as [e|[st ct [text|e]]]; eauto.
  destruct (response_json text) as [data|e]; eauto.
  destruct (reported_name data); eauto.
Qed.

(** X2. [refreshCapabilities] asks the appliance again however fresh the cache
    is: with no override in force, exactly one version request is sent,
    and what the detection returns replaces the cached record. *)
Theorem refreshCapabilities_always_detects (w : World) :
  live_detection R = true ->
  exists c,
    fst (refreshCapabilities R w) = Returned (Detected c) /\
    requests (snd (refreshCapabilities R w))
    = (requests w ++ [version_request w])%list /\
    capabilities (detection (snd (refreshCapabilities R w))) = Some c /\
    detectionPromise (detection (snd (refreshCapabilities R w))) = false.
Proof.
  intros Hlive. apply live_detection_no_mock in Hlive.
  unfold refreshCapabilities, clearCache, bind, update.
  rewrite detectModel_stale by reflexivity.
  match goal with
  | |- context [_performDetection R ?w0] =>
      destruct (performDetection_live_effect w0 Hlive) as [c Hc]; rewrite Hc
  end.
  exists c. repeat split.
Qed.



(** X4. [checkSession] never throws: whatever the exchange gives, it
    sends its one request and returns.  What it returns is [true], only
    when the response has a truthy [success] and a [result] whose
    [logged_in] is [true], or a value that is not truthy: [false], or the
    [success] field of the response itself when that is not truthy. *)
Theorem checkSession_never_throws (w : World) :
  let req := request_options w (cfg_apiVersion (config R)) "GET"
               API_ENDPOINTS.LOGIN VUndefined true in
  let response := result_of_exchange (fetch R (length (requests w)) req) in
  exists v,
    checkSession R w = (Returned v, after_exchange R w req) /\
    (v = VBool true \/ v = VBool false \/
     (v = field response "success" /\ truthy v = false)) /\
    (v = VBool true ->
     truthy (field response "success") = true /\
     field (field response "result") "logged_in" = VBool true).
Proof.
  intros req response.
  unfold checkSession, try_catch, bind. rewrite request_run. cbv zeta.
  fold req. fold response. unfold lift, ret, field.
  destruct (get response "success") as [s|e];
    [|eexists; split; [reflexivity|]; split; [auto|discriminate]].
  destruct (truthy s) eqn:Ts;
    [|exists s; split; [reflexivity|]; split; [auto|];
      intros ->; discriminate].
  destruct (get response "result") as [r|e];
    [|eexists; split; [reflexivity|]; split; [auto|discriminate]].
  destruct r; cbn;
    try (eexists; split; [reflexivity|]; split; [auto|discriminate]).
  destruct (match assoc "logged_in" fields with
            | Some x => x
            | None => VUndefined
            end) as [| |[|]| | | |];
    eexists; (split; [reflexivity|]); split; auto; try discriminate.
Qed.

(** X5. Endpoints under [/wifi] are addressed through the [v2] prefix, the
    others through the configured version. *)
Theorem wifi_endpoints_use_v2 (w : World) (method endpoint : string)
    (body : JsVal) (authenticated : bool) :
  exists req,
    requests (snd (request R method endpoint body authenticated w))
    = (requests w ++ [req])%list /\
    req_url req
    = baseUrl (api w) ++ "/api/"
      ++ (if startsWith endpoint "/wifi" then "v2" else cfg_apiVersion (config R))
      ++ endpoint.
Proof.
  rewrite request_run. cbn. eexists. split; reflexivity.
Qed.

(** X6. [loadToken] treats a missing token file, a directory in its place and
    a file that is not JSON alike: it returns, and the token in memory is
    untouched. *)
Theorem loadToken_tolerates_bad_files (w : World) :
  match files w (getTokenPath R) with
  | None | Some Dir => True
  | Some (File text) => exists e, JSON_parse text = Thrown e
  end ->
  loadToken R w = (Returned tt, w).
Proof.
  intros H.
  unfold loadToken, bind, existsSync, read, try_catch, readFileSync, lift, ret.
  cbv beta iota zeta.
  destruct (files w (getTokenPath R)) as [[text|]|] eqn:E; cbv beta iota zeta;
    rewrite ?E; try reflexivity.
  destruct H as [e He]. rewrite He. reflexivity.
Qed.

(** X7. A [register] that returned has put the token it returns on disk, in
    the token file, and in memory. *)
Theorem register_persists_the_token (w w1 : World) (reg : Registration) :
  register R w = (Returned reg, w1) ->
  files w1 (getTokenPath R)
  = Some (File (match JSON_stringify (VObj [("appToken", reg_appToken reg)]) 2 with
                | Some text => text
                | None => "undefined"
                end)) /\
  appToken (api w1) = reg_appToken reg.
Proof.
  intros H. unfold register, bind in H. rewrite request_run in H.
  cbv zeta in H.
  destruct (rejected_by_guard _ _) as [[bad|e] w0] eqn:Eg; [|discriminate].
  assert (w0 = after_exchange R w
                 (request_options w (cfg_apiVersion (config R)) "POST"
                    API_ENDPOINTS.LOGIN_AUTHORIZE
                    (VObj [("app_id", VStr (cfg_appId (config R)));
                           ("app_name", VStr (cfg_appName (config R)));
                           ("app_version", VStr (cfg_appVersion (config R)));
                           ("device_name", VStr (cfg_deviceName (config R)))])
                    false)) as ->.
  { unfold rejected_by_guard, bind, lift, ret in Eg.
    destruct (get _ "success"); [|congruence].
    destruct (negb (truthy a)); [congruence|].
    destruct (get _ "result"); congruence. }
  destruct bad.
  - unfold lift, new_Error, throw in H. destruct (get _ "msg"); discriminate.
  - unfold lift, ret in H.
    destruct (get _ "result") as [result|e]; [|discriminate].
    destruct (get result "app_token") as [tok|e]; [|discriminate].
    destruct (saveToken R tok _) as [[u|e] w2] eqn:Es; [|discriminate].
    destruct (get result "track_id") as [track|e]; [|discriminate].
    inversion H; subst. cbn [reg_appToken].
    assert (Hret : fst (saveToken R tok
                          (after_exchange R w
                             (request_options w (cfg_apiVersion (config R)) "POST"
                                API_ENDPOINTS.LOGIN_AUTHORIZE
                                (VObj [("app_id", VStr (cfg_appId (config R)));
                                       ("app_name", VStr (cfg_appName (config R)));
                                       ("app_version", VStr (cfg_appVersion (config R)));
                                       ("device_name", VStr (cfg_deviceName (config R)))])
                                false))) = Returned tt).
    { rewrite Es. now destruct u. }
    destruct (saveToken_returned R tok _ Hret) as [Hf [_ [Ha _]]].
    rewrite Es in Hf, Ha. cbn [snd] in Hf, Ha. split; assumption.
Qed.

End Further.

(** X1 after a first detection against a cooperative appliance: the
    second call sends nothing. *)
Lemma detectModel_cache_hit_witness :
  let R := posix_runtime default_config (cooperative "Freebox Pop" "light") None in
  let w1 := snd (detectModel R (boot fresh_disk)) in
  detectModel R w1
  = (Returned (Detected (buildCapabilities pop "Freebox Pop" flavor_light)), w1) /\
  length (requests w1) = 1.
Proof.
  intros R w1. split; [|reflexivity].
  apply (detectModel_cache_hit R w1); reflexivity.
Defined.

(** X2: a refresh right after a detection sends a second version request. *)
Lemma refreshCapabilities_always_detects_witness :
  let R := posix_runtime default_config (cooperative "Freebox Pop" "light") None in
  let w1 := snd (detectModel R (boot fresh_disk)) in
  cache_fresh w1 = true /\
  exists c,
    fst (refreshCapabilities R w1) = Returned (Detected c) /\
    requests (snd (refreshCapabilities R w1))
    = (requests w1 ++ [version_request w1])%list.
Proof.
  intros R w1. split; [reflexivity|].
  destruct (refreshCapabilities_always_detects R w1 eq_refl) as [c [H1 [H2 _]]].
  exists c. split; assumption.
Defined.


(** X6: a token file that holds an HTML page is ignored at start. *)
Lemma loadToken_tolerates_bad_files_witness :
  let R := posix_runtime default_config unreachable None in
  let w := boot (fs_set fresh_disk "/app/data/freebox_token.json" (File "<html>")) in
  loadToken R w = (Returned tt, w) /\ appToken (api w) = VNull.
Proof.
  intros R w. split; [|reflexivity].
  apply (loadToken_tolerates_bad_files R w). cbn. eexists. reflexivity.
Defined.

(** X7: a registration against a cooperative appliance on a fresh disk. *)
Lemma register_persists_the_token_witness :
  let R := posix_runtime default_config (cooperative "Freebox Pop" "light") None in
  let w1 := snd (register R (boot fresh_disk)) in
  files w1 "/app/data/freebox_token.json" = Some (File (token_document "tok")) /\
  appToken (api w1) = VStr "tok".
Proof.
  intros R w1.
  assert (Hreg : register R (boot fresh_disk)
                 = (Returned {| trackId := VNum "42"; reg_appToken := VStr "tok" |},
                    w1)).
  { rewrite (surjective_pairing (register R (boot fresh_disk))).
    apply f_equal2; [vm_compute; reflexivity | reflexivity]. }
  exact (register_persists_the_token R _ _ _ Hreg).
Defined.

(* ------------------------------------------------------------------ *)
(** ** Feature checks, file paths and route handlers *)

Section Features.
Variable R : Runtime.

Lemma performDetection_caches (w w' : World) (c : FreeboxCapabilities) :
  _performDetection R w = (Returned c, w') ->
  capabilities (detection w') = Some c.
Proof.
  intros H. destruct (mockModel R) as [m|] eqn:Hm.
  - unfold _performDetection in H. rewrite Hm in H. cbn in H.
    inversion H; subst. reflexivity.
  - destruct (performDetection_live_effect R w Hm) as [c0 E].
    rewrite E in H. inversion H; subst. reflexivity.
Qed.

Lemma performDetection_api (w : World) :
  api (snd (_performDetection R w)) = api w.
Proof.
  destruct (mockModel R) as [m|] eqn:Hm.
  - unfold _performDetection. rewrite Hm. reflexivity.
  - destruct (performDetection_live_effect R w Hm) as [c E].
    rewrite E. reflexivity.
Qed.

(** The three ways [detectModel] ends. *)
Lemma detectModel_cases (w : World) :
  (exists c, capabilities (detection w) = Some c /\
             detectModel R w = (Returned (Detected c), w)) \/
  (detectionPromise (detection w) = true /\
   detectModel R w = (Returned InFlight, w)) \/
  (detectionPromise (detection w) = false /\
   exists c w1,
     _performDetection R (in_flight w true) = (Returned c, w1) /\
     detectModel R w = (Returned (Detected c), in_flight w1 false)).
Proof.
  destruct (cache_fresh w) eqn:Hf.
  - left. unfold cache_fresh in Hf.
    destruct (capabilities (detection w)) as [c|] eqn:Ec; [|discriminate].
    exists c. split; [reflexivity|].
    unfold detectModel, Date_now, bind, read, ret. cbv beta iota zeta.
    rewrite Ec, Hf. reflexivity.
  - right. destruct (detectionPromise (detection w)) eqn:Hp.
    + left. split; [reflexivity|].
      unfold detectModel, Date_now, bind, read, ret, cache_fresh in *.
      cbv beta iota zeta.
      destruct (capabilities (detection w)) as [c|] eqn:Ec;
        [rewrite Hf|]; cbv beta iota; rewrite Hp; reflexivity.
    + right. split; [reflexivity|].
      rewrite (detectModel_stale R w Hp Hf).
      destruct (performDetection_never_throws R (in_flight w true)) as [c Hc].
      destruct (_performDetection R (in_flight w true)) as [o w1] eqn:E.
      cbn in Hc. subst o. exists c, w1. split; reflexivity.
Qed.

Lemma detectModel_returned (w w' : World) (c : FreeboxCapabilities) :
  detectModel R w = (Returned (Detected c), w') ->
  capabilities (detection w') = Some c.
Proof.
  intros H.
  destruct (detectModel_cases w) as [[c0 [Ec E]]|[[_ E]|[_ [c0 [w1 [Ep E]]]]]];
    rewrite E in H; inversion H; subst.
  - assumption.
  - apply performDetection_caches in Ep. exact Ep.
Qed.

(** X8. Whatever way [detectModel] comes to a record (a fresh cache, a
    mock, a live detection or the defaults after a failure), that record
    is the cached one afterwards, and every feature check of the service
    answers from it. *)
Theorem helpers_answer_from_the_detected_record
    (w w' : World) (c : FreeboxCapabilities) :
  detectModel R w = (Returned (Detected c), w') ->
  fst (getCapabilities w') = Returned (Some c) /\
  fst (modelDetection.supportsVm w')
  = Returned (negb (VmSupport_eqb (vmSupport c) vm_none)) /\
  fst (modelDetection.hasFullVmSupport w')
  = Returned (VmSupport_eqb (vmSupport c) vm_full) /\
  fst (modelDetection.getMaxVms w') = Returned (maxVms c) /\
  fst (modelDetection.supportsWifi6ghz w') = Returned (wifi6ghz c) /\
  fst (modelDetection.hasInternalStorage w') = Returned (hasInternalStorage c) /\
  fst (modelDetection.getModel w') = Returned (model c) /\
  fst (modelDetection.getModelName w') = Returned (modelName c) /\
  fst (modelDetection.getTemperatureFields w') = Returned (temperatureFields c).
Proof.
  intros H. apply detectModel_returned in H.
  unfold getCapabilities, modelDetection.supportsVm,
    modelDetection.hasFullVmSupport, modelDetection.getMaxVms,
    modelDetection.supportsWifi6ghz, modelDetection.hasInternalStorage,
    modelDetection.getModel, modelDetection.getModelName,
    modelDetection.getTemperatureFields, read.
  cbn. rewrite H. repeat split.
Qed.


Lemma buildCapabilities_built (m : FreeboxModel) (n : string) (f : BoxFlavor) :
  built (buildCapabilities m n f).
Proof. destruct m; reflexivity. Qed.

Lemma performDetection_built (w w' : World) (c : FreeboxCapabilities) :
  _performDetection R w = (Returned c, w') -> built c.
Proof.
  intros H. destruct (mockModel R) as [m|] eqn:Hm.
  - unfold _performDetection in H. rewrite Hm in H. cbn in H.
    inversion H; subst. apply buildCapabilities_built.
  - rewrite (performDetection_live R w Hm) in H. cbv zeta in H.
    assert (D : built unknown_defaults) by reflexivity.
    destruct (failed_detection _); [inversion H; subst; exact D|].
    destruct (fetch R _ _) as [e|[st ct [text|e]]];
      try (inversion H; subst; exact D).
    destruct (response_json text) as [data|e];
      try (inversion H; subst; exact D).
    destruct (reported_name data);
      try (inversion H; subst; exact D).
    inversion H; subst. apply buildCapabilities_built.
Qed.

Lemma detectModel_built (w w' : World) (c : FreeboxCapabilities) :
  cache_built w ->
  detectModel R w = (Returned (Detected c), w') ->
  built c.
Proof.
  intros Hb H.
  destruct (detectModel_cases w) as [[c0 [Ec E]]|[[_ E]|[_ [c0 [w1 [Ep E]]]]]];
    rewrite E in H; inversion H; subst.
  - unfold cache_built in Hb. now rewrite Ec in Hb.
  - now apply performDetection_built in Ep.
Qed.

Lemma built_vm (c : FreeboxCapabilities) :
  built c ->
  negb (VmSupport_eqb (vmSupport c) vm_none) = (0 <? maxVms c)%Z /\
  VmSupport_eqb (vmSupport c) vm_full = FreeboxModel_eqb (model c) ultra /\
  VmSupport_eqb (vmSupport c) vm_limited = FreeboxModel_eqb (model c) delta.
Proof.
  intros H. rewrite H. destruct (model c); repeat split.
Qed.

(** X9. Provided [MOCK_FREEBOX_MODEL] does not name an inherited key
    ([constructor], [__proto__]: the record cached for one of these has no
    field of the table, and is outside this model), once a detection has
    run on a cache that holds nothing but built records, [supportsVm]
    holds exactly when [getMaxVms] is positive and [hasFullVmSupport]
    exactly on an Ultra.  Before any detection (and after [clearCache])
    the two disagree: [supportsVm] answers true, since
    [undefined !== 'none'], while [getMaxVms] is 0 and [hasFullVmSupport]
    false. *)
Theorem supportsVm_agrees_with_getMaxVms_once_detected
    (w w' : World) (c : FreeboxCapabilities) :
  mock_key_is_own R = true ->
  cache_built w ->
  detectModel R w = (Returned (Detected c), w') ->
  cache_built w' /\
  (exists n, fst (modelDetection.getMaxVms w') = Returned n /\
             fst (modelDetection.supportsVm w') = Returned (0 <? n)%Z) /\
  fst (modelDetection.hasFullVmSupport w') = fst (modelDetection.isUltra w') /\
  (forall w0, capabilities (detection w0) = None ->
     fst (modelDetection.supportsVm w0) = Returned true /\
     fst (modelDetection.getMaxVms w0) = Returned 0%Z /\
     fst (modelDetection.hasFullVmSupport w0) = Returned false).
Proof.
  intros _ Hb H. pose proof (detectModel_built w w' c Hb H) as B.
  apply detectModel_returned in H.
  destruct (built_vm c B) as [V1 [V2 _]].
  unfold cache_built, modelDetection.getMaxVms, modelDetection.supportsVm,
    modelDetection.hasFullVmSupport, modelDetection.isUltra, read.
  cbn. rewrite H. split; [exact B|]. split.
  - exists (maxVms c). split; [reflexivity|]. now rewrite V1.
  - split; [now rewrite V2|]. intros w0 E. rewrite E. repeat split.
Qed.

End Features.

(** ** base64 *)

Lemma sextet_split (hi lo k : N) :
  (lo < k)%N -> ((hi * k + lo) / k = hi /\ (hi * k + lo) mod k = lo)%N.
Proof.
  intros H. split; symmetry.
  - apply (N.div_unique _ k hi lo); lia.
  - apply (N.mod_unique _ k hi lo); lia.
Qed.

Lemma byte_bound (a : ascii) : (N_of_ascii a < 256)%N.
Proof. apply N_ascii_bounded. Qed.

Lemma base64_char_value (n : N) :
  (n < 64)%N ->
  base64_value (base64_char n) = Some n /\
  (base64_char n =? "=")%char = false.
Proof.
  intros H.
  assert (C : forallb
                (fun k => match base64_value (base64_char (N.of_nat k)) with
                          | Some m => (m =? N.of_nat k)%N
                          | None => false
                          end
                          && negb (base64_char (N.of_nat k) =? "=")%char)
                (seq 0 64) = true) by (vm_compute; reflexivity).
  rewrite forallb_forall in C.
  specialize (C (N.to_nat n)). rewrite N2Nat.id in C.
  assert (I : In (N.to_nat n) (seq 0 64)) by (apply in_seq; lia).
  specialize (C I). apply andb_prop in C. destruct C as [C1 C2].
  destruct (base64_value (base64_char n)) as [m|]; [|discriminate].
  apply N.eqb_eq in C1. subst m. split; [reflexivity|].
  now apply negb_true_iff in C2.
Qed.

Lemma string_ind3 (P : string -> Prop) :
  P EmptyString ->
  (forall a, P (String a EmptyString)) ->
  (forall a b, P (String a (String b EmptyString))) ->
  (forall a b c rest, P rest -> P (String a (String b (String c rest)))) ->
  forall s, P s.
Proof.
  intros H0 H1 H2 H3.
  assert (G : forall s, P s /\ (forall a, P (String a s))
                        /\ (forall a b, P (String a (String b s)))).
  { induction s as [|c s [I0 [I1 I2]]].
    - repeat split; auto.
    - split; [apply I1|]. split; [intros a; apply I2|].
      intros a b. now apply H3. }
  intros s. apply G.
Qed.

Lemma base64_decode_encode (s : string) : base64_decode (base64 s) = Some s.
Proof.
  induction s as [|a|a b|a b c rest IH] using string_ind3.
  - reflexivity.
  - cbn [base64].
    pose proof (byte_bound a) as Ba.
    assert (B1 : (N_of_ascii a / 4 < 64)%N)
      by (apply N.Div0.div_lt_upper_bound; lia).
    assert (M1 : (N_of_ascii a mod 4 < 4)%N) by (apply N.mod_lt; lia).
    assert (B2 : (N_of_ascii a mod 4 * 16 < 64)%N) by lia.
    destruct (base64_char_value _ B1) as [V1 _].
    destruct (base64_char_value _ B2) as [V2 _].
    cbn [base64_decode]. rewrite V1, V2. cbn.
    replace (N_of_ascii a mod 4 * 16)%N with (N_of_ascii a mod 4 * 16 + 0)%N
      by lia.
    destruct (sextet_split (N_of_ascii a mod 4) 0 16 ltac:(lia)) as [D _].
    rewrite D.
    replace (N_of_ascii a / 4 * 4 + N_of_ascii a mod 4)%N with (N_of_ascii a)
      by (pose proof (N.div_mod' (N_of_ascii a) 4); lia).
    now rewrite ascii_N_embedding.
  - cbn [base64].
    pose proof (byte_bound a) as Ba. pose proof (byte_bound b) as Bb.
    assert (B1 : (N_of_ascii a / 4 < 64)%N)
      by (apply N.Div0.div_lt_upper_bound; lia).
    assert (M1 : (N_of_ascii a mod 4 < 4)%N) by (apply N.mod_lt; lia).
    assert (Q2 : (N_of_ascii b / 16 < 16)%N)
      by (apply N.Div0.div_lt_upper_bound; lia).
    assert (M2 : (N_of_ascii b mod 16 < 16)%N) by (apply N.mod_lt; lia).
    assert (B2 : (N_of_ascii a mod 4 * 16 + N_of_ascii b / 16 < 64)%N) by lia.
    assert (B3 : (N_of_ascii b mod 16 * 4 < 64)%N) by lia.
    destruct (base64_char_value _ B1) as [V1 _].
    destruct (base64_char_value _ B2) as [V2 _].
    destruct (base64_char_value _ B3) as [V3 _].
    cbn [base64_decode]. rewrite V1, V2, V3. cbn.
    destruct (sextet_split (N_of_ascii a mod 4) (N_of_ascii b / 16) 16 Q2)
      as [D2 R2].
    rewrite D2, R2.
    replace (N_of_ascii b mod 16 * 4)%N with (N_of_ascii b mod 16 * 4 + 0)%N
      by lia.
    destruct (sextet_split (N_of_ascii b mod 16) 0 4 ltac:(lia)) as [D3 _].
    rewrite D3.
    replace (N_of_ascii a / 4 * 4 + N_of_ascii a mod 4)%N with (N_of_ascii a)
      by (pose proof (N.div_mod' (N_of_ascii a) 4); lia).
    replace (N_of_ascii b / 16 * 16 + N_of_ascii b mod 16)%N with (N_of_ascii b)
      by (pose proof (N.div_mod' (N_of_ascii b) 16); lia).
    now rewrite !ascii_N_embedding.
  - cbn [base64].
    pose proof (byte_bound a) as Ba. pose proof (byte_bound b) as Bb.
    pose proof (byte_bound c) as Bc.
    assert (B1 : (N_of_ascii a / 4 < 64)%N)
      by (apply N.Div0.div_lt_upper_bound; lia).
    assert (M1 : (N_of_ascii a mod 4 < 4)%N) by (apply N.mod_lt; lia).
    assert (Q2 : (N_of_ascii b / 16 < 16)%N)
      by (apply N.Div0.div_lt_upper_bound; lia).
    assert (M2 : (N_of_ascii b mod 16 < 16)%N) by (apply N.mod_lt; lia).
    assert (Q3 : (N_of_ascii c / 64 < 4)%N)
      by (apply N.Div0.div_lt_upper_bound; lia).
    assert (B4 : (N_of_ascii c mod 64 < 64)%N) by (apply N.mod_lt; lia).
    assert (B2 : (N_of_ascii a mod 4 * 16 + N_of_ascii b / 16 < 64)%N) by lia.
    assert (B3 : (N_of_ascii b mod 16 * 4 + N_of_ascii c / 64 < 64)%N) by lia.
    destruct (base64_char_value _ B1) as [V1 _].
    destruct (base64_char_value _ B2) as [V2 _].
    destruct (base64_char_value _ B3) as [V3 _].
    destruct (base64_char_value _ B4) as [V4 _].
    cbn [base64_decode]. rewrite V1, V2, V3, V4, IH.
    destruct (sextet_split (N_of_ascii a mod 4) (N_of_ascii b / 16) 16 Q2)
      as [D2 R2].
    destruct (sextet_split (N_of_ascii b mod 16) (N_of_ascii c / 64) 4 Q3)
      as [D3 R3].
    cbv zeta. rewrite D2, R2, D3, R3.
    replace (N_of_ascii a / 4 * 4 + N_of_ascii a mod 4)%N with (N_of_ascii a)
      by (pose proof (N.div_mod' (N_of_ascii a) 4); lia).
    replace (N_of_ascii b / 16 * 16 + N_of_ascii b mod 16)%N with (N_of_ascii b)
      by (pose proof (N.div_mod' (N_of_ascii b) 16); lia).
    replace (N_of_ascii c / 64 * 64 + N_of_ascii c mod 64)%N with (N_of_ascii c)
      by (pose proof (N.div_mod' (N_of_ascii c) 64); lia).
    now rewrite !ascii_N_embedding.
Qed.

Lemma base64_injective (p q : string) : base64 p = base64 q -> p = q.
Proof.
  intros H. apply (f_equal base64_decode) in H.
  rewrite !base64_decode_encode in H. now inversion H.
Qed.

Lemma append_cancel (a x y : string) : a ++ x = a ++ y -> x = y.
Proof.
  induction a as [|c a IH]; cbn; intros H; [exact H|].
  inversion H. auto.
Qed.

(** *** Buffer.from on strings without flaw *)

Lemma byte_inj (a b : N) :
  (a < 256)%N -> (b < 256)%N -> ascii_of_N a = ascii_of_N b -> a = b.
Proof.
  intros Ha Hb H. apply (f_equal N_of_ascii) in H.
  now rewrite !N_ascii_embedding in H.
Qed.

Lemma string_cons_inj (c1 c2 : ascii) (s1 s2 : string) :
  String c1 s1 = String c2 s2 -> c1 = c2 /\ s1 = s2.
Proof. intros H. inversion H. auto. Qed.

Lemma utf8_prefix_free (a b : N) (r1 r2 : string) :
  (a < 1114112)%N -> (b < 1114112)%N ->
  utf8 a ++ r1 = utf8 b ++ r2 -> a = b /\ r1 = r2.
Proof.
  intros Ha Hb. unfold utf8.
  pose proof (N.div_mod' a 64) as A1. pose proof (N.mod_lt a 64 ltac:(discriminate)) as A2.
  pose proof (N.div_mod' (a / 64) 64) as A3.
  pose proof (N.mod_lt (a / 64) 64 ltac:(discriminate)) as A4.
  pose proof (N.div_mod' (a / 4096) 64) as A5.
  pose proof (N.mod_lt (a / 4096) 64 ltac:(discriminate)) as A6.
  pose proof (N.Div0.div_div a 64 64) as A7.
  pose proof (N.Div0.div_div a 4096 64) as A8.
  pose proof (N.div_mod' b 64) as B1. pose proof (N.mod_lt b 64 ltac:(discriminate)) as B2.
  pose proof (N.div_mod' (b / 64) 64) as B3.
  pose proof (N.mod_lt (b / 64) 64 ltac:(discriminate)) as B4.
  pose proof (N.div_mod' (b / 4096) 64) as B5.
  pose proof (N.mod_lt (b / 4096) 64 ltac:(discriminate)) as B6.
  pose proof (N.Div0.div_div b 64 64) as B7.
  pose proof (N.Div0.div_div b 4096 64) as B8.
  pose proof (N.le_0_l (a mod 64)).
  pose proof (N.le_0_l (a / 64)).
  pose proof (N.le_0_l ((a / 64) mod 64)).
  pose proof (N.le_0_l (a / 4096)).
  pose proof (N.le_0_l ((a / 4096) mod 64)).
  pose proof (N.le_0_l (a / 262144)).
  pose proof (N.le_0_l (a / 64 / 64)).
  pose proof (N.le_0_l (a / 4096 / 64)).
  pose proof (N.le_0_l (b mod 64)).
  pose proof (N.le_0_l (b / 64)).
  pose proof (N.le_0_l ((b / 64) mod 64)).
  pose proof (N.le_0_l (b / 4096)).
  pose proof (N.le_0_l ((b / 4096) mod 64)).
  pose proof (N.le_0_l (b / 262144)).
  pose proof (N.le_0_l (b / 64 / 64)).
  pose proof (N.le_0_l (b / 4096 / 64)).
  change (64 * 64)%N with 4096%N in *. change (4096 * 64)%N with 262144%N in *.
  destruct (N.ltb_spec a 128); destruct (N.ltb_spec b 128);
  [|destruct (N.ltb_spec b 2048); [|destruct (N.ltb_spec b 65536)]
   |destruct (N.ltb_spec a 2048); [|destruct (N.ltb_spec a 65536)]
   |destruct (N.ltb_spec a 2048); [|destruct (N.ltb_spec a 65536)];
    (destruct (N.ltb_spec b 2048); [|destruct (N.ltb_spec b 65536)])];
  cbn [append]; intros E;
  repeat (apply string_cons_inj in E; destruct E as [? E]);
  repeat match goal with
         | H : ascii_of_N _ = ascii_of_N _ |- _ =>
             apply byte_inj in H; [|lia|lia]
         end;
  try (split; [lia|assumption]); try lia.
Qed.

Lemma utf8_not_empty (cp : N) (s : string) : utf8 cp ++ s <> EmptyString.
Proof.
  unfold utf8.
  destruct (cp <? 128)%N; [discriminate|].
  destruct (cp <? 2048)%N; [discriminate|].
  destruct (cp <? 65536)%N; discriminate.
Qed.

Lemma surrogate_bounds (u : N) :
  (is_high_surrogate u = true -> (55296 <= u <= 56319)%N) /\
  (is_low_surrogate u = true -> (56320 <= u <= 57343)%N) /\
  (is_high_surrogate u = true -> is_low_surrogate u = false).
Proof.
  unfold is_high_surrogate, is_low_surrogate.
  destruct (N.leb_spec 55296 u); destruct (N.leb_spec u 56319);
    destruct (N.leb_spec 56320 u); destruct (N.leb_spec u 57343);
    cbn; repeat split; intros; try discriminate; try reflexivity; try lia.
Qed.

(** The first character of a string without flaw: one unit outside the
    surrogates, or a pair. *)
Lemma well_formed_head (p : list N) :
  well_formed p = true -> p <> [] ->
  exists cp p',
    (cp < 1114112)%N /\
    Buffer_from p = utf8 cp ++ Buffer_from p' /\
    well_formed p' = true /\
    (length p' < length p)%nat /\
    ((p = cp :: p' /\ (cp < 65536)%N) \/
     (exists u v, p = u :: v :: p' /\ (55296 <= u <= 56319)%N /\
                  (56320 <= v <= 57343)%N /\
                  cp = (65536 + (u - 55296) * 1024 + (v - 56320))%N)).
Proof.
  destruct p as [|u rest]; [intros _ N; now elim N|]. intros H _.
  cbn [well_formed Buffer_from] in *.
  apply andb_prop in H. destruct H as [Hu H]. apply N.ltb_lt in Hu.
  destruct (surrogate_bounds u) as [Bh [_ _]].
  destruct (is_high_surrogate u) eqn:Eh.
  - destruct rest as [|v rest']; [discriminate|].
    apply andb_prop in H. destruct H as [Hv H].
    destruct (surrogate_bounds v) as [_ [Bl _]].
    rewrite Hv. specialize (Bh eq_refl). specialize (Bl Hv).
    exists (65536 + (u - 55296) * 1024 + (v - 56320))%N, rest'.
    split; [lia|]. split; [reflexivity|]. split; [exact H|].
    split; [cbn; lia|]. right. exists u, v. repeat split; lia.
  - apply andb_prop in H. destruct H as [Hl H].
    apply negb_true_iff in Hl. rewrite Hl.
    exists u, rest. split; [lia|]. split; [reflexivity|].
    split; [exact H|]. split; [cbn; lia|]. left. split; [reflexivity|lia].
Qed.

Lemma Buffer_from_injective (p q : list N) :
  well_formed p = true -> well_formed q = true ->
  Buffer_from p = Buffer_from q -> p = q.
Proof.
  remember (length p) as n eqn:Hn.
  assert (Hle : (length p <= n)%nat) by lia. clear Hn.
  revert p q Hle. induction n as [|n IH]; intros p q Hle Hp Hq E.
  - destruct p; [|cbn in Hle; lia].
    destruct q as [|u q]; [reflexivity|].
    destruct (well_formed_head (u :: q) Hq ltac:(discriminate))
      as [cp [q' [_ [Eq _]]]].
    rewrite Eq in E. cbn in E. symmetry in E. now apply utf8_not_empty in E.
  - destruct p as [|u p].
    + destruct q as [|v q]; [reflexivity|].
      destruct (well_formed_head (v :: q) Hq ltac:(discriminate))
        as [cp [q' [_ [Eq _]]]].
      rewrite Eq in E. cbn in E. symmetry in E.
      now apply utf8_not_empty in E.
    + destruct q as [|v q].
      * destruct (well_formed_head (u :: p) Hp ltac:(discriminate))
          as [cp [p' [_ [Ep _]]]].
        rewrite Ep in E. cbn in E. now apply utf8_not_empty in E.
      * destruct (well_formed_head (u :: p) Hp ltac:(discriminate))
          as [cp [p' [Bp [Ep [Wp [Lp Sp]]]]]].
        destruct (well_formed_head (v :: q) Hq ltac:(discriminate))
          as [cq [q' [Bq [Eq [Wq [_ Sq]]]]]].
        rewrite Ep, Eq in E.
        apply utf8_prefix_free in E; [|assumption|assumption].
        destruct E as [Ec Er].
        assert (R : p' = q') by (apply IH; [cbn in Hle, Lp; lia|auto..]).
        subst q'.
        destruct Sp as [[Sp Cp]|[u1 [v1 [Sp [Hu1 [Hv1 Cp]]]]]];
          destruct Sq as [[Sq Cq]|[u2 [v2 [Sq [Hu2 [Hv2 Cq]]]]]];
          rewrite Sp, Sq.
        -- now subst cq.
        -- lia.
        -- lia.
        -- assert (u1 = u2 /\ v1 = v2) as [-> ->] by lia. reflexivity.
Qed.

Section Files.
Variable R : Runtime.

Lemma after_exchange_request (w : World) (r1 r2 : Request) :
  after_exchange R w r1 = after_exchange R w r2 -> r1 = r2.
Proof.
  intros H. apply (f_equal requests) in H. cbn in H.
  apply app_inv_head in H. now inversion H.
Qed.

(** X10. The file methods address a path by the base64 text of the bytes
    [Buffer.from] makes of it, from which these bytes can be read back:
    [listFiles] sends one GET to [/fs/ls/<base64>].  For paths that are
    strings without flaw (no surrogate outside a pair), two calls of
    [listFiles], [getFileInfo], [createDirectory] or [renameFile] that
    issue the same request were given the same path.  A surrogate outside
    a pair is not told apart: alone, it issues the request of U+FFFD. *)
Theorem file_requests_identify_their_path (w : World) (p q : list N) :
  well_formed p = true ->
  well_formed q = true ->
  base64_decode (base64 (Buffer_from p)) = Some (Buffer_from p) /\
  (exists req,
     requests (snd (listFiles R p w)) = (requests w ++ [req])%list /\
     req_method req = "GET" /\
     req_url req = baseUrl (api w) ++ "/api/" ++ cfg_apiVersion (config R)
                   ++ "/fs/ls/" ++ base64 (Buffer_from p)) /\
  (snd (listFiles R p w) = snd (listFiles R q w) -> p = q) /\
  (snd (getFileInfo R p w) = snd (getFileInfo R q w) -> p = q) /\
  (forall name,
     snd (createDirectory R p name w) = snd (createDirectory R q name w) ->
     p = q) /\
  (forall dst,
     snd (renameFile R p dst w) = snd (renameFile R q dst w) -> p = q) /\
  (forall u,
     is_high_surrogate u || is_low_surrogate u = true ->
     listFiles R [u] w = listFiles R [65533%N] w).
Proof.
  intros Wp Wq.
  split; [apply base64_decode_encode|].
  unfold listFiles, getFileInfo, createDirectory, renameFile.
  cbv zeta. split.
  - rewrite request_run. cbn. eexists. repeat split.
  - repeat split; intros; rewrite ?request_run in *; cbn [snd] in *;
      try match goal with
      | H : after_exchange _ _ _ = after_exchange _ _ _ |- _ =>
          apply after_exchange_request in H;
          apply (f_equal req_url) in H; cbn in H;
          repeat first [apply append_cancel in H | injection H as H];
          apply base64_injective in H;
          now apply Buffer_from_injective
      end.
    assert (E : Buffer_from [u] = Buffer_from [65533%N]).
    { destruct (surrogate_bounds u) as [_ [_ Hx]].
      cbn [Buffer_from].
      destruct (is_high_surrogate u); [reflexivity|].
      cbn [orb] in H. rewrite H. reflexivity. }
    now rewrite E.
Qed.

End Files.

Section VmProps.
Variable R : Runtime.

(** X11. [GET /api/vm] answers 403 without contacting the appliance when
    the cached record has no VM support; otherwise it relays what the
    facade made of the one exchange, failure results included.  The mock
    list of the [catch] branch is never served, whatever it holds: the
    facade does not throw. *)
Theorem vm_list_never_serves_the_mock_list (mockVms : list JsVal) (w : World) :
  vm_list R mockVms w
  = match vm_refused w with
    | Some c => (Returned (vm_not_supported c), w)
    | None =>
        let req := request_options w (cfg_apiVersion (config R)) "GET"
                     API_ENDPOINTS.VM VUndefined true in
        (Returned (Replied 200
                     (result_of_exchange (fetch R (length (requests w)) req))),
         after_exchange R w req)
    end.
Proof.
  unfold vm_list, vm_refused, getCapabilities, bind, read.
  cbv beta iota zeta.
  destruct (capabilities (detection w)) as [c|];
    [destruct (VmSupport_eqb (vmSupport c) vm_none); [reflexivity|]|];
    unfold try_catch, getVms, bind; rewrite request_run; reflexivity.
Qed.

Lemma vm_limit_check_run (c : FreeboxCapabilities) (w : World) :
  exists o,
    vm_limit_check R c w
    = (Returned o,
       after_exchange R w
         (request_options w (cfg_apiVersion (config R)) "GET"
            API_ENDPOINTS.VM VUndefined true)) /\
    (o = None \/ exists reply, o = Some (Replied 400 reply)).
Proof.
  unfold vm_limit_check, try_catch, getVms, bind. rewrite request_run.
  cbv zeta. set (v := result_of_exchange _). unfold lift, ret.
  destruct (get v "success") as [s|e]; [|eauto].
  destruct (truthy s); [|eauto].
  destruct (get v "result") as [r|e]; [|eauto].
  destruct r; eauto.
  destruct (maxVms c <=? _)%Z; eauto.
Qed.

Lemma vm_disk_check_run (w : World) :
  exists o,
    vm_disk_check R w
    = (Returned o,
       after_exchange R w
         (request_options w (cfg_apiVersion (config R)) "GET"
            API_ENDPOINTS.STORAGE_DISK VUndefined true)) /\
    (o = None \/ exists reply, o = Some (Replied 400 reply)).
Proof.
  unfold vm_disk_check, try_catch, getDisks, bind. rewrite request_run.
  cbv zeta. set (v := result_of_exchange _). unfold lift, ret.
  destruct (get v "success") as [s|e]; [|eauto].
  destruct (truthy s); cbn; [|eauto].
  destruct (get v "result") as [r|e]; [|eauto].
  destruct (negb (truthy r) || _); eauto.
Qed.


(** X12. [POST /api/vm] always replies, with 200, 400 or 403 and never
    with its 500 [vm_create_failed]: a refusal (not 200) is decided on GET
    requests alone, and a 200 carries what the facade made of the one
    POST, which is sent last with the body of the request; a creation the
    appliance rejects is relayed under status 200. *)
Theorem vm_create_never_answers_500 (w : World) (body : JsVal) :
  exists code reply sent,
    fst (vm_create R body w) = Returned (Replied code reply) /\
    requests (snd (vm_create R body w)) = (requests w ++ sent)%list /\
    (code = 200 \/ code = 400 \/ code = 403)%Z /\
    (code <> 200%Z -> Forall (fun req => req_method req = "GET") sent) /\
    (code = 200%Z ->
     exists checks post,
       sent = (checks ++ [post])%list /\
       Forall (fun req => req_method req = "GET") checks /\
       req_method post = "POST" /\
       req_body post = (if truthy body then JSON_stringify body 0 else None) /\
       reply = result_of_exchange
                 (fetch R (length (requests w) + length checks) post)).
Proof.
  unfold vm_create, getCapabilities, bind, read. cbv beta iota zeta.
  set (blocked := match capabilities (detection w) with
                  | Some c => if VmSupport_eqb (vmSupport c) vm_none
                              then Some c else None
                  | None => None
                  end).
  destruct blocked as [c|].
  { exists 403%Z, (refusal "vm_not_supported"
       ("Les machines virtuelles ne sont pas supportées sur " ++ modelName c)),
      []. cbn. rewrite app_nil_r. repeat split; auto; try discriminate. }
  set (limit := match capabilities (detection w) with
                | Some c => if VmSupport_eqb (vmSupport c) vm_limited
                            then vm_limit_check R c else ret None
                | None => ret None
                end).
  assert (L : exists o checks,
             limit w = (Returned o,
                        {| api := api w; detection := detection w;
                           files := files w;
                           requests := (requests w ++ checks)%list;
                           clock := clock (snd (limit w)) |}) /\
             Forall (fun req => req_method req = "GET") checks /\
             (o = None \/ exists reply, o = Some (Replied 400 reply))).
  { subst limit. destruct (capabilities (detection w)) as [c|].
    - destruct (VmSupport_eqb (vmSupport c) vm_limited).
      + destruct (vm_limit_check_run c w) as [o [E V]]. rewrite E.
        exists o, [request_options w (cfg_apiVersion (config R)) "GET"
                     API_ENDPOINTS.VM VUndefined true].
        repeat split; auto.
      + exists None, []. unfold ret. cbn. rewrite app_nil_r.
        destruct w; repeat split; auto.
    - exists None, []. unfold ret. cbn. rewrite app_nil_r.
      destruct w; repeat split; auto. }
  destruct L as [o [checks [E [G V]]]]. rewrite E. clear E.
  set (w1 := {| api := api w; detection := detection w; files := files w;
                requests := (requests w ++ checks)%list;
                clock := clock (snd (limit w)) |}).
  destruct V as [->|[reply ->]].
  2:{ exists 400%Z, reply, checks. cbn.
      repeat split; auto; try discriminate. }
  destruct (vm_disk_check_run w1) as [d [E V]]. rewrite E. clear E.
  set (disk := request_options w1 (cfg_apiVersion (config R)) "GET"
                 API_ENDPOINTS.STORAGE_DISK VUndefined true).
  destruct V as [->|[reply ->]].
  2:{ exists 400%Z, reply, (checks ++ [disk])%list. cbn.
      rewrite app_assoc. repeat split; auto; try discriminate.
      intros _. apply Forall_app. split; [exact G|]. repeat constructor. }
  unfold try_catch, createVm. rewrite request_run. cbv zeta.
  set (w2 := after_exchange R w1 disk).
  set (post := request_options w2 (cfg_apiVersion (config R)) "POST"
                 API_ENDPOINTS.VM body true).
  exists 200%Z, (result_of_exchange (fetch R (length (requests w2)) post)),
    ((checks ++ [disk]) ++ [post])%list.
  cbn. rewrite !app_assoc. repeat split; auto; try contradiction.
  intros _. exists (checks ++ [disk])%list, post.
  repeat split; auto.
  - apply Forall_app. split; [exact G|]. repeat constructor.
  - rewrite !length_app. cbn. now rewrite <- Nat.add_assoc.
Qed.


(** X13. On a family with limited VM support, a machine list that has
    reached [maxVms] makes [POST /api/vm] answer 400 [vm_limit_reached]
    after that one GET: neither the disk check nor the creation is
    sent. *)
Theorem vm_create_enforces_the_limit (w : World) (body : JsVal)
    (c : FreeboxCapabilities) (items : list JsVal) :
  let list := request_options w (cfg_apiVersion (config R)) "GET"
                API_ENDPOINTS.VM VUndefined true in
  let data := result_of_exchange (fetch R (length (requests w)) list) in
  capabilities (detection w) = Some c ->
  vmSupport c = vm_limited ->
  truthy (field data "success") = true ->
  field data "result" = VArr items ->
  (maxVms c <= Z.of_nat (length items))%Z ->
  vm_create R body w
  = (Returned
       (Replied 400
          (refusal "vm_limit_reached"
             ("Limite atteinte: " ++ modelName c ++ " supporte maximum "
              ++ decimal (maxVms c) ++ " VM(s). Vous en avez déjà "
              ++ decimal (Z.of_nat (length items)) ++ "."))),
     after_exchange R w list).
Proof.
  intros list data Hc Hv Hs Hr Hn.
  unfold vm_create, getCapabilities, bind, read. cbv beta iota zeta.
  rewrite Hc, Hv. cbn [VmSupport_eqb].
  unfold vm_limit_check, try_catch, getVms, bind. rewrite request_run.
  cbv zeta. fold list. fold data. unfold lift, ret.
  assert (G : forall k, get data k = Returned (field data k)).
  { intros k. unfold field. destruct data; try reflexivity;
      cbn in Hs; discriminate. }
  rewrite !G, Hs, Hr.
  apply Z.leb_le in Hn. rewrite Hn. reflexivity.
Qed.

(** X14. The machine count is looked at only when a record with limited
    support is cached.  Before any detection, and on a family with full
    support whatever its [maxVms], the first request of [POST /api/vm] is
    the disk check, and nothing but the creation follows it. *)
Theorem vm_create_checks_no_count_otherwise (w : World) (body : JsVal) :
  vm_refused w = None ->
  limit_checked w = false ->
  exists rest,
    requests (snd (vm_create R body w))
    = (requests w
       ++ request_options w (cfg_apiVersion (config R)) "GET"
            API_ENDPOINTS.STORAGE_DISK VUndefined true :: rest)%list /\
    Forall (fun req => req_method req = "POST") rest.
Proof.
  unfold vm_refused, limit_checked. intros Hr Hl.
  unfold vm_create, getCapabilities, bind, read. cbv beta iota zeta.
  rewrite Hr.
  assert (E : match capabilities (detection w) with
              | Some c => if VmSupport_eqb (vmSupport c) vm_limited
                          then vm_limit_check R c else ret None
              | None => ret None
              end w = (Returned None, w)).
  { destruct (capabilities (detection w)) as [c|]; [|reflexivity].
    now rewrite Hl. }
  rewrite E. clear E.
  destruct (vm_disk_check_run w) as [d [E V]]. rewrite E. clear E.
  destruct V as [->|[reply ->]].
  - unfold try_catch, createVm. rewrite request_run.
    unfold ret, after_exchange. cbn [snd requests].
    rewrite <- app_assoc. cbn [app].
    eexists. split; [reflexivity|]. repeat constructor.
  - unfold after_exchange. cbn [snd requests]. exists []. split; [reflexivity|constructor].
Qed.

End VmProps.

Section AuthProps.
Variable R : Runtime.
Variable createError : string -> Z -> string -> JsError.

(** X15. [POST /api/auth/login] with no usable application token fails
    before anything is sent and changes nothing.  [isRegistered] tests the
    token against [null] only, [login] tests its truthiness: with a token
    that is [null] the route throws its [NOT_REGISTERED] error, with one
    that is [undefined] or empty (a token file without [appToken])
    [isRegistered] answers true and the route throws the plain [Error] of
    [login]. *)
Theorem auth_login_refuses_without_a_token (w : World) :
  truthy (appToken (api w)) = false ->
  fst (isRegistered w) = Returned (negb (is_null (appToken (api w)))) /\
  auth_login R createError w
  = (Thrown (if is_null (appToken (api w))
             then createError "App not registered. Please register first."
                    401%Z "NOT_REGISTERED"
             else ErrorObj "Error"
                    "No app_token available. Please register first."),
     w).
Proof.
  intros H. split; [reflexivity|].
  unfold auth_login, isRegistered, bind, read. cbv beta iota zeta.
  destruct (is_null (appToken (api w))); cbn [negb]; [reflexivity|].
  unfold login, bind, read. cbv beta iota zeta. rewrite H. reflexivity.
Qed.

Lemma logout_effect (w : World) :
  exists w',
    logout R w = (Returned tt, w') /\
    detection w' = detection w /\
    truthy (sessionToken (api w')) = false /\
    appToken (api w') = appToken (api w) /\
    permissions (api w') = permissions (api w) /\
    baseUrl (api w') = baseUrl (api w) /\
    (length (requests w') <= S (length (requests w)))%nat.
Proof.
  destruct (truthy (sessionToken (api w))) eqn:E.
  - rewrite (logout_run R w E). eexists. split; [reflexivity|].
    cbn. rewrite length_app. cbn. repeat split; lia.
  - rewrite (logout_idle R w E). exists w. repeat split; auto.
Qed.

(** X17. [POST /api/auth/logout] always replies [Logged out], whatever
    the appliance does with the logout request (at most one is sent).
    Afterwards no session token is held, the application token and the
    permissions are untouched, and the capability cache is empty, so that
    the feature checks fall back: [supportsVm] answers true, [getMaxVms]
    0, [supportsWifi6ghz] false and [getModelName] [Freebox]. *)
Theorem auth_logout_forgets_the_model (w : World) :
  exists w',
    auth_logout R w
    = (Returned (Replied 200
                   (success_of (VObj [("message", VStr "Logged out")]))),
       w') /\
    capabilities (detection w') = None /\
    detectionPromise (detection w') = false /\
    truthy (sessionToken (api w')) = false /\
    appToken (api w') = appToken (api w) /\
    permissions (api w') = permissions (api w) /\
    (length (requests w') <= S (length (requests w)))%nat /\
    fst (modelDetection.supportsVm w') = Returned true /\
    fst (modelDetection.getMaxVms w') = Returned 0%Z /\
    fst (modelDetection.supportsWifi6ghz w') = Returned false /\
    fst (modelDetection.getModelName w') = Returned "Freebox".
Proof.
  destruct (logout_effect w) as [w1 [E [_ [Hs [Ha [Hp [_ Hn]]]]]]].
  unfold auth_logout, bind. rewrite E.
  eexists. split; [reflexivity|]. cbn. repeat split; assumption.
Qed.

Lemma checkSession_returns (w : World) :
  exists v,
    checkSession R w
    = (Returned v,
       after_exchange R w
         (request_options w (cfg_apiVersion (config R)) "GET"
            API_ENDPOINTS.LOGIN VUndefined true)).
Proof.
  unfold checkSession, try_catch, bind. rewrite request_run. cbv zeta.
  set (v := result_of_exchange _). unfold lift, ret.
  destruct (get v "success") as [s|e]; [|eauto].
  destruct (truthy s); [|eauto].
  destruct (get v "result") as [r|e]; [|eauto].
  destruct r; cbn; eauto.
Qed.

(** X18. When the session check gives a value that is not truthy,
    [GET /api/auth/check] replies with that value as [isLoggedIn]
    ([false], or the [success] field of the appliance's answer as it came)
    and with [capabilities: null], after that one exchange: no detection
    is run and the capability cache is left as it is. *)
Theorem auth_check_skips_detection_when_logged_out (w : World) (v : JsVal) :
  fst (checkSession R w) = Returned v ->
  truthy v = false ->
  auth_check R w
  = (Returned
       (Replied 200
          (success_of
             (VObj [("isRegistered", VBool (negb (is_null (appToken (api w)))));
                    ("isLoggedIn", v);
                    ("permissions", permissions (api w));
                    ("capabilities", VNull)]))),
     after_exchange R w
       (request_options w (cfg_apiVersion (config R)) "GET"
          API_ENDPOINTS.LOGIN VUndefined true)).
Proof.
  intros H Hv. destruct (checkSession_returns w) as [v' E].
  unfold auth_check, bind. rewrite E in *. cbn in H.
  injection H as ->. rewrite Hv. reflexivity.
Qed.

(** X19. [GET /api/auth/check] never throws; its reply can only be held
    back by a detection that another request has in flight. *)
Theorem auth_check_never_throws (w : World) :
  exists h,
    fst (auth_check R w) = Returned h /\
    (h = Pending -> detectionPromise (detection w) = true).
Proof.
  destruct (checkSession_returns w) as [v E].
  unfold auth_check, bind. rewrite E.
  destruct (truthy v).
  - match goal with
    | |- context [detectModel R ?w1] =>
        destruct (detectModel_cases R w1)
          as [[c [_ D]]|[[Hp D]|[_ [c [w2 [_ D]]]]]]; rewrite D
    end.
    + eexists. split; [reflexivity|discriminate].
    + exists Pending. split; [reflexivity|]. intros _. exact Hp.
    + eexists. split; [reflexivity|discriminate].
  - eexists. split; [reflexivity|discriminate].
Qed.

(** X20. The capability routes cannot fail.  [POST /refresh] always
    replies with a record, even while another detection is in flight
    ([clearCache] drops the in-flight mark), and caches it;
    [GET /api/capabilities] and [GET /features] never throw and, unless a
    detection is in flight, reply with the record that is cached
    afterwards and with the feature flags read off it. *)
Theorem capability_routes_always_answer (w : World) :
  (exists c,
     fst (capabilities_refresh R w)
     = Returned (Replied 200 (success_of (json_of_capabilities c))) /\
     capabilities (detection (snd (capabilities_refresh R w))) = Some c) /\
  (exists h,
     fst (capabilities_get R w) = Returned h /\
     (h = Pending -> detectionPromise (detection w) = true)) /\
  (detectionPromise (detection w) = false ->
   exists c,
     fst (capabilities_get R w)
     = Returned (Replied 200 (success_of (json_of_capabilities c))) /\
     fst (capabilities_features R w)
     = Returned (Replied 200 (success_of (features_of c))) /\
     capabilities (detection (snd (capabilities_get R w))) = Some c).
Proof.
  split; [|split].
  - unfold capabilities_refresh, refreshCapabilities, clearCache, bind, update.
    match goal with
    | |- context [detectModel R ?w0] =>
        destruct (detectModel_cases R w0)
          as [[c [Ec _]]|[[Hp _]|[_ [c [w2 [Ep E]]]]]];
          [discriminate Ec | discriminate Hp | rewrite E]
    end.
    exists c. split; [reflexivity|].
    apply performDetection_caches in Ep. exact Ep.
  - unfold capabilities_get, bind.
    destruct (detectModel_cases R w)
      as [[c [_ E]]|[[Hp E]|[_ [c [w2 [_ E]]]]]]; rewrite E.
    + eexists. split; [reflexivity|discriminate].
    + exists Pending. split; [reflexivity|]. now intros _.
    + eexists. split; [reflexivity|discriminate].
  - intros Hp. unfold capabilities_get, capabilities_features, bind.
    destruct (detectModel_cases R w)
      as [[c [Ec E]]|[[Hp' E]|[_ [c [w2 [Ep E]]]]]]; rewrite E.
    + exists c. repeat split. exact Ec.
    + congruence.
    + exists c. repeat split. apply performDetection_caches in Ep. exact Ep.
Qed.

End AuthProps.

Section LoginRoute.
Variable R : Runtime.
Variable createError : string -> Z -> string -> JsError.

Lemma request_frame (method endpoint : string) (body : JsVal) (auth : bool)
    (w : World) :
  detection (snd (request R method endpoint body auth w)) = detection w /\
  appToken (api (snd (request R method endpoint body auth w)))
  = appToken (api w).
Proof. rewrite request_run. split; reflexivity. Qed.

Lemma getChallenge_frame (w w1 : World) (o : Outcome JsVal) :
  getChallenge R w = (o, w1) ->
  detection w1 = detection w /\ appToken (api w1) = appToken (api w).
Proof.
  unfold getChallenge, bind. rewrite request_run. cbv zeta.
  set (v := result_of_exchange _).
  unfold rejected_by_guard, bind, lift, ret, new_Error, throw, set_challenge,
    update.
  destruct (get v "success") as [s|e]; [|intros H; inversion H; now subst].
  destruct (truthy s); cbn [negb].
  - destruct (get v "result") as [r|e]; [|intros H; inversion H; now subst].
    destruct (negb (truthy r)).
    + destruct (get v "msg"); intros H; inversion H; now subst.
    + destruct (get r "challenge"); intros H; inversion H; now subst.
  - destruct (get v "msg"); intros H; inversion H; now subst.
Qed.

Lemma login_frame (w w1 : World) (d : SessionData) :
  login R w = (Returned d, w1) ->
  detection w1 = detection w /\
  appToken (api w1) = appToken (api w) /\
  truthy (appToken (api w)) = true.
Proof.
  intros H. unfold login, bind, read in H. cbv beta iota zeta in H.
  destruct (truthy (appToken (api w))) eqn:Ht; cbn [negb] in H;
    [|discriminate].
  destruct (getChallenge R w) as [o w2] eqn:Ec.
  destruct (getChallenge_frame w w2 o Ec) as [Fd Fa].
  destruct o as [c|e]; [|discriminate].
  destruct (truthy (challenge (api w2))); cbn [negb] in H; [|discriminate].
  destruct (computePassword (challenge (api w2)) w2) as [op w3] eqn:Ep.
  assert (w3 = w2).
  { pose proof (computePassword_pure (challenge (api w2)) w2) as P.
    rewrite Ep in P. exact P. }
  subst w3. destruct op as [password|e]; [|discriminate].
  rewrite request_run in H. cbv zeta in H.
  set (v := result_of_exchange _) in H.
  unfold rejected_by_guard, bind, lift, ret, new_Error, throw,
    set_sessionToken, set_challenge, set_permissions, update in H.
  destruct (get v "success") as [s|e]; [|discriminate].
  destruct (truthy s); cbn [negb] in H.
  - destruct (get v "result") as [r|e]; [|discriminate].
    destruct (negb (truthy r)).
    + destruct (get v "msg"); [|discriminate].
      destruct (get v "error_code"); discriminate.
    + destruct (get r "session_token"); [|discriminate].
      destruct (get r "challenge"); [|discriminate].
      destruct (get r "permissions"); [|discriminate].
      inversion H; subst. cbn. repeat split; assumption.
  - destruct (get v "msg"); [|discriminate].
    destruct (get v "error_code"); discriminate.
Qed.

(** X16. Once [login] has returned, [POST /api/auth/login] replies with
    the permissions of that login and with capabilities: the detection
    that follows cannot make the route fail (an unreachable version
    endpoint gives the defaults), its record is cached, and the session is
    left as [login] stored it. *)
Theorem auth_login_always_reports_a_model (w w1 : World) (d : SessionData) :
  login R w = (Returned d, w1) ->
  detectionPromise (detection w) = false ->
  exists c w2,
    auth_login R createError w
    = (Returned
         (Replied 200
            (success_of
               (VObj [("permissions", sd_permissions d);
                      ("capabilities", json_of_capabilities c);
                      ("message", VStr "Login successful")]))),
       w2) /\
    capabilities (detection w2) = Some c /\
    fst (getPermissions w2) = Returned (sd_permissions d).
Proof.
  intros H Hp. destruct (login_frame w w1 d H) as [Fd [Fa Ht]].
  destruct (login_returned R w w1 d H) as [_ [_ Hperm]].
  unfold auth_login, isRegistered, bind, read. cbv beta iota zeta.
  assert (N : is_null (appToken (api w)) = false)
    by (destruct (appToken (api w)); try reflexivity; discriminate).
  rewrite N. cbn [negb]. rewrite H.
  destruct (detectModel_cases R w1)
    as [[c [Ec E]]|[[Hp' E]|[Hp' [c [w2 [Ep E]]]]]]; rewrite E.
  - exists c, w1. repeat split; [exact Ec|].
    unfold getPermissions, read. cbn. now rewrite Hperm.
  - rewrite Fd in Hp'. congruence.
  - exists c, (in_flight w2 false). split; [reflexivity|].
    pose proof (performDetection_caches R _ _ _ Ep) as C.
    split; [exact C|].
    unfold getPermissions, read. cbn.
    pose proof (performDetection_api R (in_flight w1 true)) as A.
    rewrite Ep in A. cbn in A. rewrite A. now rewrite Hperm.
Qed.

End LoginRoute.

Section WifiProps.
Variable R : Runtime.

(** X21. [POST /api/wifi/wps/start] contacts the appliance only when the
    stored permissions grant [settings]: otherwise nothing is sent.  With
    the permission, exactly one POST goes to [/api/v2/wifi/wps/sessions/].
    Every reply has status 200, and a reply that reports a failure carries
    [success: false] and an [error] whose [code] and [message] are both
    set. *)
Theorem wps_start_needs_the_settings_permission (w : World) :
  requests (snd (wps_start R w))
  = (if truthy (field (permissions (api w)) "settings")
     then requests w
          ++ [request_options w (cfg_apiVersion (config R)) "POST"
                "/wifi/wps/sessions/" (VObj [("bss_id", VNum "0")]) true]
     else requests w)%list /\
  (forall code body,
     fst (wps_start R w) = Returned (Replied code body) ->
     code = 200%Z /\
     (truthy (field body "success") = false ->
      field body "success" = VBool false /\
      truthy (field (field body "error") "code") = true /\
      truthy (field (field body "error") "message") = true)).
Proof.
  unfold wps_start, getPermissions, bind, read, lift. cbv beta iota zeta.
  unfold field at 1.
  destruct (get (permissions (api w)) "settings") as [settings|e];
    [|split; [reflexivity|discriminate]].
  destruct (truthy settings); cbn [negb];
    [|split; [reflexivity|]; intros code body H; inversion H; subst;
      repeat split].
  unfold startWps. rewrite request_run. cbv zeta.
  set (v := result_of_exchange _).
  split.
  - destruct (get v "success") as [s|e]; [|reflexivity].
    destruct (truthy s); cbn [negb]; [reflexivity|].
    destruct (get v "msg") as [m|e]; [|reflexivity].
    destruct (get v "error_code") as [c|e]; [|reflexivity].
    destruct (js_includes (js_or (js_or m c) (VStr "")) "insuff")
      as [b1|e]; [|reflexivity].
    destruct (b1 || _); [reflexivity|].
    destruct (js_includes (js_or (js_or m c) (VStr "")) "disabled")
      as [b2|e]; [|reflexivity].
    destruct (b2 || _); reflexivity.
  - intros code body.
    destruct (get v "success") as [s|e] eqn:Es; [|discriminate].
    destruct (truthy s) eqn:Ts; cbn [negb].
    + intros H. inversion H; subst. split; [reflexivity|].
      intros F. unfold field in F. rewrite Es, Ts in F. discriminate.
    + destruct (get v "msg") as [m|e]; [|discriminate].
      destruct (get v "error_code") as [c|e]; [|discriminate].
      destruct (js_includes (js_or (js_or m c) (VStr "")) "insuff")
        as [b1|e]; [|discriminate].
      destruct (b1 || _);
        [intros H; inversion H; subst; repeat split|].
      destruct (js_includes (js_or (js_or m c) (VStr "")) "disabled")
        as [b2|e]; [|discriminate].
      destruct (b2 || _);
        intros H; inversion H; subst; repeat split.
      * cbn. unfold js_or. destruct (truthy c) eqn:Tc; [exact Tc|reflexivity].
      * cbn. unfold js_or. destruct (truthy m) eqn:Tm; [exact Tm|reflexivity].
Qed.


(** X22. [GET /api/wifi/full] sends four GET requests whatever the answers
    are: the WiFi configuration, the access points and the BSS list under
    the [v2] prefix, and the hosts of the [pub] interface under the
    configured version, at [/lan/browser/pub/].  Its reply is the summary
    of the four results, made for the 6 GHz support of the cached record
    (none when nothing is cached). *)
Theorem wifi_full_asks_four_questions (w : World) :
  let ask endpoint := request_options w (cfg_apiVersion (config R)) "GET"
                        endpoint VUndefined true in
  let asked := [ask "/wifi/config/"; ask "/wifi/ap/"; ask "/wifi/bss/";
                ask "/lan/browser/pub/"] in
  let answer i := Returned (result_of_exchange
                              (fetch R (length (requests w) + i)
                                 (nth i asked (ask "")))) in
  requests (snd (wifi_full R w)) = (requests w ++ asked)%list /\
  map req_url asked
  = map (fun path => baseUrl (api w) ++ "/api/" ++ path)
      ["v2/wifi/config/"; "v2/wifi/ap/"; "v2/wifi/bss/";
       cfg_apiVersion (config R) ++ "/lan/browser/pub/"] /\
  fst (wifi_full R w)
  = match wifi_summary (wifi6ghz_known w)
            (answer 0%nat) (answer 1%nat) (answer 2%nat) (answer 3%nat) with
    | Returned body => Returned (Replied 200 body)
    | Thrown e => Thrown e
    end.
Proof.
  intros ask asked answer.
  unfold wifi_full, settle, getWifiConfig, getWifiAps, getWifiBss,
    getLanHosts, bind.
  rewrite request_run. cbv beta iota zeta.
  rewrite request_run. cbv beta iota zeta.
  rewrite request_run. cbv beta iota zeta.
  rewrite request_run. cbv beta iota zeta.
  unfold modelDetection.supportsWifi6ghz, read, lift.
  subst asked answer ask. cbn [nth].
  unfold after_exchange. cbn [requests api detection length].
  rewrite !length_app. cbn [length].
  rewrite <- !app_assoc. cbn [app].
  replace (length (requests w) + 1 + 1 + 1)%nat
    with (length (requests w) + 3)%nat by lia.
  replace (length (requests w) + 1 + 1)%nat
    with (length (requests w) + 2)%nat by lia.
  replace (length (requests w) + 0)%nat with (length (requests w)) by lia.
  unfold wifi6ghz_known.
  split; [|split].
  - destruct (wifi_summary _ _ _ _ _); reflexivity.
  - reflexivity.
  - destruct (wifi_summary _ _ _ _ _); reflexivity.
Qed.

End WifiProps.

Lemma not_6ghz_spec (x : JsVal) (b : bool) :
  not_6ghz x = Returned b -> b = negb (band_is_6ghz x).
Proof.
  unfold not_6ghz, band_is_6ghz, field, and_then.
  destruct (get x "band") as [band|e]; [|discriminate].
  destruct band; cbn; intros H; inversion H; reflexivity.
Qed.

Lemma js_filter_not_6ghz (items kept : list JsVal) :
  js_filter not_6ghz items = Returned kept ->
  kept = filter (fun x => negb (band_is_6ghz x)) items.
Proof.
  revert kept. induction items as [|x rest IH]; cbn; intros kept H.
  - now inversion H.
  - destruct (not_6ghz x) as [b|e] eqn:E; [|discriminate].
    apply not_6ghz_spec in E.
    destruct (js_filter not_6ghz rest) as [k|e]; [|discriminate].
    inversion H; subst. rewrite <- (IH k eq_refl).
    destruct (band_is_6ghz x); reflexivity.
Qed.

(** X23. Without 6 GHz support, when the access point list and the BSS
    list are both arrays, the summary keeps exactly the entries whose band
    does not mention [6g], in their order, and reports no 6 GHz
    device. *)
Theorem wifi_summary_hides_6ghz
    (config aps bss lanDevices : Outcome JsVal)
    (apItems bssItems : list JsVal) (body : JsVal) :
  fulfilled_result aps (VArr []) = Returned (VArr apItems) ->
  fulfilled_result bss (VArr []) = Returned (VArr bssItems) ->
  wifi_summary false config aps bss lanDevices = Returned body ->
  field (field body "result") "aps"
  = VArr (filter (fun x => negb (band_is_6ghz x)) apItems) /\
  field (field body "result") "bss"
  = VArr (filter (fun x => negb (band_is_6ghz x)) bssItems) /\
  field (field (field body "result") "devicesByBand") "6g" = VNum "0".
Proof.
  intros Ha Hb H. unfold wifi_summary in H. rewrite Ha, Hb in H.
  unfold and_then in H.
  destruct (fulfilled_result config VNull) as [configData|e]; [|discriminate].
  match type of H with
  | match ?counted with _ => _ end = _ =>
      destruct counted as [[n bands]|e]; [|discriminate]
  end.
  destruct (js_filter not_6ghz apItems) as [fa|e] eqn:Fa; [|discriminate].
  destruct (js_filter not_6ghz bssItems) as [fb|e] eqn:Fb; [|discriminate].
  apply js_filter_not_6ghz in Fa. apply js_filter_not_6ghz in Fb.
  inversion H; subst. repeat split.
Qed.

Section UrlProps.
Variable R : Runtime.

(** X24. [setBaseUrl] changes the host and nothing else: it returns, the
    base URL is the new one (which [getBaseUrl] gives), and the
    application token, the session token, the challenge, the permissions,
    the capability cache, the files, the request log and the clock are
    what they were.  The next request and the next version query then go
    to the new URL, the request with the same headers as before, session
    token included. *)
Theorem setBaseUrl_moves_the_session_to_the_new_host
    (w : World) (url method endpoint : string) (body : JsVal) :
  let w1 := snd (setBaseUrl url w) in
  fst (getBaseUrl w1) = Returned url /\
  appToken (api w1) = appToken (api w) /\
  sessionToken (api w1) = sessionToken (api w) /\
  (exists req,
     requests (snd (request R method endpoint body true w1))
     = (requests w ++ [req])%list /\
     req_url req
     = url ++ "/api/"
       ++ (if startsWith endpoint "/wifi" then "v2"
           else cfg_apiVersion (config R))
       ++ endpoint /\
     req_headers req
     = req_headers (request_options w (cfg_apiVersion (config R)) method
                      endpoint body true)) /\
  requests (snd (getApiVersion R w1))
  = (requests w
     ++ [{| req_method := "GET"; req_url := url ++ "/api_version";
            req_headers := []; req_body := None |}])%list /\
  setBaseUrl url w
  = (Returned tt,
     {| api := {| baseUrl := url;
                  appToken := appToken (api w);
                  sessionToken := sessionToken (api w);
                  challenge := challenge (api w);
                  permissions := permissions (api w) |};
        detection := detection w;
        files := files w;
        requests := requests w;
        clock := clock w |}).
Proof.
  intros w1. subst w1. unfold setBaseUrl, update. cbn [snd fst].
  repeat split.
  - rewrite request_run. cbn. eexists. repeat split.
  - rewrite getApiVersion_run. reflexivity.
Qed.

(** X25. Optional arguments that are absent do not reach the appliance:
    [getRrdData] with a start date that is not truthy (0 included) and no
    end date or fields sends a body with [db] alone, [wakeOnLan] without
    password one with [mac] alone, [addDownload] without directory one
    with [download_url] alone. *)
Theorem absent_optional_arguments_are_not_sent
    (w : World) (db interfaceName mac downloadUrl : string)
    (dateStart : JsVal) :
  truthy dateStart = false ->
  (exists req,
     requests (snd (getRrdData R db dateStart VUndefined VUndefined w))
     = (requests w ++ [req])%list /\
     req_body req = Some ("{" ++ quote "db" ++ ":" ++ quote db ++ "}")) /\
  (exists req,
     requests (snd (wakeOnLan R interfaceName mac VUndefined w))
     = (requests w ++ [req])%list /\
     req_url req = baseUrl (api w) ++ "/api/" ++ cfg_apiVersion (config R)
                   ++ "/lan/wol/" ++ interfaceName ++ "/" /\
     req_body req = Some ("{" ++ quote "mac" ++ ":" ++ quote mac ++ "}")) /\
  (exists req,
     requests (snd (addDownload R downloadUrl VUndefined w))
     = (requests w ++ [req])%list /\
     req_body req
     = Some ("{" ++ quote "download_url" ++ ":" ++ quote downloadUrl ++ "}")).
Proof.
  intros H. unfold getRrdData, wakeOnLan, addDownload. rewrite H.
  cbv zeta. cbn [truthy]. rewrite !request_run. cbv zeta.
  unfold after_exchange. cbn [snd requests].
  repeat split; eexists; (split; [reflexivity|]); repeat split.
Qed.

End UrlProps.


(** ** The dashboard's helpers *)

(** X26. The band label the dashboard shows and the band under which the
    server counts a device agree: a band is labelled [6GHz] exactly when
    the server counts it (and filters it) as 6 GHz, [5GHz] exactly when
    the server counts it as 5 GHz, and every band the server counts as
    2.4 GHz is labelled [2.4GHz]. *)
Theorem band_labels_agree_with_the_server_counts (band : string)
    (n : BandCount) :
  let counted := count_band (toLowerCase band) n in
  (formatBand band = "6GHz" <-> count_6g counted = (count_6g n + 1)%Z) /\
  (formatBand band = "5GHz" <-> count_5g counted = (count_5g n + 1)%Z) /\
  (count_2g4 counted = (count_2g4 n + 1)%Z -> formatBand band = "2.4GHz") /\
  (formatBand band = "6GHz"
   <-> band_is_6ghz (VObj [("band", VStr band)]) = true).
Proof.
  unfold formatBand, count_band, band_is_6ghz. cbn [field get assoc].
  cbv zeta. cbn -[includes toLowerCase Z.add].
  destruct (includes (toLowerCase band) "6g") eqn:E6; cbn [orb].
  - cbn. repeat split; intros; try reflexivity; try discriminate; try lia.
  - assert (N6 : (toLowerCase band =? "6g") = false).
    { destruct (toLowerCase band =? "6g") eqn:Q; [|reflexivity].
      apply String.eqb_eq in Q. rewrite Q in E6. discriminate. }
    rewrite N6.
    destruct (includes (toLowerCase band) "5g") eqn:E5; cbn [orb].
    + cbn. repeat split; intros; try reflexivity; try discriminate; try lia.
    + assert (N5 : (toLowerCase band =? "5g") = false).
      { destruct (toLowerCase band =? "5g") eqn:Q; [|reflexivity].
        apply String.eqb_eq in Q. rewrite Q in E5. discriminate. }
      rewrite N5.
      assert (L : (if includes (toLowerCase band) "2g4"
                      || includes (toLowerCase band) "2.4"
                      || includes (toLowerCase band) "2d4g"
                   then "2.4GHz" else "2.4GHz") = "2.4GHz")
        by (destruct (_ || _); reflexivity).
      rewrite L.
      destruct (includes (toLowerCase band) "2" || _ || _); cbn;
        repeat split; intros; try reflexivity; try discriminate; try lia.
Qed.

Lemma escapeString_stops (a b x y : string) :
  escapeString a ++ String ";" x = escapeString b ++ String ";" y ->
  a = b /\ x = y.
Proof.
  revert b. induction a as [|c a IH]; intros [|d b]; cbn.
  - intros H. inversion H. auto.
  - destruct (is_special d) eqn:S; intros H; inversion H; subst.
    discriminate S.
  - destruct (is_special c) eqn:S; intros H; inversion H; subst.
    discriminate S.
  - destruct (is_special c) eqn:Sc; destruct (is_special d) eqn:Sd;
      intros H; inversion H; subst.
    + destruct (IH b H2) as [-> ->]. auto.
    + discriminate Sd.
    + discriminate Sc.
    + destruct (IH b H2) as [-> ->]. auto.
Qed.

Lemma generateWifiString_injective
    (ssid1 password1 ssid2 password2 : string) (security : option string) :
  generateWifiString ssid1 password1 security
  = generateWifiString ssid2 password2 security ->
  ssid1 = ssid2 /\ password1 = password2.
Proof.
  unfold generateWifiString. cbv zeta. intros H.
  cbn [append] in H. injection H as H.
  apply append_cancel in H. cbn [append] in H. injection H as H.
  change (escapeString ssid1 ++ String ";" ("P:" ++ escapeString password1 ++ ";;")
          = escapeString ssid2 ++ String ";" ("P:" ++ escapeString password2 ++ ";;"))
    in H.
  apply escapeString_stops in H. destruct H as [-> H]. split; [reflexivity|].
  cbn [append] in H. injection H as H.
  change (escapeString password1 ++ String ";" ";"
          = escapeString password2 ++ String ";" ";") in H.
  apply escapeString_stops in H. now destruct H.
Qed.

(** X27. The text [generateWifiString] makes for the QR code tells the
    network name and the password apart: for one security type, two
    different pairs of name and password never give the same text,
    whatever separators they contain. *)
Theorem generateWifiString_is_unambiguous
    (ssid1 password1 ssid2 password2 : string) (security : option string) :
  (ssid1, password1) <> (ssid2, password2) ->
  generateWifiString ssid1 password1 security
  <> generateWifiString ssid2 password2 security.
Proof.
  intros N E. apply N.
  destruct (generateWifiString_injective _ _ _ _ _ E) as [-> ->].
  reflexivity.
Qed.

(** X28. A mocked family is indistinguishable from the hardware it stands
    for: the names [MOCK_MODEL_NAMES] and the header give to a family are
    classified as that family, and the record a mock detection returns,
    without sending anything, is the one a live detection returns from an
    appliance that reports the mock's name and flavor. *)
Theorem mock_detection_matches_a_live_one (R1 R2 : Runtime) (w : World)
    (m : FreeboxModel) :
  mockModel R1 = Some m ->
  mockModel R2 = None ->
  fetch R2 (length (requests w)) (version_request w)
  = reporting m (version_request w) ->
  detectModelFromName (fst (MOCK_MODEL_NAMES m)) = m /\
  detectModelFromName (getDisplayName (model_key m)) = m /\
  fst (_performDetection R1 w) = fst (_performDetection R2 w) /\
  requests (snd (_performDetection R1 w)) = requests w.
Proof.
  intros H1 H2 Hf.
  split; [destruct m; reflexivity|].
  split; [destruct m; reflexivity|].
  split.
  - rewrite (performDetection_live R2 w H2). cbv zeta. rewrite Hf.
    unfold _performDetection. rewrite H1.
    destruct m; vm_compute; reflexivity.
  - unfold _performDetection. rewrite H1. reflexivity.
Qed.


(** X8: the checks after the detection of a Delta. *)
Lemma helpers_answer_from_the_detected_record_witness :
  let R := posix_runtime default_config (cooperative "Freebox v8 (Delta)" "full") None in
  let w' := snd (detectModel R (boot fresh_disk)) in
  fst (modelDetection.supportsVm w') = Returned true /\
  fst (modelDetection.getMaxVms w') = Returned 3%Z /\
  fst (modelDetection.getModelName w') = Returned "Freebox v8 (Delta)".
Proof.
  intros R w'.
  assert (Hd : detectModel R (boot fresh_disk)
               = (Returned (Detected (buildCapabilities delta "Freebox v8 (Delta)"
                                        flavor_full)), w')).
  { rewrite (surjective_pairing (detectModel R (boot fresh_disk))).
    apply f_equal2; [vm_compute; reflexivity | reflexivity]. }
  destruct (helpers_answer_from_the_detected_record R _ _ _ Hd)
    as [_ [H1 [_ [H2 [_ [_ [_ [H3 _]]]]]]]].
  split; [exact H1 | split; [exact H2 | exact H3]].
Defined.

(** X9: a detection on a process that has just started. *)
Lemma supportsVm_agrees_with_getMaxVms_once_detected_witness :
  let R := posix_runtime default_config (cooperative "Freebox Pop" "light") None in
  let w' := snd (detectModel R (boot fresh_disk)) in
  cache_built (boot fresh_disk) /\
  cache_built w' /\
  fst (modelDetection.hasFullVmSupport w') = fst (modelDetection.isUltra w').
Proof.
  intros R w'. split; [exact I|].
  assert (Hd : detectModel R (boot fresh_disk)
               = (Returned (Detected (buildCapabilities pop "Freebox Pop"
                                        flavor_light)), w')).
  { rewrite (surjective_pairing (detectModel R (boot fresh_disk))).
    apply f_equal2; [vm_compute; reflexivity | reflexivity]. }
  destruct (supportsVm_agrees_with_getMaxVms_once_detected R (boot fresh_disk)
              w' _ eq_refl I Hd)
    as [H1 [_ [H2 _]]].
  split; [exact H1 | exact H2].
Defined.

(** X10: a path with an accented letter and a character outside the
    basic plane. *)
Lemma file_requests_identify_their_path_witness :
  let R := posix_runtime default_config unreachable None in
  let path := [47; 233; 55357; 56832]%N in
  well_formed path = true /\
  exists req,
    requests (snd (listFiles R path (boot fresh_disk))) = [req] /\
    req_url req = "https://mafreebox.freebox.fr/api/v4/fs/ls/L8Op8J+YgA==".
Proof.
  intros R path. split; [reflexivity|].
  destruct (file_requests_identify_their_path R (boot fresh_disk) path path
              eq_refl eq_refl) as [_ [[req [H1 [_ H2]]] _]].
  exists req. split; [exact H1 | exact H2].
Defined.

(** X13: a fourth machine on a Delta that hosts three. *)
Lemma vm_create_enforces_the_limit_witness :
  let vms := [VObj [("id", VNum "1")]; VObj [("id", VNum "2")];
              VObj [("id", VNum "3")]] in
  let R := posix_runtime default_config (hosting vms) None in
  let w := snd (detectModel R (boot fresh_disk)) in
  let done := vm_create R (VObj [("name", VStr "fourth")]) w in
  fst done
  = Returned
      (Replied 400
         (refusal "vm_limit_reached"
            "Limite atteinte: Freebox v8 (Delta) supporte maximum 3 VM(s). Vous en avez déjà 3.")) /\
  map req_method (requests (snd done)) = ["GET"; "GET"].
Proof.
  intros vms R w done. subst done.
  rewrite (vm_create_enforces_the_limit R w (VObj [("name", VStr "fourth")])
             (buildCapabilities delta "Freebox v8 (Delta)" flavor_full) vms).
  - split; reflexivity.
  - reflexivity.
  - reflexivity.
  - vm_compute; reflexivity.
  - vm_compute; reflexivity.
  - vm_compute; discriminate.
Defined.

(** X14: the same creation before any detection is let through. *)
Lemma vm_create_checks_no_count_otherwise_witness :
  let vms := [VObj [("id", VNum "1")]; VObj [("id", VNum "2")];
              VObj [("id", VNum "3")]] in
  let R := posix_runtime default_config (hosting vms) None in
  let done := vm_create R (VObj [("name", VStr "fourth")]) (boot fresh_disk) in
  fst done = Returned (Replied 200 (success_of (VObj [("id", VNum "7")]))) /\
  exists rest,
    requests (snd done)
    = request_options (boot fresh_disk) "v4" "GET" "/storage/disk/" VUndefined true
      :: rest /\
    Forall (fun req => req_method req = "POST") rest.
Proof.
  intros vms R done. split; [vm_compute; reflexivity|].
  exact (vm_create_checks_no_count_otherwise R (boot fresh_disk)
           (VObj [("name", VStr "fourth")]) eq_refl eq_refl).
Defined.

(** X15: a token file that holds an empty object. *)
Lemma auth_login_refuses_without_a_token_witness :
  let R := posix_runtime default_config unreachable None in
  let createError := fun (message : string) (_ : Z) (_ : string) =>
                       ErrorObj "Error" message in
  let w := snd (constructor R
                  (boot (fs_set fresh_disk "/app/data/freebox_token.json"
                           (File "{}")))) in
  appToken (api w) = VUndefined /\
  fst (isRegistered w) = Returned true /\
  auth_login R createError w
  = (Thrown (ErrorObj "Error" "No app_token available. Please register first."),
     w).
Proof.
  intros R createError w.
  assert (Ht : appToken (api w) = VUndefined) by (vm_compute; reflexivity).
  destruct (auth_login_refuses_without_a_token R createError w) as [H1 H2].
  - rewrite Ht. reflexivity.
  - rewrite Ht in H1, H2. split; [exact Ht|]. split; [exact H1 | exact H2].
Defined.

(** X16: a login while the version endpoint answers. *)
Lemma auth_login_always_reports_a_model_witness :
  let R := posix_runtime default_config (cooperative "Freebox Pop" "light") None in
  let createError := fun (message : string) (_ : Z) (_ : string) =>
                       ErrorObj "Error" message in
  let w := with_token (boot fresh_disk) "tok" in
  exists c w2,
    auth_login R createError w
    = (Returned
         (Replied 200
            (success_of
               (VObj [("permissions", VObj [("settings", VBool true)]);
                      ("capabilities", json_of_capabilities c);
                      ("message", VStr "Login successful")]))),
       w2) /\
    capabilities (detection w2) = Some c.
Proof.
  intros R createError w.
  assert (Hlogin : login R w
                   = (Returned {| sd_sessionToken := VStr "sess";
                                  sd_challenge := VStr "def";
                                  sd_permissions := VObj [("settings", VBool true)] |},
                      snd (login R w))).
  { rewrite (surjective_pairing (login R w)) at 1.
    apply f_equal2; [vm_compute; reflexivity | reflexivity]. }
  destruct (auth_login_always_reports_a_model R createError _ _ _ Hlogin eq_refl)
    as [c [w2 [H1 [H2 _]]]].
  exists c, w2. split; [exact H1 | exact H2].
Defined.

(** X18: a session check against an appliance that cannot be reached,
    and against one that answers with [success: 0]. *)
Lemma auth_check_skips_detection_when_logged_out_witness :
  let R := posix_runtime default_config unreachable None in
  let R' := posix_runtime default_config
              (fun _ => json_response (VObj [("success", VNum "0")])) None in
  let w := boot fresh_disk in
  fst (auth_check R w)
  = Returned
      (Replied 200
         (success_of
            (VObj [("isRegistered", VBool false); ("isLoggedIn", VBool false);
                   ("permissions", VObj []); ("capabilities", VNull)]))) /\
  fst (auth_check R' w)
  = Returned
      (Replied 200
         (success_of
            (VObj [("isRegistered", VBool false); ("isLoggedIn", VNum "0");
                   ("permissions", VObj []); ("capabilities", VNull)]))) /\
  capabilities (detection (snd (auth_check R w))) = None /\
  length (requests (snd (auth_check R w))) = 1%nat.
Proof.
  intros R R' w.
  rewrite (auth_check_skips_detection_when_logged_out R w (VBool false)
             eq_refl eq_refl).
  rewrite (auth_check_skips_detection_when_logged_out R' w (VNum "0")
             ltac:(vm_compute; reflexivity) eq_refl).
  repeat split.
Defined.

(** X23: one 5 GHz and one 6 GHz radio on a box without 6 GHz support. *)
Lemma wifi_summary_hides_6ghz_witness :
  let ap5 := VObj [("id", VNum "0"); ("band", VStr "5G")] in
  let ap6 := VObj [("id", VNum "1"); ("band", VStr "6G")] in
  let failed := Returned (failure "request_failed" "fetch failed") in
  exists body,
    wifi_summary false failed (Returned (success_of (VArr [ap5; ap6])))
      failed failed = Returned body /\
    field (field body "result") "aps" = VArr [ap5] /\
    field (field body "result") "bss" = VArr [].
Proof.
  intros ap5 ap6 failed.
  destruct (wifi_summary false failed (Returned (success_of (VArr [ap5; ap6])))
              failed failed) as [body|e] eqn:E; [|vm_compute in E; discriminate].
  exists body. split; [reflexivity|].
  destruct (wifi_summary_hides_6ghz failed
              (Returned (success_of (VArr [ap5; ap6]))) failed failed
              [ap5; ap6] [] body eq_refl eq_refl E) as [H1 [H2 _]].
  split; [exact H1 | exact H2].
Defined.

(** X25: a start date of 0. *)
Lemma absent_optional_arguments_are_not_sent_witness :
  let R := posix_runtime default_config unreachable None in
  exists req,
    requests (snd (getRrdData R "net" (VNum "0") VUndefined VUndefined
                     (boot fresh_disk))) = [req] /\
    req_body req = Some ("{" ++ quote "db" ++ ":" ++ quote "net" ++ "}").
Proof.
  intros R.
  destruct (absent_optional_arguments_are_not_sent R (boot fresh_disk)
              "net" "pub" "00:11:22:33:44:55" "http://example.org/a.iso"
              (VNum "0") eq_refl) as [[req [H1 H2]] _].
  exists req. split; [exact H1 | exact H2].
Defined.

(** X27: two pairs that would collide if the separators were not escaped. *)
Lemma generateWifiString_is_unambiguous_witness :
  generateWifiString "box;P:a" "b" None <> generateWifiString "box" "a;P:b" None /\
  "WIFI:T:WPA;S:" ++ "box;P:a" ++ ";P:" ++ "b" ++ ";;"
  = "WIFI:T:WPA;S:" ++ "box" ++ ";P:" ++ "a;P:b" ++ ";;".
Proof.
  split; [|reflexivity].
  apply (generateWifiString_is_unambiguous "box;P:a" "b" "box" "a;P:b" None).
  discriminate.
Defined.

(** X28: [MOCK_FREEBOX_MODEL=POP] against an appliance that reports a Pop. *)
Lemma mock_detection_matches_a_live_one_witness :
  let R1 := posix_runtime default_config unreachable (Some "POP") in
  let R2 := posix_runtime default_config (reporting pop) None in
  fst (_performDetection R1 (boot fresh_disk))
  = fst (_performDetection R2 (boot fresh_disk)) /\
  requests (snd (_performDetection R1 (boot fresh_disk))) = [].
Proof.
  intros R1 R2.
  destruct (mock_detection_matches_a_live_one R1 R2 (boot fresh_disk) pop
              eq_refl eq_refl eq_refl) as [_ [_ [H3 H4]]].
  split; [exact H3 | exact H4].
Defined.

(** ** The routes when the appliance fails *)

Section VmFailure.
Variable R : Runtime.

Lemma failure_not_successful (o : FetchOutcome) :
  failed_exchange o = true ->
  exists s, get (result_of_exchange o) "success" = Returned s /\
            truthy s = false.
Proof.
  intros H. apply failed_exchange_result in H.
  destruct (result_of_exchange o) as [| | | | | |fs]; try discriminate.
  cbn in H. cbn. eexists. split; [reflexivity|].
  now apply negb_true_iff in H.
Qed.

(** X29. When every exchange with the appliance fails (it is unreachable,
    answers something that is not JSON, or reports failures),
    [POST /api/vm] answers 400 [no_disk]: the count check of a family with
    limited support lets the request through when the machine list cannot
    be had, and the disk check takes the failed answer for a missing
    disk.  The creation itself is not sent. *)
Theorem vm_create_blames_the_disk_when_the_appliance_fails
    (w : World) (body : JsVal) :
  vm_refused w = None ->
  (forall n req, failed_exchange (fetch R n req) = true) ->
  let ask endpoint := request_options w (cfg_apiVersion (config R)) "GET"
                        endpoint VUndefined true in
  fst (vm_create R body w)
  = Returned
      (Replied 400
         (refusal "no_disk"
            "Aucun disque disponible. Un disque est nécessaire pour créer une VM.")) /\
  requests (snd (vm_create R body w))
  = (requests w
     ++ (if limit_checked w then [ask "/vm/"] else [])
     ++ [ask "/storage/disk/"])%list.
Proof.
  intros Hr Hf. cbv zeta. unfold vm_refused in Hr. unfold limit_checked.
  unfold vm_create, getCapabilities, bind, read. cbv beta iota zeta.
  rewrite Hr.
  assert (L : forall c w0, vm_limit_check R c w0
                = (Returned None,
                   after_exchange R w0
                     (request_options w0 (cfg_apiVersion (config R)) "GET"
                        API_ENDPOINTS.VM VUndefined true))).
  { intros c w0. unfold vm_limit_check, try_catch, getVms, bind.
    rewrite request_run. cbv zeta. unfold lift.
    destruct (failure_not_successful _ (Hf (length (requests w0))
                (request_options w0 (cfg_apiVersion (config R)) "GET"
                   API_ENDPOINTS.VM VUndefined true))) as [s [Es Ts]].
    rewrite Es, Ts. reflexivity. }
  assert (D : forall w0, vm_disk_check R w0
                = (Returned
                     (Some (Replied 400
                        (refusal "no_disk"
                           "Aucun disque disponible. Un disque est nécessaire pour créer une VM."))),
                   after_exchange R w0
                     (request_options w0 (cfg_apiVersion (config R)) "GET"
                        API_ENDPOINTS.STORAGE_DISK VUndefined true))).
  { intros w0. unfold vm_disk_check, try_catch, getDisks, bind.
    rewrite request_run. cbv zeta. unfold lift.
    destruct (failure_not_successful _ (Hf (length (requests w0))
                (request_options w0 (cfg_apiVersion (config R)) "GET"
                   API_ENDPOINTS.STORAGE_DISK VUndefined true))) as [s [Es Ts]].
    rewrite Es, Ts. reflexivity. }
  destruct (capabilities (detection w)) as [c|].
  - destruct (VmSupport_eqb (vmSupport c) vm_limited).
    + rewrite L, D. split; [reflexivity|].
      unfold after_exchange. cbn [snd requests]. now rewrite <- app_assoc.
    + unfold ret. rewrite D. split; reflexivity.
  - unfold ret. rewrite D. split; reflexivity.
Qed.

End VmFailure.

(** X29: a Delta that has become unreachable. *)
Lemma vm_create_blames_the_disk_when_the_appliance_fails_witness :
  let R := posix_runtime default_config unreachable None in
  let w := cached (boot fresh_disk)
             (buildCapabilities delta "Freebox v8 (Delta)" flavor_full) in
  limit_checked w = true /\
  fst (vm_create R (VObj [("name", VStr "fourth")]) w)
  = Returned
      (Replied 400
         (refusal "no_disk"
            "Aucun disque disponible. Un disque est nécessaire pour créer une VM.")) /\
  map req_url (requests (snd (vm_create R (VObj [("name", VStr "fourth")]) w)))
  = ["https://mafreebox.freebox.fr/api/v4/vm/";
     "https://mafreebox.freebox.fr/api/v4/storage/disk/"].
Proof.
  intros R w. split; [reflexivity|].
  destruct (vm_create_blames_the_disk_when_the_appliance_fails R w
              (VObj [("name", VStr "fourth")]) eq_refl
              (fun n req => eq_refl)) as [H1 H2].
  split; [exact H1|]. rewrite H2. reflexivity.
Defined.

Section WifiFailure.
Variable R : Runtime.

Lemma fulfilled_result_of_failure (o : FetchOutcome) (fallback : JsVal) :
  failed_exchange o = true ->
  fulfilled_result (Returned (result_of_exchange o)) fallback
  = Returned fallback.
Proof.
  intros H. destruct (failure_not_successful o H) as [s [Es Ts]].
  unfold fulfilled_result, and_then. now rewrite Es, Ts.
Qed.

(** X30. When every exchange with the appliance fails, [GET /api/wifi/full]
    still replies [success: true], after its four requests, with an empty
    summary: no configuration, no access point, no BSS and no device. *)
Theorem wifi_full_masks_failures (w : World) :
  (forall n req, failed_exchange (fetch R n req) = true) ->
  fst (wifi_full R w)
  = Returned
      (Replied 200
         (success_of
            (VObj [("config", VNull); ("aps", VArr []); ("bss", VArr []);
                   ("wifiDeviceCount", VNum "0");
                   ("devicesByBand",
                    VObj [("2g4", VNum "0"); ("5g", VNum "0");
                          ("6g", VNum "0")])]))) /\
  length (requests (snd (wifi_full R w))) = (length (requests w) + 4)%nat.
Proof.
  intros Hf.
  unfold wifi_full, settle, getWifiConfig, getWifiAps, getWifiBss,
    getLanHosts, bind.
  rewrite request_run. cbv beta iota zeta.
  rewrite request_run. cbv beta iota zeta.
  rewrite request_run. cbv beta iota zeta.
  rewrite request_run. cbv beta iota zeta.
  unfold modelDetection.supportsWifi6ghz, read, lift.
  unfold wifi_summary.
  rewrite !fulfilled_result_of_failure by apply Hf.
  unfold and_then at 1 2 3.
  match goal with
  | |- context [get (result_of_exchange ?o) "success"] =>
      destruct (failure_not_successful o (Hf _ _)) as [s [Es Ts]];
      rewrite Es
  end.
  unfold and_then. rewrite Ts. cbv beta iota zeta.
  split.
  - destruct (match capabilities (detection _) with
              | Some c => wifi6ghz c
              | None => false
              end); reflexivity.
  - destruct (match capabilities (detection _) with
              | Some c => wifi6ghz c
              | None => false
              end); cbn; rewrite !length_app; cbn; lia.
Qed.

End WifiFailure.

(** X30: the summary of an appliance that cannot be reached. *)
Lemma wifi_full_masks_failures_witness :
  let R := posix_runtime default_config unreachable None in
  fst (wifi_full R (boot fresh_disk))
  = Returned
      (Replied 200
         (success_of
            (VObj [("config", VNull); ("aps", VArr []); ("bss", VArr []);
                   ("wifiDeviceCount", VNum "0");
                   ("devicesByBand",
                    VObj [("2g4", VNum "0"); ("5g", VNum "0");
                          ("6g", VNum "0")])]))) /\
  length (requests (snd (wifi_full R (boot fresh_disk)))) = 4%nat.
Proof.
  intros R.
  exact (wifi_full_masks_failures R (boot fresh_disk) (fun n req => eq_refl)).
Defined.
